(** * Skill-badge platform: registration and badge-issuance workflows

    A shallow embedding of the TypeScript sources of the platform
    (backend controllers and services, the Stellar ledger clients, the
    frontend metadata helper and the two dashboard tabs that talk to the
    record store), followed by the properties of the written
    specification that can be stated over them.

    Conventions of the embedding.
    - A JavaScript [number] is an IEEE-754 binary64, modelled by Rocq's
      primitive [float]; [Date.now()] is a non-negative integer number of
      milliseconds, modelled by [N].
    - An optional parameter ([score?: number]) is an [option]; [None] is
      [undefined].
    - A JavaScript string is the string of the bytes of its UTF-8
      encoding; identifiers, keys and URLs are ASCII, one byte per
      character.
    - Asynchronous functions are functions in a state-and-exception
      monad over an explicit world: the clock, the random source, the
      RPC server, the object store and the record store are read through
      oracles, so every theorem quantifies over all their behaviours. *)

From Stdlib Require Import ZArith NArith String Ascii List Bool Lia.
From Stdlib Require Import DecimalString DecimalN.
From Stdlib Require Import PrimFloat SpecFloat FloatOps.
From stdpp Require Import base option list gmap strings.

Local Open Scope string_scope.

(* ===================================================================== *)
(** ** The JavaScript runtime: strings and numbers                        *)
(* ===================================================================== *)

Module Js.

(** Decimal digits of a natural number, as template literals print an
    integer-valued number below 2^53. *)
Definition dec (n : N) : string := NilEmpty.string_of_uint (N.to_uint n).

Definition decZ (z : Z) : string :=
  match z with
  | Zneg p => "-" +:+ dec (Npos p)
  | _ => dec (Z.to_N z)
  end.

Fixpoint zeros (k : nat) : string :=
  match k with
  | O => ""
  | S k' => String "0" (zeros k')
  end.

(** [padStart(width, '0')] on the decimal digits of [n]. *)
Definition pad (width : nat) (n : N) : string :=
  let s := dec n in zeros (width - String.length s) +:+ s.

(** [String.prototype.startsWith]. *)
Fixpoint startsWith (s p : string) {struct p} : bool :=
  match p, s with
  | EmptyString, _ => true
  | String a p', String b s' => Ascii.eqb a b && startsWith s' p'
  | String _ _, EmptyString => false
  end.

(** [String.prototype.includes]. *)
Fixpoint includes (s sub : string) : bool :=
  startsWith s sub ||
  match s with
  | EmptyString => false
  | String _ s' => includes s' sub
  end.

(** [x || dflt] on an optional string: the default replaces [undefined]
    and the empty string, the two falsy values of the type. *)
Definition or_default (x : option string) (dflt : string) : string :=
  match x with
  | Some (String c s) => String c s
  | _ => dflt
  end.

(** [!x] on an optional string. *)
Definition falsy (x : option string) : bool :=
  match x with
  | Some (String _ _) => false
  | _ => true
  end.

(** *** Binary64 numbers *)

Definition Number := float.

(** The exact value of a finite non-zero double is [m * 2^e]. *)
Definition pow2 (e : Z) : Z := Z.pow 2 e.
Definition pow10 (e : Z) : Z := Z.pow 10 e.

(** A positive rational [num / den], [den > 0], used for exact
    comparisons of doubles with decimal fractions. *)
Record Frac := mkFrac { num : Z; den : Z }.

Definition frac_of_double (m : positive) (e : Z) : Frac :=
  if (0 <=? e)%Z then mkFrac (Zpos m * pow2 e) 1
  else mkFrac (Zpos m) (pow2 (- e)).

Definition frac_scale10 (q : Frac) (p : Z) : Frac :=
  (* q * 10^p *)
  if (0 <=? p)%Z then mkFrac (num q * pow10 p) (den q)
  else mkFrac (num q) (den q * pow10 (- p)).

Definition frac_floor (q : Frac) : Z := (num q / den q)%Z.

Definition frac_cmp (a b : Frac) : comparison :=
  (num a * den b ?= num b * den a)%Z.

Definition frac_of_Z (z : Z) : Frac := mkFrac z 1.

(** [Number.prototype.toFixed(2)], steps of ECMA-262 21.1.3.3 for a
    finite value below 10^21: [n] is the integer for which [n / 100 - x]
    is closest to zero, the larger one on a tie. *)
Definition fixed2_digits (n : Z) : string :=
  let m := dec (Z.to_N n) in
  let k := String.length m in
  let m' := if (k <=? 2)%nat then zeros (3 - k) +:+ m else m in
  let k' := String.length m' in
  String.substring 0 (k' - 2) m' +:+ "." +:+ String.substring (k' - 2) 2 m'.

Definition round_half_up_100 (m : positive) (e : Z) : Z :=
  (* floor (x * 100 + 1/2) for x = m * 2^e *)
  let q := frac_of_double m e in
  ((2 * 100 * num q + den q) / (2 * den q))%Z.

Definition ge_1e21 (m : positive) (e : Z) : bool :=
  match frac_cmp (frac_of_double m e) (frac_of_Z (pow10 21)) with
  | Lt => false
  | _ => true
  end.

(** *** Number::toString (ECMA-262 6.1.6.1.20)

    For a finite positive [x = m * 2^e] the digits are the shortest
    decimal [s * 10^(n-k)], [k] digits, that rounds back to [x]; among
    several the closest to [x], the even one on a tie. *)

(** The decimal exponent [n] with [10^(n-1) <= x < 10^n]. *)
Fixpoint dec_exponent_from (fuel : nat) (q : Frac) (n : Z) : Z :=
  match fuel with
  | O => n
  | S fuel' =>
      (* is q < 10^n ? *)
      match frac_cmp (frac_scale10 q (- n)) (frac_of_Z 1) with
      | Lt => n
      | _ => dec_exponent_from fuel' q (n + 1)
      end
  end.

Definition dec_exponent (m : positive) (e : Z) : Z :=
  let est := ((Z.log2 (Zpos m) + e) * 30103 / 100000 - 2)%Z in
  dec_exponent_from 8 (frac_of_double m e) est.

(** The rounding interval of [x], in quarter units of the last place:
    [x = 4m], upper bound [4m + 2], lower bound [4m - 2], or [4m - 1]
    when [x] is a power of two above the subnormal range. *)
Definition lower_quarter (m : positive) (e : Z) : Z :=
  if (Zpos m =? pow2 52)%Z && (-1074 <? e)%Z then (4 * Zpos m - 1)%Z
  else (4 * Zpos m - 2)%Z.

Definition upper_quarter (m : positive) : Z := (4 * Zpos m + 2)%Z.

Definition quarter (m : positive) (e : Z) (k : Z) : Frac :=
  (* k quarter-units = k * 2^(e-2) *)
  if (0 <=? e - 2)%Z then mkFrac (k * pow2 (e - 2)) 1
  else mkFrac k (pow2 (2 - e)).

Definition rounds_to (m : positive) (e : Z) (v : Frac) : bool :=
  let even := Z.even (Zpos m) in
  let lo := frac_cmp (quarter m e (lower_quarter m e)) v in
  let hi := frac_cmp v (quarter m e (upper_quarter m)) in
  match lo, hi with
  | Lt, Lt => true
  | Eq, Lt => even
  | Lt, Eq => even
  | _, _ => false
  end.

(** |v - x| compared with |w - x| for v <= x <= w. *)
Definition closer_low (x v w : Frac) : comparison :=
  (* (x - v) ?= (w - x)  <->  2x ?= v + w *)
  let lhs := mkFrac (2 * num x) (den x) in
  let rhs := mkFrac (num v * den w + num w * den v) (den v * den w) in
  frac_cmp lhs rhs.

Fixpoint shortest_from (fuel : nat) (m : positive) (e : Z) (n0 : Z) (k : Z)
  : Z * Z :=
  (* returns (s, n): digits s, decimal point position n *)
  let x := frac_of_double m e in
  let p := (n0 - k)%Z in
  let s_lo := frac_floor (frac_scale10 x (- p)) in
  let s_hi := (s_lo + 1)%Z in
  let v_lo := frac_scale10 (frac_of_Z s_lo) p in
  let v_hi := frac_scale10 (frac_of_Z s_hi) p in
  let norm (s : Z) : Z * Z :=
    if (s =? pow10 k)%Z then (pow10 (k - 1), n0 + 1)%Z else (s, n0) in
  let ok_lo := (pow10 (k - 1) <=? s_lo)%Z && rounds_to m e v_lo in
  let ok_hi := rounds_to m e v_hi in
  match fuel with
  | O => norm s_lo
  | S fuel' =>
      match ok_lo, ok_hi with
      | true, false => norm s_lo
      | false, true => norm s_hi
      | true, true =>
          match closer_low x v_lo v_hi with
          | Lt => norm s_lo
          | Gt => norm s_hi
          | Eq => if Z.even s_lo then norm s_lo else norm s_hi
          end
      | false, false => shortest_from fuel' m e n0 (k + 1)
      end
  end.

Definition shortest (m : positive) (e : Z) : Z * Z :=
  shortest_from 17 m e (dec_exponent m e) 1.

Definition layout (s n : Z) : string :=
  let digits := dec (Z.to_N s) in
  let k := Z.of_nat (String.length digits) in
  if (k <=? n)%Z && (n <=? 21)%Z then
    digits +:+ zeros (Z.to_nat (n - k))
  else if (0 <? n)%Z && (n <=? 21)%Z then
    String.substring 0 (Z.to_nat n) digits +:+ "." +:+
    String.substring (Z.to_nat n) (Z.to_nat (k - n)) digits
  else if (-6 <? n)%Z && (n <=? 0)%Z then
    "0." +:+ zeros (Z.to_nat (- n)) +:+ digits
  else
    let ex := (n - 1)%Z in
    let sign := if (ex <? 0)%Z then "-" else "+" in
    let mant :=
      if (k =? 1)%Z then digits
      else String.substring 0 1 digits +:+ "." +:+
           String.substring 1 (Z.to_nat (k - 1)) digits in
    mant +:+ "e" +:+ sign +:+ dec (Z.to_N (Z.abs ex)).

Definition Number_toString (x : Number) : string :=
  match Prim2SF x with
  | S754_nan => "NaN"
  | S754_zero _ => "0"
  | S754_infinity false => "Infinity"
  | S754_infinity true => "-Infinity"
  | S754_finite neg m e =>
      let '(s, n) := shortest m e in
      (if neg then "-" else "") +:+ layout s n
  end.

Definition toFixed2 (x : Number) : string :=
  match Prim2SF x with
  | S754_finite neg m e =>
      if ge_1e21 m e then Number_toString x
      else (if neg then "-" else "") +:+ fixed2_digits (round_half_up_100 m e)
  | S754_zero _ => "0.00"
  | _ => Number_toString x
  end.

(** [`${v}`] on an optional number. *)
Definition template_number (v : option Number) : string :=
  match v with
  | Some x => Number_toString x
  | None => "undefined"
  end.

(** Truthiness of an optional number: [undefined], [0], [-0] and [NaN]
    are falsy. *)
Definition truthy_number (v : option Number) : bool :=
  match v with
  | None => false
  | Some x =>
      match Prim2SF x with
      | S754_zero _ | S754_nan => false
      | _ => true
      end
  end.

(** *** [Date.prototype.toISOString] on a clock reading in milliseconds *)

Definition civil_from_days (days : Z) : Z * Z * Z :=
  let z := (days + 719468)%Z in
  let era := (z / 146097)%Z in
  let doe := (z mod 146097)%Z in
  let yoe := ((doe - doe / 1460 + doe / 36524 - doe / 146096) / 365)%Z in
  let doy := (doe - (365 * yoe + yoe / 4 - yoe / 100))%Z in
  let mp := ((5 * doy + 2) / 153)%Z in
  let d := (doy - (153 * mp + 2) / 5 + 1)%Z in
  let mo := if (mp <? 10)%Z then (mp + 3)%Z else (mp - 9)%Z in
  let y := (yoe + era * 400 + (if (mo <=? 2)%Z then 1 else 0))%Z in
  (y, mo, d).

Definition toISOString (ms : N) : string :=
  let t := Z.of_N ms in
  let days := (t / 86400000)%Z in
  let rest := (t mod 86400000)%Z in
  let '(y, mo, d) := civil_from_days days in
  let year :=
    if (y <=? 9999)%Z then pad 4 (Z.to_N y) else "+" +:+ pad 6 (Z.to_N y) in
  year +:+ "-" +:+ pad 2 (Z.to_N mo) +:+ "-" +:+ pad 2 (Z.to_N d) +:+ "T" +:+
  pad 2 (Z.to_N (rest / 3600000)) +:+ ":" +:+
  pad 2 (Z.to_N (rest / 60000 mod 60)) +:+ ":" +:+
  pad 2 (Z.to_N (rest / 1000 mod 60)) +:+ "." +:+
  pad 3 (Z.to_N (rest mod 1000)) +:+ "Z".

End Js.

(* ===================================================================== *)
(** ** Data model                                                          *)
(* ===================================================================== *)

(** NFT metadata document ([attributes] is the array of
    [{trait_type, value}] pairs). *)
Record Attribute := mkAttribute { trait_type : string; value : string }.

Record Metadata := mkMetadata {
  name : string;
  description : string;
  image : string;
  attributes : list Attribute
}.

(** Row of the [badges] table, as the badges tab reads and updates it. *)
Record Badge := mkBadge {
  id : string;
  test_id : string;
  wallet_address : string;
  nft_token_id : option string;
  mint_tx_hash : option string;
  metadata_url : option string;
  created_at : string
}.

(** Row of the [custom_badges] table, as the profile tab inserts it. *)
Record CustomBadge := mkCustomBadge {
  user_id : string;
  badge_name : string;
  svg_url : string
}.

(** [TestMetadata] and the two result types of [types/blockchain]. *)
Record TestMetadata := mkTestMetadata {
  testId : string;
  creator : string;
  metadataCid : string;
  createdAt : N
}.

Record TestRegistrationResult := mkTestRegistrationResult {
  reg_success : bool;
  reg_txHash : string;
  testMetadata : TestMetadata
}.

(** [tokenId] is declared a string; the signed ledger path assigns it
    whatever the decoder returns, hence the parameter. *)
Record NFTMintResult (T : Type) := mkNFTMintResult {
  success : bool;
  txHash : string;
  tokenId : T;
  metadataUrl : string
}.
Arguments mkNFTMintResult {T}.
Arguments success {T}.
Arguments txHash {T}.
Arguments tokenId {T}.
Arguments metadataUrl {T}.

(** Values a contract call decodes to ([scValToNative] returns [any]). *)
#[warnings="-register-all"]
Inductive Native :=
| NUndefined
| NNull
| NBool (b : bool)
| NNum (x : Js.Number)
| NStr (s : string)
| NObj (fields : list (string * Native))
| NArr (items : list Native).

(** A contract value either decodes to a native value or makes the
    decoder throw. *)
Inductive ScVal :=
| ScvDecodable (v : Native)
| ScvMalformed (why : string).

Record Account := mkAccount { accountId : string; sequenceNumber : string }.

Record Transaction := mkTransaction {
  source : string;
  contractId : string;
  method : string;
  args : list string;
  signedBy : option string
}.

(** Replies of the Soroban RPC server. *)
Record SimulateResponse := mkSimulateResponse {
  sim_error : option string;       (* [isSimulationError] when present *)
  sim_retval : option ScVal        (* [simulated.result.retval] *)
}.

Record SendResponse := mkSendResponse {
  send_status : string;
  send_hash : string;
  send_errorResult : string
}.

Record GetTransactionResponse := mkGetTransactionResponse {
  tx_status : string;
  tx_resultMetaXdr : bool;         (* present or not *)
  tx_returnValue : option ScVal
}.

Inductive RpcCall :=
| GetAccount (publicKey : string)
| SimulateTransaction (tx : Transaction)
| SendTransaction (tx : Transaction)
| GetTransaction (hash : string).

(** Object store. *)
Inductive Blob :=
| JsonBlob (body : Metadata)   (* [JSON.stringify(metadata, null, 2)] *)
| SvgBlob (bytes : string).

Inductive StorageError := Conflict | TransientStorageError | InvalidInput.

Inductive StorageFault := FaultTransient | FaultInvalid.

Inductive LogLevel := Warn | Error.

(* ===================================================================== *)
(** ** The world and its monad                                             *)
(* ===================================================================== *)

Inductive Outcome (A : Type) :=
| Returned (a : A)
| Thrown (message : string).
Arguments Returned {A}.
Arguments Thrown {A}.

Inductive SdkStep :=
| NewContract | KeypairRandom | NewTransactionBuilder | NativeToScVal
| ContractCall | BuildTransaction | AssembleTransaction | SignTransaction.

(** What the program cannot control: successive clock readings and random
    draws, the replies of the RPC server to the n-th request, local SDK
    operations that reject their arguments, faults of the object store
    and of the record store, what the object store answers to a
    listing, and the process configuration. *)
Record Env := mkEnv {
  clock : nat -> N;
  entropy : nat -> string;   (* [Math.random().toString(36).substring(7)] *)
  keygen : nat -> string;    (* [Keypair.random().publicKey()] *)
  rpc_getAccount : nat -> Outcome Account;
  rpc_simulate : nat -> Outcome SimulateResponse;
  rpc_send : nat -> Outcome SendResponse;
  rpc_getTransaction : nat -> Outcome GetTransactionResponse;
  sdk_fault : SdkStep -> list string -> option string;
  storage_fault : nat -> option StorageFault;
  storage_list : nat -> option (list string);
  db_fault : nat -> option string;
  supabaseUrl : string;
  NETWORK : string;
  BADGE_NFT_CONTRACT : option string;
  TEST_REGISTRY_CONTRACT : string
}.

Record State := mkState {
  ticks : nat;                       (* clock readings taken *)
  draws : nat;                       (* random draws taken *)
  keys : nat;                        (* key pairs generated *)
  rpc_log : list RpcCall;            (* requests sent, latest first *)
  slept : N;                         (* milliseconds spent in timers *)
  storage : gmap string Blob;        (* bucket/key to content *)
  storage_ops : nat;
  badges : list Badge;
  custom_badges : list CustomBadge;
  registry_refs : gmap string string; (* test id to registry reference *)
  db_ops : nat;
  console : list (LogLevel * string) (* warnings and errors, latest first *)
}.

(** The console holds the first argument of each [console.warn] and
    [console.error], without the pictograph some messages start with;
    [console.log] lines are not kept. [registry_refs] is the place of
    the record store where a registry reference would be persisted. *)

Definition M (A : Type) : Type := Env -> State -> Outcome A * State.

Definition ret {A} (a : A) : M A := fun _ s => (Returned a, s).

Definition throw {A} (message : string) : M A := fun _ s => (Thrown message, s).

Definition bind {A B} (m : M A) (k : A -> M B) : M B :=
  fun env s =>
    match m env s with
    | (Returned a, s') => k a env s'
    | (Thrown e, s') => (Thrown e, s')
    end.

(** [try { body } catch (error) { handler(error.message) }]. *)
Definition try_catch {A} (body : M A) (handler : string -> M A) : M A :=
  fun env s =>
    match body env s with
    | (Returned a, s') => (Returned a, s')
    | (Thrown e, s') => handler e env s'
    end.

(** [promise.catch(() => fallback)]. *)
Definition catch_with {A} (body : M A) (fallback : A) : M A :=
  try_catch body (fun _ => ret fallback).

Definition ask : M Env := fun env s => (Returned env, s).

Declare Scope prog_scope.
Delimit Scope prog_scope with prog.
Notation "x <- m ;; k" := (bind m (fun x => k))
  (at level 100, m at next level, right associativity) : prog_scope.
Notation "m ;;; k" := (bind m (fun _ => k))
  (at level 100, right associativity) : prog_scope.
Local Open Scope prog_scope.

(** *** State updates, one per field *)

Definition set_ticks (v : nat) (s : State) : State :=
  mkState v (draws s) (keys s) (rpc_log s) (slept s) (storage s)
    (storage_ops s) (badges s) (custom_badges s) (registry_refs s) (db_ops s)
    (console s).
Definition set_draws (v : nat) (s : State) : State :=
  mkState (ticks s) v (keys s) (rpc_log s) (slept s) (storage s)
    (storage_ops s) (badges s) (custom_badges s) (registry_refs s) (db_ops s)
    (console s).
Definition set_keys (v : nat) (s : State) : State :=
  mkState (ticks s) (draws s) v (rpc_log s) (slept s) (storage s)
    (storage_ops s) (badges s) (custom_badges s) (registry_refs s) (db_ops s)
    (console s).
Definition set_rpc_log (v : list RpcCall) (s : State) : State :=
  mkState (ticks s) (draws s) (keys s) v (slept s) (storage s)
    (storage_ops s) (badges s) (custom_badges s) (registry_refs s) (db_ops s)
    (console s).
Definition set_slept (v : N) (s : State) : State :=
  mkState (ticks s) (draws s) (keys s) (rpc_log s) v (storage s)
    (storage_ops s) (badges s) (custom_badges s) (registry_refs s) (db_ops s)
    (console s).
Definition set_storage (v : gmap string Blob) (n : nat) (s : State) : State :=
  mkState (ticks s) (draws s) (keys s) (rpc_log s) (slept s) v
    n (badges s) (custom_badges s) (registry_refs s) (db_ops s)
    (console s).
Definition set_badges (v : list Badge) (n : nat) (s : State) : State :=
  mkState (ticks s) (draws s) (keys s) (rpc_log s) (slept s) (storage s)
    (storage_ops s) v (custom_badges s) (registry_refs s) n
    (console s).
Definition set_custom_badges (v : list CustomBadge) (n : nat) (s : State)
  : State :=
  mkState (ticks s) (draws s) (keys s) (rpc_log s) (slept s) (storage s)
    (storage_ops s) (badges s) v (registry_refs s) n
    (console s).
Definition set_console (v : list (LogLevel * string)) (s : State) : State :=
  mkState (ticks s) (draws s) (keys s) (rpc_log s) (slept s) (storage s)
    (storage_ops s) (badges s) (custom_badges s) (registry_refs s) (db_ops s)
    v.

(** *** Primitive effects *)

(** [Date.now()]. *)
Definition Date_now : M N :=
  fun env s => (Returned (clock env (ticks s)), set_ticks (S (ticks s)) s).

(** [Math.random().toString(36).substring(7)]. *)
Definition random_suffix : M string :=
  fun env s => (Returned (entropy env (draws s)), set_draws (S (draws s)) s).

(** [await new Promise(resolve => setTimeout(resolve, ms))]. *)
Definition sleep (ms : N) : M unit :=
  fun _ s => (Returned tt, set_slept (slept s + ms)%N s).

Definition console_warn (msg : string) : M unit :=
  fun _ s => (Returned tt, set_console ((Warn, msg) :: console s) s).

Definition console_error (msg : string) : M unit :=
  fun _ s => (Returned tt, set_console ((Error, msg) :: console s) s).

(** A local SDK operation: throws when the SDK rejects its arguments. *)
Definition sdk (step : SdkStep) (arguments : list string) : M unit :=
  fun env s =>
    match sdk_fault env step arguments with
    | Some e => (Thrown e, s)
    | None => (Returned tt, s)
    end.

(** One request to the RPC server: logged, answered by the oracle. *)
Definition rpc {A} (call : RpcCall) (reply : Env -> nat -> Outcome A) : M A :=
  fun env s =>
    (reply env (length (rpc_log s)), set_rpc_log (call :: rpc_log s) s).

Definition server_getAccount (publicKey : string) : M Account :=
  rpc (GetAccount publicKey) rpc_getAccount.
Definition server_simulateTransaction (tx : Transaction) : M SimulateResponse :=
  rpc (SimulateTransaction tx) rpc_simulate.
Definition server_sendTransaction (tx : Transaction) : M SendResponse :=
  rpc (SendTransaction tx) rpc_send.
Definition server_getTransaction (hash : string) : M GetTransactionResponse :=
  rpc (GetTransaction hash) rpc_getTransaction.

(** [StellarSDK.scValToNative]. *)
Definition scValToNative (v : ScVal) : M Native :=
  match v with
  | ScvDecodable n => ret n
  | ScvMalformed why => throw why
  end.

(** [StellarSDK.Keypair.random()] followed by [.publicKey()]. *)
Definition Keypair_random : M string :=
  sdk KeypairRandom [] ;;;
  fun env s => (Returned (keygen env (keys s)), set_keys (S (keys s)) s).

(* ===================================================================== *)
(** ** Object store                                                        *)
(* ===================================================================== *)

Module ObjectStore.

Definition object_key (bucket path : string) : string :=
  bucket +:+ "/" +:+ path.

(** Modelled from the spec: the [message] of a storage error. The text
    of a conflict is the one the earlier metadata helper looks for
    ("already exists"); the other two are the names section 4.2 gives
    the failure modes. *)
Definition error_message (e : StorageError) : string :=
  match e with
  | Conflict => "The resource already exists"
  | TransientStorageError => "TransientStorageError"
  | InvalidInput => "InvalidInput"
  end.

Definition fault_error (f : StorageFault) : StorageError :=
  match f with
  | FaultTransient => TransientStorageError
  | FaultInvalid => InvalidInput
  end.

(** Modelled from the spec: the storage client behind
    [supabase.storage.from(bucket).upload(path, content, {contentType,
    upsert})], which is not part of the sources. Section 4.2: with
    [overwrite = false] an existing key fails with [Conflict]; with
    [overwrite = true] the last write wins; the store may also fail with
    [TransientStorageError] or [InvalidInput]. The client reports a
    failure in the [error] member of its result and does not throw. *)
Definition upload (bucket path : string) (content : Blob)
    (contentType : string) (upsert : bool) : M (option StorageError) :=
  fun env s =>
    let n := storage_ops s in
    let key := object_key bucket path in
    match storage_fault env n with
    | Some f => (Returned (Some (fault_error f)), set_storage (storage s) (S n) s)
    | None =>
        match storage s !! key with
        | Some _ =>
            if upsert
            then (Returned None, set_storage (<[key := content]> (storage s)) (S n) s)
            else (Returned (Some Conflict), set_storage (storage s) (S n) s)
        | None =>
            (Returned None, set_storage (<[key := content]> (storage s)) (S n) s)
        end
    end.

(** Modelled from the spec: [publicUrl(key)] is the concatenation of
    base, bucket and key (section 4.2); the literal path segment is the
    one the sources spell out when they build the same URL by hand. *)
Definition publicUrl (base bucket path : string) : string :=
  base +:+ "/storage/v1/object/public/" +:+ bucket +:+ "/" +:+ path.

(** [storage.from(bucket).list(folder, {search})]. The storage client is
    not part of the sources and the written specification has no
    listing, so nothing is assumed about it: the request is one more
    operation on the store, and its reply, [null] or the names found, is
    the world's. *)
Definition list_search (bucket folder search : string)
  : M (option (list string)) :=
  fun env s =>
    let n := storage_ops s in
    (Returned (storage_list env n), set_storage (storage s) (S n) s).

End ObjectStore.

(* ===================================================================== *)
(** ** frontend/src/utils/sorobanSimple.ts                                 *)
(* ===================================================================== *)

Module SorobanSimple.

(** [score !== undefined && totalScore !== undefined
     ? `${score}/${totalScore}` : 'Passed'] *)
Definition score_value (score totalScore : option Js.Number) : string :=
  match score, totalScore with
  | Some s, Some t => Js.Number_toString s +:+ "/" +:+ Js.Number_toString t
  | _, _ => "Passed"
  end.

(** [score !== undefined && totalScore !== undefined && totalScore > 0
     ? `${((score/totalScore) * 100).toFixed(2)}%` : 'N/A'] *)
Definition percentage_value (score totalScore : option Js.Number) : string :=
  match score, totalScore with
  | Some s, Some t =>
      if PrimFloat.ltb PrimFloat.zero t
      then Js.toFixed2 (PrimFloat.mul (PrimFloat.div s t) 100%float) +:+ "%"
      else "N/A"
  | _, _ => "N/A"
  end.

(** The metadata object of [generateBadgeMetadataUri]; [issued] is the
    clock reading behind [new Date()]. *)
Definition badge_metadata (base testId walletAddress : string)
    (testTitle : option string) (score totalScore : option Js.Number)
    (issued : N) : Metadata :=
  {| name := Js.or_default testTitle "Skill Badge" +:+ " - Achievement";
     description :=
       "Badge earned for completing " +:+ Js.or_default testTitle "the test" +:+
       " with a score of " +:+ Js.template_number score +:+ "/" +:+
       Js.template_number totalScore;
     image :=
       base +:+ "/storage/v1/object/public/stellar/badge-metadata/badge-icon.png";
     attributes :=
       [ mkAttribute "Test ID" testId;
         mkAttribute "Test Title" (Js.or_default testTitle "Unknown Test");
         mkAttribute "Wallet Address" walletAddress;
         mkAttribute "Score" (score_value score totalScore);
         mkAttribute "Percentage" (percentage_value score totalScore);
         mkAttribute "Issued Date" (Js.toISOString issued) ] |}.

Definition fileName (testId walletAddress : string) : string :=
  testId +:+ "_" +:+ walletAddress +:+ ".json".

(** [generateBadgeMetadataUri]. The dynamic import of the storage client
    that opens the [try] block is taken to succeed. *)
Definition generateBadgeMetadataUri (testId walletAddress : string)
    (testTitle : option string) (score totalScore : option Js.Number)
  : M string :=
  try_catch
    (env <- ask ;;
     let file := fileName testId walletAddress in
     issued <- Date_now ;;
     let metadata :=
       badge_metadata (supabaseUrl env) testId walletAddress testTitle
         score totalScore issued in
     uploadError <- ObjectStore.upload "stellar" ("badge-metadata/" +:+ file)
                      (JsonBlob metadata) "application/json" true ;;
     match uploadError with
     | Some e =>
         console_error "Error uploading badge metadata:" ;;;
         throw (ObjectStore.error_message e)
     | None =>
         let metadataUrl :=
           supabaseUrl env +:+
           "/storage/v1/object/public/stellar/badge-metadata/" +:+ file in
         fileList <- ObjectStore.list_search "stellar" "badge-metadata" file ;;
         match fileList with
         | Some (_ :: _) => ret metadataUrl
         | _ =>
             console_warn "Warning: Could not verify file existence" ;;;
             ret metadataUrl
         end
     end)
    (fun error =>
       console_error "Error generating badge metadata:" ;;;
       throw error).

(** The earlier revision of the same helper, kept in the same file: no
    title and no percentage attribute, the score tested for truthiness,
    its own bucket, and a URL returned whatever the upload did. *)
Definition score_value_legacy (score totalScore : option Js.Number) : string :=
  if Js.truthy_number score
  then Js.template_number score +:+ "/" +:+ Js.template_number totalScore
  else "Passed".

Definition badge_metadata_legacy (base testId walletAddress : string)
    (testTitle : option string) (score totalScore : option Js.Number)
    (issued : N) : Metadata :=
  {| name := Js.or_default testTitle "Skill Badge" +:+ " - Achievement";
     description :=
       "Badge earned for completing " +:+ Js.or_default testTitle "the test";
     image := base +:+ "/storage/v1/object/public/badge-metadata/badge-icon.png";
     attributes :=
       [ mkAttribute "Test ID" testId;
         mkAttribute "Wallet Address" walletAddress;
         mkAttribute "Score" (score_value_legacy score totalScore);
         mkAttribute "Issued Date" (Js.toISOString issued) ] |}.

Definition generateBadgeMetadataUri_legacy (testId walletAddress : string)
    (testTitle : option string) (score totalScore : option Js.Number)
  : M string :=
  try_catch
    (env <- ask ;;
     let file := fileName testId walletAddress in
     issued <- Date_now ;;
     let metadata :=
       badge_metadata_legacy (supabaseUrl env) testId walletAddress testTitle
         score totalScore issued in
     uploadError <- ObjectStore.upload "badge-metadata" file
                      (JsonBlob metadata) "application/json" true ;;
     match uploadError with
     | Some e =>
         if negb (Js.includes (ObjectStore.error_message e) "already exists")
         then console_error "Error uploading badge metadata:"
         else ret tt
     | None => ret tt
     end ;;;
     ret (supabaseUrl env +:+ "/storage/v1/object/public/badge-metadata/" +:+ file))
    (fun _ =>
       console_error "Error generating badge metadata:" ;;;
       env <- ask ;;
       ret (supabaseUrl env +:+ "/storage/v1/object/public/badge-metadata/" +:+
            testId +:+ "_" +:+ walletAddress +:+ ".json")).

(** The value of the first attribute with the given trait, as a
    consumer of the document reads it. *)
Definition attribute (m : Metadata) (trait : string) : option string :=
  value <$> List.find (fun a => String.eqb (trait_type a) trait) (attributes m).

End SorobanSimple.

(* ===================================================================== *)
(** ** backend/src/services/storageService.ts                              *)
(* ===================================================================== *)

Module StorageService.

(** Modelled from the spec: [generateBadgeMetadata] of the backend's
    storage service, which is not part of the sources. Section 4.1 and
    the metadata format of ARCHITECTURE.md describe the document the
    frontend helper builds, attribute for attribute, so the model is
    that document. It reads the clock for the issuance timestamp. *)
Definition generateBadgeMetadata (testId receiver : string)
    (testTitle : option string) (score totalScore : option Js.Number)
  : M Metadata :=
  env <- ask ;;
  issued <- Date_now ;;
  ret (SorobanSimple.badge_metadata (supabaseUrl env) testId receiver testTitle
         score totalScore issued).

(** Modelled from the spec: [uploadBadgeMetadata] of the same missing
    service. Section 4.5 step 2 and section 6: upload with
    [overwrite = true] at [badge-metadata/{testId}_{receiver}.json] of
    the shared bucket, return the public URL, throw when the store
    fails. *)
Definition uploadBadgeMetadata (testId receiver : string) (metadata : Metadata)
  : M string :=
  env <- ask ;;
  let path := "badge-metadata/" +:+ SorobanSimple.fileName testId receiver in
  uploadError <- ObjectStore.upload "stellar" path (JsonBlob metadata)
                   "application/json" true ;;
  match uploadError with
  | Some e => throw (ObjectStore.error_message e)
  | None => ret (ObjectStore.publicUrl (supabaseUrl env) "stellar" path)
  end.

End StorageService.

(* ===================================================================== *)
(** ** backend/src/services: the simulated registry and NFT services       *)
(* ===================================================================== *)

(** [`sim_${Date.now()}_${Math.random().toString(36).substring(7)}`] *)
Definition sim_hash (now : N) (suffix : string) : string :=
  "sim_" +:+ Js.dec now +:+ "_" +:+ suffix.

Module RegistryServiceSim.

(** [registerTestOnChain], simplified revision of the registry service. *)
Definition registerTestOnChain (testId creator metadataCid : string)
  : M TestRegistrationResult :=
  try_catch
    (now <- Date_now ;;
     suffix <- random_suffix ;;
     let txHash := sim_hash now suffix in
     created <- Date_now ;;
     ret {| reg_success := true;
            reg_txHash := txHash;
            testMetadata := mkTestMetadata testId creator metadataCid created |})
    (fun error =>
       console_error "Error registering test on-chain:" ;;;
       throw ("Test registration failed: " +:+ error)).

End RegistryServiceSim.

Module NftService.

(** [mintBadgeNFT] of nftService.ts. *)
Definition mintBadgeNFT (receiver testId : string) (testTitle : option string)
    (score totalScore : option Js.Number) : M (NFTMintResult string) :=
  try_catch
    (metadata <- StorageService.generateBadgeMetadata testId receiver testTitle
                   score totalScore ;;
     metadataUrl <- StorageService.uploadBadgeMetadata testId receiver metadata ;;
     now <- Date_now ;;
     let tokenId := "nft_" +:+ testId +:+ "_" +:+ Js.dec now in
     now' <- Date_now ;;
     suffix <- random_suffix ;;
     let txHash := sim_hash now' suffix in
     ret (mkNFTMintResult true txHash tokenId metadataUrl))
    (fun error =>
       console_error "Error minting badge NFT:" ;;;
       throw ("NFT minting failed: " +:+ error)).

End NftService.

(* ===================================================================== *)
(** ** backend/src/controllers/blockchainController.ts                     *)
(* ===================================================================== *)

Module BlockchainController.

(** The parsed JSON body of a request. The named members carry the types
    the services declare for them; [others] holds any further member of
    the object, which destructuring ignores. A request reaches a handler
    with [req.body] set to such an object or left [undefined], which is
    [None] below: which of the two a request without a body gets is the
    framework's choice, and the framework is not part of the sources. *)
Record RegisterBody := mkRegisterBody {
  rb_testId : option string;
  rb_creator : option string;
  rb_metadataCid : option string;
  rb_others : list (string * string)
}.

Record MintBody := mkMintBody {
  mb_receiver : option string;
  mb_testId : option string;
  mb_testTitle : option string;
  mb_score : option Js.Number;
  mb_totalScore : option Js.Number;
  mb_others : list (string * string)
}.

Inductive ResponseBody (D : Type) :=
| ErrorBody (error : string) (details : option string)
| ResultBody (ok : bool) (message : string) (data : D).
Arguments ErrorBody {D}.
Arguments ResultBody {D}.

Record Response (D : Type) := mkResponse {
  status : nat;
  body : ResponseBody D
}.
Arguments mkResponse {D}.
Arguments status {D}.
Arguments body {D}.

(** The value of a member once the handler has found it truthy. *)
Definition the (x : option string) : string := default "" x.

(** The message of the [TypeError] that destructuring [undefined]
    throws, for the first member named in the pattern, in the words of
    V8; no statement depends on the wording. *)
Definition cannot_destructure (member : string) : string :=
  "Cannot destructure property '" +:+ member +:+
  "' of 'req.body' as it is undefined.".

Section Handlers.

(** The two services are module imports of the controller. *)
Variable registerTestOnChain :
  string -> string -> string -> M TestRegistrationResult.
Variable mintBadgeNFT :
  string -> string -> option string -> option Js.Number -> option Js.Number ->
  M (NFTMintResult string).

(** [registerTest]. The destructuring of [req.body] is the first
    statement of the [try] block, so its [TypeError] on an undefined
    body is caught like any failure of the service. *)
Definition registerTest (body : option RegisterBody)
  : M (Response TestRegistrationResult) :=
  try_catch
    (match body with
     | None => throw (cannot_destructure "testId")
     | Some req =>
         if Js.falsy (rb_testId req) || Js.falsy (rb_creator req)
            || Js.falsy (rb_metadataCid req)
         then ret (mkResponse 400
                     (ErrorBody
                        "Missing required fields: testId, creator, metadataCid"
                        None))
         else
           result <- registerTestOnChain (the (rb_testId req))
                       (the (rb_creator req)) (the (rb_metadataCid req)) ;;
           ret (mkResponse 200
                  (ResultBody true "Test registered on blockchain" result))
     end)
    (fun error =>
       console_error "Blockchain registration error:" ;;;
       ret (mkResponse 500
              (ErrorBody "Failed to register test on blockchain" (Some error)))).

(** [mintNFT], with the destructuring inside the [try] block again. *)
Definition mintNFT (body : option MintBody)
  : M (Response (NFTMintResult string)) :=
  try_catch
    (match body with
     | None => throw (cannot_destructure "receiver")
     | Some req =>
         if Js.falsy (mb_receiver req) || Js.falsy (mb_testId req)
         then ret (mkResponse 400
                     (ErrorBody "Missing required fields: receiver, testId"
                        None))
         else
           result <- mintBadgeNFT (the (mb_receiver req)) (the (mb_testId req))
                       (mb_testTitle req) (mb_score req) (mb_totalScore req) ;;
           ret (mkResponse 200
                  (ResultBody true "NFT badge minted successfully" result))
     end)
    (fun error =>
       console_error "NFT minting error:" ;;;
       ret (mkResponse 500
              (ErrorBody "Failed to mint NFT badge" (Some error)))).

End Handlers.

End BlockchainController.

(** The two operations as the router mounts them, over the simulated
    services the controller imports. *)
Definition register_test_operation :=
  BlockchainController.registerTest RegistryServiceSim.registerTestOnChain.
Definition mint_nft_operation :=
  BlockchainController.mintNFT NftService.mintBadgeNFT.

(* ===================================================================== *)
(** ** frontend: the badges tab and the profile tab                        *)
(* ===================================================================== *)

Module RecordStore.

(** Modelled from the spec: the record store behind
    [supabase.from('badges').update(values).eq('id', id)], an external
    collaborator. Every row whose id matches is updated; a fault leaves
    the table as it is and is reported in [error]. *)
Definition update_badge (badgeId : string) (token tx url : string)
  : M (option string) :=
  fun env s =>
    let n := db_ops s in
    match db_fault env n with
    | Some e => (Returned (Some e), set_badges (badges s) (S n) s)
    | None =>
        let upd (b : Badge) :=
          if String.eqb (id b) badgeId
          then mkBadge (id b) (test_id b) (wallet_address b) (Some token)
                 (Some tx) (Some url) (created_at b)
          else b in
        (Returned None, set_badges (map upd (badges s)) (S n) s)
    end.

(** Modelled from the spec: [supabase.from('custom_badges').insert(row)]. *)
Definition insert_custom_badge (row : CustomBadge) : M (option string) :=
  fun env s =>
    let n := db_ops s in
    match db_fault env n with
    | Some e => (Returned (Some e), set_custom_badges (custom_badges s) (S n) s)
    | None =>
        (Returned None, set_custom_badges (custom_badges s ++ [row]) (S n) s)
    end.

End RecordStore.

Module BadgesTab.

(** Modelled from the spec: [mintNFTViaBackend] of utils/backendApi,
    which is not part of the sources. It posts the five values to the
    mint-nft operation and returns the JSON of a successful response; any
    other response is thrown as an error carrying the body's [error]. *)
Definition mintNFTViaBackend (receiver testId testTitle : string)
    (score totalScore : Js.Number) : M (NFTMintResult string) :=
  response <- mint_nft_operation
                (Some (BlockchainController.mkMintBody (Some receiver)
                         (Some testId) (Some testTitle) (Some score)
                         (Some totalScore) [])) ;;
  match BlockchainController.body response with
  | BlockchainController.ResultBody _ _ data => ret data
  | BlockchainController.ErrorBody error _ => throw error
  end.

(** [retryMintNFT(badge)]; [test_title] is [badge.test?.title]. The
    component state ([mintingBadgeId], the alert) is not part of the
    world. *)
Definition retryMintNFT (walletAddress : string) (badge : Badge)
    (test_title : option string) : M unit :=
  try_catch
    (mintResult <- mintNFTViaBackend walletAddress (test_id badge)
                     (Js.or_default test_title "Achievement Badge")
                     0%float 0%float ;;
     updateError <- RecordStore.update_badge (id badge) (tokenId mintResult)
                      (txHash mintResult) (metadataUrl mintResult) ;;
     match updateError with
     | Some e => throw e
     | None => ret tt
     end)
    (fun _ => console_error "Retry mint failed:").

End BadgesTab.

Module ProfileTab.

(** The white space [String.prototype.trim] strips: the WhiteSpace and
    LineTerminator code points of ECMAScript. A string holds the UTF-8
    encoding of the text, so a code point is one, two or three bytes
    here: U+0009 to U+000D and U+0020; U+00A0 (C2 A0); U+1680
    (E1 9A 80); U+2000 to U+200A, U+2028, U+2029 and U+202F (E2 80 80
    to 8A, A8, A9, AF); U+205F (E2 81 9F); U+3000 (E3 80 80); U+FEFF
    (EF BB BF). *)
Definition white1 (a : ascii) : bool :=
  let a := nat_of_ascii a in
  (a =? 32)%nat || ((9 <=? a)%nat && (a <=? 13)%nat).

Definition white2 (a b : ascii) : bool :=
  (nat_of_ascii a =? 194)%nat && (nat_of_ascii b =? 160)%nat.

Definition white3 (a b c : ascii) : bool :=
  let a := nat_of_ascii a in
  let b := nat_of_ascii b in
  let c := nat_of_ascii c in
  ((a =? 225) && (b =? 154) && (c =? 128))%nat
  || ((a =? 226) && (b =? 128)
      && (((128 <=? c) && (c <=? 138)) || (c =? 168) || (c =? 169)
          || (c =? 175)))%nat
  || ((a =? 226) && (b =? 129) && (c =? 159))%nat
  || ((a =? 227) && (b =? 128) && (c =? 128))%nat
  || ((a =? 239) && (b =? 187) && (c =? 191))%nat.

(** The string without the white space it starts with. With [backwards]
    the bytes of a code point are read last byte first, as they come in
    a reversed string. *)
Fixpoint strip (backwards : bool) (s : string) : string :=
  match s with
  | String a s1 =>
      if white1 a then strip backwards s1
      else
        match s1 with
        | String b s2 =>
            if (if backwards then white2 b a else white2 a b)
            then strip backwards s2
            else
              match s2 with
              | String c s3 =>
                  if (if backwards then white3 c b a else white3 a b c)
                  then strip backwards s3
                  else s
              | EmptyString => s
              end
        | EmptyString => s
        end
  | EmptyString => EmptyString
  end.

Definition trim_start (s : string) : string := strip false s.

Definition trim_end (s : string) : string :=
  String.rev (strip true (String.rev s)).

(** [String.prototype.trim]. *)
Definition trim (s : string) : string := trim_end (trim_start s).

(** What the tab shows when the handler is done. *)
Inductive Banner :=
| ShowError (message : string)
| ShowSuccess (message : string).

(** [handleUploadBadge]; the component state is [badgeName] and
    [svgFile], its outcome the banner. The banner of success ends with
    the party popper U+1F389. The refresh of the list that ends the
    successful path only reads the table into component state. *)
Definition handleUploadBadge (userId badgeName : string)
    (svgFile : option string) : M Banner :=
  if String.eqb (trim badgeName) ""
  then ret (ShowError "Please enter a badge name")
  else
    match svgFile with
    | None => ret (ShowError "Please select an SVG file")
    | Some file =>
        try_catch
          (env <- ask ;;
           now <- Date_now ;;
           let fileName := userId +:+ "_" +:+ Js.dec now +:+ ".svg" in
           let filePath := "badges/" +:+ fileName in
           uploadError <- ObjectStore.upload "stellar" filePath (SvgBlob file)
                            "image/svg+xml" false ;;
           match uploadError with
           | Some e =>
               console_error "Upload error:" ;;;
               throw (ObjectStore.error_message e)
           | None =>
               let publicUrl :=
                 ObjectStore.publicUrl (supabaseUrl env) "stellar" filePath in
               dbError <- RecordStore.insert_custom_badge
                            (mkCustomBadge userId (trim badgeName) publicUrl) ;;
               match dbError with
               | Some e =>
                   console_error "Database error:" ;;;
                   throw e
               | None => ret (ShowSuccess "Badge created successfully! 🎉")
               end
           end)
          (fun err =>
             console_error "Error uploading badge:" ;;;
             ret (ShowError (if String.eqb err "" then "Failed to upload badge"
                             else err)))
    end.

End ProfileTab.

(* ===================================================================== *)
(** ** The ledger clients (Stellar SDK)                                    *)
(* ===================================================================== *)

Module Ledger.

Definition maxAttempts : nat := 30.

(** The confirmation loop shared by the two submitting operations:

    [while (status === 'PENDING' && attempts < maxAttempts) {
       await sleep(1000);
       status = (await server.getTransaction(txHash)).status;
       attempts++; }]

    The recursion is on [maxAttempts - attempts], so [attempts <
    maxAttempts] is the successor case. Returns the last status and the
    number of attempts made. *)
Fixpoint poll (remaining : nat) (txHash status : string) (attempts : nat)
  : M (string * nat) :=
  if String.eqb status "PENDING" then
    match remaining with
    | O => ret (status, attempts)
    | S remaining' =>
        sleep 1000 ;;;
        statusResponse <- server_getTransaction txHash ;;
        poll remaining' txHash (tx_status statusResponse) (S attempts)
    end
  else ret (status, attempts).

(** The wait for confirmation and the test that follows it:
    [if (status !== 'SUCCESS') throw new Error(...)]. *)
Definition confirm (txHash status : string) : M string :=
  final <- poll maxAttempts txHash status 0 ;;
  if negb (String.eqb (fst final) "SUCCESS")
  then throw ("Transaction failed with status: " +:+ fst final)
  else ret txHash.

(** Simulate, assemble, sign and submit a contract call, then wait for
    its confirmation; the common middle of the two signed paths. Returns
    the transaction hash. *)
Definition submit_and_confirm (signer : string) (transaction : Transaction)
  : M string :=
  simulated <- server_simulateTransaction transaction ;;
  match sim_error simulated with
  | Some e => throw ("Simulation failed: " +:+ e)
  | None =>
      sdk AssembleTransaction [] ;;;
      sdk SignTransaction [signer] ;;;
      let preparedTx :=
        mkTransaction (source transaction) (contractId transaction)
          (method transaction) (args transaction) (Some signer) in
      txResponse <- server_sendTransaction preparedTx ;;
      if String.eqb (send_status txResponse) "ERROR"
      then throw ("Transaction failed: " +:+ send_errorResult txResponse)
      else confirm (send_hash txResponse) (send_status txResponse)
  end.

(** [StellarSDK.nativeToScVal] on each argument of a call, in order. *)
Fixpoint to_scvals (arguments : list string) : M unit :=
  match arguments with
  | [] => ret tt
  | a :: rest => sdk NativeToScVal [a] ;;; to_scvals rest
  end.

(** Build a contract call: the builder, the arguments, the call, the
    finished transaction. *)
Definition build_call (sourceAccount : Account) (contract method : string)
    (arguments : list string) : M Transaction :=
  sdk NewTransactionBuilder [accountId sourceAccount] ;;;
  to_scvals arguments ;;;
  sdk ContractCall (method :: arguments) ;;;
  sdk BuildTransaction [] ;;;
  ret (mkTransaction (accountId sourceAccount) contract method arguments None).

(** The account of a read-only call: the server's, or a dummy one when
    the account does not exist. *)
Definition dummy_account : M Account :=
  publicKey <- Keypair_random ;;
  catch_with (server_getAccount publicKey) (mkAccount publicKey "0").

(** The common start of the three read-only queries: the contract, a
    throw-away identity, the call, and its simulation; nothing is signed
    or sent. *)
Definition read_only_call (contractArgument : list string)
    (contract method : string) (arguments : list string) : M SimulateResponse :=
  sdk NewContract contractArgument ;;;
  account <- dummy_account ;;
  transaction <- build_call account contract method arguments ;;
  server_simulateTransaction transaction.

End Ledger.

Module RegistryService.

(** [registerTestOnChain] of the registry service that talks to the
    Test Registry contract; [signerKeypair] is the signer's public key. *)
Definition registerTestOnChain (testId creator metadataCid : string)
    (signerKeypair : option string) : M TestRegistrationResult :=
  try_catch
    (env <- ask ;;
     match signerKeypair with
     | None =>
         now <- Date_now ;;
         suffix <- random_suffix ;;
         let txHash := sim_hash now suffix in
         created <- Date_now ;;
         ret (mkTestRegistrationResult true txHash
                (mkTestMetadata testId creator metadataCid created))
     | Some signer =>
         sdk NewContract [TEST_REGISTRY_CONTRACT env] ;;;
         sourceAccount <- server_getAccount signer ;;
         transaction <- Ledger.build_call sourceAccount
                          (TEST_REGISTRY_CONTRACT env) "register_test"
                          [testId; creator; metadataCid] ;;
         txHash <- Ledger.submit_and_confirm signer transaction ;;
         created <- Date_now ;;
         ret (mkTestRegistrationResult true txHash
                (mkTestMetadata testId creator metadataCid created))
     end)
    (fun error =>
       console_error "Error registering test on-chain:" ;;;
       throw ("Blockchain registration failed: " +:+ error)).

(** What a read-only query returns for a test: the four members of the
    decoded value, whatever they are. *)
Record ChainTest := mkChainTest {
  chain_testId : Native;
  chain_creator : Native;
  chain_metadataCid : Native;
  chain_createdAt : Native
}.

(** JavaScript truthiness of a decoded value. *)
Definition truthy (v : Native) : bool :=
  match v with
  | NUndefined | NNull => false
  | NBool b => b
  | NNum x => Js.truthy_number (Some x)
  | NStr s => negb (String.eqb s "")
  | NObj _ | NArr _ => true
  end.

(** [v.key]: a [TypeError] on [undefined] and [null], the member of an
    object, [undefined] on anything else. *)
Definition member (v : Native) (key : string) : M Native :=
  match v with
  | NUndefined | NNull =>
      throw ("Cannot read properties of undefined (reading '" +:+ key +:+ "')")
  | NObj fields =>
      ret (default NUndefined
             (snd <$> List.find (fun kv => String.eqb (fst kv) key) fields))
  | _ => ret NUndefined
  end.

Definition to_test (item : Native) : M ChainTest :=
  a <- member item "test_id" ;;
  b <- member item "creator" ;;
  c <- member item "metadata_cid" ;;
  d <- member item "created_at" ;;
  ret (mkChainTest a b c d).

Fixpoint map_tests (items : list Native) : M (list ChainTest) :=
  match items with
  | [] => ret []
  | item :: rest =>
      t <- to_test item ;;
      ts <- map_tests rest ;;
      ret (t :: ts)
  end.

(** The [try] block of [getTestFromChain]; [None] is [null]. *)
Definition getTestFromChain_try (testId : string) : M (option ChainTest) :=
  env <- ask ;;
  simulated <- Ledger.read_only_call [TEST_REGISTRY_CONTRACT env]
                 (TEST_REGISTRY_CONTRACT env) "get_test" [testId] ;;
  match sim_error simulated, sim_retval simulated with
  | None, Some retval =>
      result <- scValToNative retval ;;
      if truthy result
      then t <- to_test result ;; ret (Some t)
      else ret None
  | _, _ => ret None
  end.

(** [getTestFromChain]. *)
Definition getTestFromChain (testId : string) : M (option ChainTest) :=
  try_catch (getTestFromChain_try testId)
    (fun _ =>
       console_error "Error getting test from chain:" ;;;
       ret None).

(** The [try] block of [listTestsFromChain]. *)
Definition listTestsFromChain_try : M (list ChainTest) :=
  env <- ask ;;
  simulated <- Ledger.read_only_call [TEST_REGISTRY_CONTRACT env]
                 (TEST_REGISTRY_CONTRACT env) "list_tests" [] ;;
  match sim_error simulated, sim_retval simulated with
  | None, Some retval =>
      result <- scValToNative retval ;;
      match result with
      | NArr items => map_tests items
      | _ => ret []
      end
  | _, _ => ret []
  end.

(** [listTestsFromChain]. *)
Definition listTestsFromChain : M (list ChainTest) :=
  try_catch listTestsFromChain_try
    (fun _ =>
       console_error "Error listing tests from chain:" ;;;
       ret []).

End RegistryService.

Module BadgeNFTService.

Definition contract_argument (env : Env) : list string :=
  match BADGE_NFT_CONTRACT env with
  | Some c => [c]
  | None => []
  end.

Definition contract_id (env : Env) : string :=
  default "undefined" (BADGE_NFT_CONTRACT env).

(** The token id of a confirmed mint: the generated one unless the
    transaction result carries a return value that decodes. *)
Definition extract_token_id (generated : string)
    (txResult : GetTransactionResponse) : M Native :=
  if String.eqb (tx_status txResult) "SUCCESS" && tx_resultMetaXdr txResult
  then
    try_catch
      (match tx_returnValue txResult with
       | Some resultValue => scValToNative resultValue
       | None => ret (NStr generated)
       end)
      (fun _ =>
         console_warn "Could not parse token ID from result, using generated ID" ;;;
         ret (NStr generated))
  else ret (NStr generated).

(** The signed path up to the confirmed transaction: load the account,
    build the [mint] call, simulate, sign, submit and wait. *)
Definition submit_mint (receiver metadataUri signer : string) : M string :=
  env <- ask ;;
  sdk NewContract (contract_argument env) ;;;
  sourceAccount <- server_getAccount signer ;;
  transaction <- Ledger.build_call sourceAccount (contract_id env) "mint"
                   [receiver; metadataUri] ;;
  Ledger.submit_and_confirm signer transaction.

(** [mintBadgeNFT] of badgeNFTService.ts; [signerKeypair] is the signer's
    public key. *)
Definition mintBadgeNFT (receiver testId metadataUri : string)
    (signerKeypair : option string) : M (NFTMintResult Native) :=
  try_catch
    (env <- ask ;;
     match signerKeypair with
     | None =>
         now <- Date_now ;;
         suffix <- random_suffix ;;
         let tokenId := "nft_" +:+ Js.dec now +:+ "_" +:+ suffix in
         now' <- Date_now ;;
         suffix' <- random_suffix ;;
         let txHash := sim_hash now' suffix' in
         ret (mkNFTMintResult true txHash (NStr tokenId) metadataUri)
     | Some signer =>
         txHash <- submit_mint receiver metadataUri signer ;;
         txResult <- server_getTransaction txHash ;;
         now <- Date_now ;;
         let generated := "nft_" +:+ testId +:+ "_" +:+ Js.dec now in
         tokenId <- extract_token_id generated txResult ;;
         ret (mkNFTMintResult true txHash tokenId metadataUri)
     end)
    (fun error =>
       console_error "Error minting badge NFT:" ;;;
       throw ("NFT minting failed: " +:+ error)).

(** The [try] block of [getNFTMetadata]; [None] is [null]. *)
Definition getNFTMetadata_try (tokenId : string) : M (option Native) :=
  env <- ask ;;
  simulated <- Ledger.read_only_call (contract_argument env) (contract_id env)
                 "get_token_uri" [tokenId] ;;
  match sim_error simulated, sim_retval simulated with
  | None, Some retval =>
      result <- scValToNative retval ;;
      ret (Some result)
  | _, _ => ret None
  end.

(** [getNFTMetadata]. *)
Definition getNFTMetadata (tokenId : string) : M (option Native) :=
  try_catch (getNFTMetadata_try tokenId)
    (fun _ =>
       console_error "Error getting NFT metadata:" ;;;
       ret None).

End BadgeNFTService.

(* ===================================================================== *)
(** ** frontend/src/utils/sorobanSimple.ts: the other helpers              *)
(* ===================================================================== *)

Module JsString.

Fixpoint take (n : nat) (s : string) : string :=
  match n, s with
  | S n', String c s' => String c (take n' s')
  | _, _ => EmptyString
  end.

Fixpoint drop (n : nat) (s : string) : string :=
  match n, s with
  | S n', String _ s' => drop n' s'
  | _, _ => s
  end.

(** An index argument clamped to [0, len], as [substring] does. *)
Definition clamp (len : nat) (i : Z) : nat :=
  Z.to_nat (Z.max 0 (Z.min i (Z.of_nat len))).

(** [String.prototype.substring(start, end)]: both indexes are clamped,
    swapped when out of order, and an absent [end] is the length.
    Characters are those of a string of single-unit characters. *)
Definition substring (s : string) (start : Z) (stop : option Z) : string :=
  let len := String.length s in
  let a := clamp len start in
  let b := match stop with
           | Some e => clamp len e
           | None => len
           end in
  take (Nat.max a b - Nat.min a b) (drop (Nat.min a b) s).

(** [String.prototype.split(separator)] for a non-empty separator:
    [skip] counts the characters of a separator just matched that are
    still to be passed over, [current] holds the segment read so far, in
    reverse. *)
Fixpoint split_from (s separator : string) (skip : nat) (current : string)
  : list string :=
  match s with
  | EmptyString => [String.rev current]
  | String c s' =>
      match skip with
      | S skip' => split_from s' separator skip' current
      | O =>
          if Js.startsWith s separator
          then String.rev current
               :: split_from s' separator (String.length separator - 1)
                    EmptyString
          else split_from s' separator 0 (String c current)
      end
  end.

Definition split (s separator : string) : list string :=
  split_from s separator 0 EmptyString.

End JsString.

Module SorobanHelpers.


(** Results of the two simulated operations of the frontend. *)
Record Registered := mkRegistered { registered : bool; registered_txHash : string }.

Record Minted := mkMinted {
  minted : bool;
  minted_txHash : string;
  minted_tokenId : string
}.

(** [registerTestOnChain] of the frontend. *)
Definition registerTestOnChain (testId creator metadataCid : string)
  : M Registered :=
  try_catch
    (now <- Date_now ;;
     suffix <- random_suffix ;;
     ret (mkRegistered true (sim_hash now suffix)))
    (fun error =>
       console_error "Error registering test on-chain:" ;;;
       throw error).

(** [mintBadgeNFT] of the frontend. *)
Definition mintBadgeNFT (receiver testId metadataUri : string) : M Minted :=
  try_catch
    (now <- Date_now ;;
     suffix <- random_suffix ;;
     let txHash := sim_hash now suffix in
     now' <- Date_now ;;
     suffix' <- random_suffix ;;
     let tokenId := "NFT_" +:+ Js.dec now' +:+ "_" +:+ suffix' in
     ret (mkMinted true txHash tokenId))
    (fun error =>
       console_error "Error minting badge NFT:" ;;;
       throw error).

End SorobanHelpers.

(* ===================================================================== *)
(** ** frontend: what the badges tab shows                                 *)
(* ===================================================================== *)

Module BadgesView.

(** Rows of the [tests] and [attempts] tables, with the members the tab
    reads. *)
Record Test := mkTest {
  tst_id : string;
  tst_title : string;
  tst_company : option string
}.

Record Attempt := mkAttempt {
  att_id : string;
  att_test_id : string;
  att_percentage : Js.Number;
  att_created_at : string
}.

(** [BadgeWithTest] and [PracticeAttempt]: a row and the test found for
    it, if any. *)
Record BadgeWithTest := mkBadgeWithTest {
  bwt_badge : Badge;
  bwt_test : option Test
}.

Record PracticeAttempt := mkPracticeAttempt {
  pa_attempt : Attempt;
  pa_test : option Test
}.

Record GroupedBadges := mkGroupedBadges {
  company : string;
  group_badges : list BadgeWithTest;
  practiceAttempts : list PracticeAttempt
}.

(** [testsData?.find(t => t.id === test_id)]. *)
Definition find_test (testsData : list Test) (test_id : string) : option Test :=
  List.find (fun t => String.eqb (tst_id t) test_id) testsData.

(** [test?.company || 'Independent']. *)
Definition company_of (test : option Test) : string :=
  Js.or_default (match test with
                 | Some t => tst_company t
                 | None => None
                 end) "Independent".

(** One step of the first [forEach]: the group of the badge's company is
    created at the end of the map if it is not there, and the badge is
    pushed on it. The map is the list of its values in insertion
    order. *)
Fixpoint add_badge (badge : BadgeWithTest) (grouped : list GroupedBadges)
  : list GroupedBadges :=
  match grouped with
  | [] => [mkGroupedBadges (company_of (bwt_test badge)) [badge] []]
  | g :: rest =>
      if String.eqb (company g) (company_of (bwt_test badge))
      then mkGroupedBadges (company g) (group_badges g ++ [badge])
             (practiceAttempts g) :: rest
      else g :: add_badge badge rest
  end.

(** One step of the second [forEach]. *)
Fixpoint add_attempt (attempt : PracticeAttempt) (grouped : list GroupedBadges)
  : list GroupedBadges :=
  match grouped with
  | [] => [mkGroupedBadges (company_of (pa_test attempt)) [] [attempt]]
  | g :: rest =>
      if String.eqb (company g) (company_of (pa_test attempt))
      then mkGroupedBadges (company g) (group_badges g)
             (practiceAttempts g ++ [attempt]) :: rest
      else g :: add_attempt attempt rest
  end.

Section Sorting.

(** [String.prototype.localeCompare] depends on the locale of the
    browser; the grouping is stated for any comparison. *)
Variable localeCompare : string -> string -> Z.

(** [Array.prototype.sort(compare)], which is stable: each element is
    placed before the first one it compares below. *)
Fixpoint insert_sorted (g : GroupedBadges) (sorted : list GroupedBadges)
  : list GroupedBadges :=
  match sorted with
  | [] => [g]
  | h :: rest =>
      if (localeCompare (company g) (company h) <? 0)%Z
      then g :: h :: rest
      else h :: insert_sorted g rest
  end.

Definition sort (groups : list GroupedBadges) : list GroupedBadges :=
  fold_left (fun sorted g => insert_sorted g sorted) groups [].

(** The grouping of [fetchUserBadgesAndAttempts], from the results of
    its three queries to the list it stores in [groupedBadges]. *)
Definition groupByCompany (badgesData : list Badge) (attemptsData : list Attempt)
    (testsData : list Test) : list GroupedBadges :=
  match badgesData, attemptsData with
  | [], [] => []
  | _, _ =>
      let badgesWithTests :=
        map (fun b => mkBadgeWithTest b (find_test testsData (test_id b)))
          badgesData in
      let practiceAttemptsWithTests :=
        map (fun a => mkPracticeAttempt a (find_test testsData (att_test_id a)))
          attemptsData in
      let grouped :=
        fold_left (fun m b => add_badge b m) badgesWithTests [] in
      let grouped' :=
        fold_left (fun m a => add_attempt a m) practiceAttemptsWithTests
          grouped in
      sort grouped'
  end.

End Sorting.

(** [totalBadges] and [totalPractice], the two figures of the summary
    card. *)
Definition totalBadges (groupedBadges : list GroupedBadges) : nat :=
  fold_left (fun sum g => sum + length (group_badges g)) groupedBadges 0.

Definition totalPractice (groupedBadges : list GroupedBadges) : nat :=
  fold_left (fun sum g => sum + length (practiceAttempts g)) groupedBadges 0.

End BadgesView.

(* ===================================================================== *)
(** ** frontend: the file behind a custom badge's URL                      *)
(* ===================================================================== *)

Module ProfileFiles.

(** The path [handleDeleteBadge] takes from the URL of a badge:
    [svgUrl.split('/stellar/')[1]], when the split has more than one
    part. *)
Definition file_path_of (svgUrl : string) : option string :=
  match JsString.split svgUrl "/stellar/" with
  | _ :: filePath :: _ => Some filePath
  | _ => None
  end.

End ProfileFiles.

(* ===================================================================== *)
(** ** Vocabulary of the statements                                        *)
(* ===================================================================== *)

(** Decimal digits. *)
Definition is_digit (c : ascii) : bool :=
  let n := nat_of_ascii c in (48 <=? n)%nat && (n <=? 57)%nat.

Fixpoint all_digits (s : string) : bool :=
  match s with
  | EmptyString => true
  | String c s' => is_digit c && all_digits s'
  end.

(** A member the handlers reject: absent, or present as the empty
    string. *)
Definition missing_or_empty (x : option string) : Prop :=
  x = None \/ x = Some "".

Definition register_rejected (req : BlockchainController.RegisterBody) : Prop :=
  missing_or_empty (BlockchainController.rb_testId req)
  \/ missing_or_empty (BlockchainController.rb_creator req)
  \/ missing_or_empty (BlockchainController.rb_metadataCid req).

Definition mint_rejected (req : BlockchainController.MintBody) : Prop :=
  missing_or_empty (BlockchainController.mb_receiver req)
  \/ missing_or_empty (BlockchainController.mb_testId req).

(** A request the handler refuses: it has a body, and a required member
    of the body is absent or empty. *)
Definition register_refused (body : option BlockchainController.RegisterBody)
  : Prop :=
  match body with
  | Some req => register_rejected req
  | None => False
  end.

Definition mint_refused (body : option BlockchainController.MintBody) : Prop :=
  match body with
  | Some req => mint_rejected req
  | None => False
  end.

(** Where the metadata of a badge is stored, and its public URL. *)
Definition metadata_key (testId receiver : string) : string :=
  ObjectStore.object_key "stellar"
    ("badge-metadata/" +:+ SorobanSimple.fileName testId receiver).

Definition metadata_public_url (env : Env) (testId receiver : string) : string :=
  ObjectStore.publicUrl (supabaseUrl env) "stellar"
    ("badge-metadata/" +:+ SorobanSimple.fileName testId receiver).

(** [`nft_${testId}_${Date.now()}`], the token id the services generate. *)
Definition generated_token (testId : string) (now : N) : string :=
  "nft_" +:+ testId +:+ "_" +:+ Js.dec now.

(** What the confirmation loop has done when it stops after [k] polls:
    it slept [k] times, sent [k] requests for the transaction, saw
    "PENDING" before each of them, and either returns the last status
    seen or rethrows the failure of the last request. *)
Definition poll_outcome (remaining : nat) (txHash status : string)
    (attempts : nat) (env : Env) (s : State)
    (r : Outcome (string * nat) * State) (k : nat) : Prop :=
  k <= remaining
  /\ slept (snd r) = (slept s + 1000 * N.of_nat k)%N
  /\ rpc_log (snd r) = (repeat (GetTransaction txHash) k ++ rpc_log s)%list
  /\ (forall j, S j < k ->
        exists resp,
          rpc_getTransaction env (length (rpc_log s) + j) = Returned resp
          /\ tx_status resp = "PENDING")
  /\ (0 < k -> status = "PENDING")
  /\ match fst r with
     | Returned (st, n) =>
         n = attempts + k
         /\ (st <> "PENDING" \/ k = remaining)
         /\ (k = 0 -> st = status)
         /\ (0 < k ->
             exists resp,
               rpc_getTransaction env (length (rpc_log s) + (k - 1))
               = Returned resp
               /\ tx_status resp = st)
     | Thrown e =>
         0 < k
         /\ rpc_getTransaction env (length (rpc_log s) + (k - 1)) = Thrown e
     end.

(** The warning of the signed mint when the return value does not
    decode. *)
Definition fallback_warning : string :=
  "Could not parse token ID from result, using generated ID".

(** The reply of the server to the simulation of a read-only call leaves
    nothing to decode: the request fails, the reply is a simulation
    error, or it has no result. The simulation is the second request of
    a read-only call. *)
Definition simulation_unusable (env : Env) (s : State) : Prop :=
  match rpc_simulate env (S (length (rpc_log s))) with
  | Returned r => sim_error r <> None \/ sim_retval r = None
  | Thrown _ => True
  end.

(* ===================================================================== *)
(** ** Sample worlds                                                       *)
(* ===================================================================== *)

(** A clock that advances one second per reading, a healthy store, and a
    server that accepts a submission, confirms it at the first poll and
    returns a value the decoder rejects. *)
Definition sample_env : Env :=
  {| clock := fun n => (1732551234567 + 1000 * N.of_nat n)%N;
     entropy := fun n => nth n ["k3j9x2"; "p0q8zr"; "m4n5b6"] "zzzzzz";
     keygen := fun _ => "GDUMMY";
     rpc_getAccount := fun _ => Returned (mkAccount "GSIGNER" "7");
     rpc_simulate :=
       fun _ => Returned (mkSimulateResponse None (Some (ScvDecodable NNull)));
     rpc_send := fun _ => Returned (mkSendResponse "PENDING" "a1b2c3" "");
     rpc_getTransaction :=
       fun _ => Returned (mkGetTransactionResponse "SUCCESS" true
                            (Some (ScvMalformed "bad union switch")));
     sdk_fault := fun _ _ => None;
     storage_fault := fun _ => None;
     storage_list := fun _ => Some ["T1_GDDX.json"];
     db_fault := fun _ => None;
     supabaseUrl := "https://p.supabase.co";
     NETWORK := "TESTNET";
     BADGE_NFT_CONTRACT := Some "CAKY3FB7";
     TEST_REGISTRY_CONTRACT := "CC6TAXNQ" |}.

Definition empty_state : State := mkState 0 0 0 [] 0 ∅ 0 [] [] ∅ 0 [].

(** A Badge row whose mint has not succeeded yet. *)
Definition pending_badge : Badge :=
  mkBadge "b-1" "T1" "GDDX" None None None "2025-11-24T20:21:17.131Z".

Definition one_badge_state : State :=
  mkState 0 0 0 [] 0 ∅ 0 [pending_badge] [] ∅ 0 [].

Definition sample_mint_body : option BlockchainController.MintBody :=
  Some (BlockchainController.mkMintBody (Some "GDDX") (Some "T1")
          (Some "JavaScript Fundamentals") (Some 8%float) (Some 10%float) []).

Definition sample_register_body : option BlockchainController.RegisterBody :=
  Some (BlockchainController.mkRegisterBody (Some "T1") (Some "GDDX")
          (Some "T1.json") []).

(** A server that answers every request for a transaction with the
    status [st]. *)
Definition env_reporting (st : string) : Env :=
  mkEnv (clock sample_env) (entropy sample_env) (keygen sample_env)
    (rpc_getAccount sample_env) (rpc_simulate sample_env) (rpc_send sample_env)
    (fun _ => Returned (mkGetTransactionResponse st false None))
    (sdk_fault sample_env) (storage_fault sample_env) (storage_list sample_env)
    (db_fault sample_env)
    (supabaseUrl sample_env) (NETWORK sample_env)
    (BADGE_NFT_CONTRACT sample_env) (TEST_REGISTRY_CONTRACT sample_env).

(** The sample world with a clock that reads the same millisecond
    twice and a server that gives every submission a hash of its own. *)
Definition same_millisecond_env : Env :=
  mkEnv (fun _ => 1732551234567%N) (entropy sample_env) (keygen sample_env)
    (rpc_getAccount sample_env) (rpc_simulate sample_env)
    (fun n => Returned (mkSendResponse "PENDING"
                          ("tx" +:+ Js.dec (N.of_nat n)) ""))
    (rpc_getTransaction sample_env)
    (sdk_fault sample_env) (storage_fault sample_env) (storage_list sample_env)
    (db_fault sample_env)
    (supabaseUrl sample_env) (NETWORK sample_env)
    (BADGE_NFT_CONTRACT sample_env) (TEST_REGISTRY_CONTRACT sample_env).

(** A server that does not know the throw-away account and answers
    every simulation with [reply]. *)
Definition env_simulating (reply : Outcome SimulateResponse) : Env :=
  mkEnv (clock sample_env) (entropy sample_env) (keygen sample_env)
    (fun _ => Thrown "Account not found") (fun _ => reply) (rpc_send sample_env)
    (rpc_getTransaction sample_env)
    (sdk_fault sample_env) (storage_fault sample_env) (storage_list sample_env)
    (db_fault sample_env)
    (supabaseUrl sample_env) (NETWORK sample_env)
    (BADGE_NFT_CONTRACT sample_env) (TEST_REGISTRY_CONTRACT sample_env).

Definition chain_test : Native :=
  NObj [("test_id", NStr "T1"); ("creator", NStr "GDDX");
        ("metadata_cid", NStr "T1.json");
        ("created_at", NNum 1732551234567%float)].

(** A store that already holds the file the profile tab would write for
    user "u-7" at the first clock reading. *)
Definition svg_key : string := "stellar/badges/u-7_1732551234567.svg".

Definition occupied_state : State :=
  mkState 0 0 0 [] 0 {[ svg_key := SvgBlob "<svg/>" ]} 0 [] [] ∅ 0 [].

(* ===================================================================== *)
(** ** Vocabulary of the further properties                                *)
(* ===================================================================== *)

(** A transaction once [preparedTx.sign(signerKeypair)] has run. *)
Definition signed_by (signer : string) (tx : Transaction) : Transaction :=
  mkTransaction (source tx) (contractId tx) (method tx) (args tx) (Some signer).

(** The requests of a signed operation up to the confirmation, as
    stages none of which is reached without the one before: the account
    of the signer; the simulation of the unsigned call built for that
    account; the submission of the call signed by the signer, after a
    simulation without error; at most 30 polls of the hash the server
    gave the submission, after the answer "PENDING". The replies are
    those to the requests numbered from the length of the log. *)
Definition signing_stages (env : Env) (s : State)
    (signer contract method : string) (arguments : list string)
    (account simulated sent polls : list RpcCall) : Prop :=
  let n := length (rpc_log s) in
  (account = [] \/ account = [GetAccount signer])
  /\ (simulated = []
      \/ exists source,
           account <> []
           /\ rpc_getAccount env n = Returned source
           /\ simulated
              = [SimulateTransaction
                   (mkTransaction (accountId source) contract method arguments
                      None)])
  /\ (sent = []
      \/ exists source reply,
           simulated <> []
           /\ rpc_getAccount env n = Returned source
           /\ rpc_simulate env (1 + n) = Returned reply
           /\ sim_error reply = None
           /\ sent
              = [SendTransaction
                   (mkTransaction (accountId source) contract method arguments
                      (Some signer))])
  /\ (polls = []
      \/ exists reply k,
           sent <> [] /\ k <= 30
           /\ rpc_send env (2 + n) = Returned reply
           /\ send_status reply = "PENDING"
           /\ polls = repeat (GetTransaction (send_hash reply)) k).

(** The log of a signed operation, latest request first: the stages
    above and, for an operation that reads the result of its
    transaction, at most one more request for the submitted hash. *)
Definition signed_requests (env : Env) (s : State)
    (signer contract method : string) (arguments : list string)
    (reads_result : bool) (log : list RpcCall) : Prop :=
  exists account simulated sent polls result,
    log = (result ++ polls ++ sent ++ simulated ++ account ++ rpc_log s)%list
    /\ signing_stages env s signer contract method arguments account simulated
         sent polls
    /\ (result = []
        \/ exists reply,
             reads_result = true /\ sent <> []
             /\ rpc_send env (2 + length (rpc_log s)) = Returned reply
             /\ result = [GetTransaction (send_hash reply)]).

(** The object store and the record store are the same in two states. *)
Definition same_stores (s s' : State) : Prop :=
  storage s' = storage s /\ storage_ops s' = storage_ops s
  /\ badges s' = badges s /\ custom_badges s' = custom_badges s
  /\ registry_refs s' = registry_refs s /\ db_ops s' = db_ops s.

(** A computation that leaves both stores as they are, whatever it
    returns or throws. *)
Definition keeps_stores {A} (m : M A) : Prop :=
  forall env s, same_stores s (snd (m env s)).

(** A computation that changes nothing in the world. *)
Definition changes_nothing {A} (m : M A) : Prop :=
  forall env s, snd (m env s) = s.

(** The requests a read-only query may have sent: none, the one for the
    throw-away account, or that one and the simulation of an unsigned
    transaction. *)
Definition read_only_calls (calls : list RpcCall) : Prop :=
  calls = []
  \/ (exists publicKey, calls = [GetAccount publicKey])
  \/ (exists publicKey tx,
        calls = [SimulateTransaction tx; GetAccount publicKey]
        /\ signedBy tx = None).

(** A decoded value on which reading a member throws. *)
Definition nullish (v : Native) : bool :=
  match v with
  | NUndefined | NNull => true
  | _ => false
  end.

(** No underscore in a string. *)
Fixpoint no_underscore (s : string) : bool :=
  match s with
  | EmptyString => true
  | String c s' => negb (Ascii.eqb c "_") && no_underscore s'
  end.

(** Three white space characters outside ASCII, in UTF-8: the no-break
    space U+00A0, the ideographic space U+3000 and the byte order mark
    U+FEFF. *)
Definition nbsp : string := String "194" (String "160" "").

Definition ideographic_space : string :=
  String "227" (String "128" (String "128" "")).

Definition byte_order_mark : string :=
  String "239" (String "187" (String "191" "")).

(** What the retry action writes on the rows with the given id. *)
Definition minted_row (badgeId token tx url : string) (b : Badge) : Badge :=
  if String.eqb (id b) badgeId
  then mkBadge (id b) (test_id b) (wallet_address b) (Some token) (Some tx)
         (Some url) (created_at b)
  else b.

(** The sample world with a server whose confirmed transaction returns
    the number 7. *)
Definition decoding_env : Env :=
  mkEnv (clock sample_env) (entropy sample_env) (keygen sample_env)
    (rpc_getAccount sample_env) (rpc_simulate sample_env) (rpc_send sample_env)
    (fun _ => Returned (mkGetTransactionResponse "SUCCESS" true
                          (Some (ScvDecodable (NNum 7%float)))))
    (sdk_fault sample_env) (storage_fault sample_env) (storage_list sample_env)
    (db_fault sample_env)
    (supabaseUrl sample_env) (NETWORK sample_env)
    (BADGE_NFT_CONTRACT sample_env) (TEST_REGISTRY_CONTRACT sample_env).

(** A computation that only reads from the ledger: it keeps both stores,
    never waits, and sends at most the two requests of a read-only
    call. *)
Definition reads_only {A} (m : M A) : Prop :=
  forall env s,
    same_stores s (snd (m env s))
    /\ slept (snd (m env s)) = slept s
    /\ exists calls,
         rpc_log (snd (m env s)) = (calls ++ rpc_log s)%list
         /\ read_only_calls calls.

(** [v.key] on a value on which reading a member does not throw. *)
Definition member_of (v : Native) (key : string) : Native :=
  match v with
  | NObj fields =>
      default NUndefined
        (snd <$> List.find (fun kv => String.eqb (fst kv) key) fields)
  | _ => NUndefined
  end.

(** The four members a query reads off a decoded value. *)
Definition test_of (item : Native) : RegistryService.ChainTest :=
  RegistryService.mkChainTest (member_of item "test_id")
    (member_of item "creator") (member_of item "metadata_cid")
    (member_of item "created_at").

(** The state after [console.error(note)]. *)
Definition with_error (note : string) (s : State) : State :=
  set_console ((Error, note) :: console s) s.

(** The sample world with a record store that rejects every request. *)
Definition db_down_env : Env :=
  mkEnv (clock sample_env) (entropy sample_env) (keygen sample_env)
    (rpc_getAccount sample_env) (rpc_simulate sample_env) (rpc_send sample_env)
    (rpc_getTransaction sample_env)
    (sdk_fault sample_env) (storage_fault sample_env) (storage_list sample_env)
    (fun _ => Some "connection refused")
    (supabaseUrl sample_env) (NETWORK sample_env)
    (BADGE_NFT_CONTRACT sample_env) (TEST_REGISTRY_CONTRACT sample_env).

(** A group holds the rows of its own company, and at least one row. *)
Definition well_grouped (g : BadgesView.GroupedBadges) : Prop :=
  Forall (fun b => BadgesView.company_of (BadgesView.bwt_test b)
                   = BadgesView.company g) (BadgesView.group_badges g)
  /\ Forall (fun a => BadgesView.company_of (BadgesView.pa_test a)
                      = BadgesView.company g) (BadgesView.practiceAttempts g)
  /\ (BadgesView.group_badges g <> [] \/ BadgesView.practiceAttempts g <> []).

(** The sample world with an object store that is down. *)
Definition store_down_env : Env :=
  mkEnv (clock sample_env) (entropy sample_env) (keygen sample_env)
    (rpc_getAccount sample_env) (rpc_simulate sample_env) (rpc_send sample_env)
    (rpc_getTransaction sample_env)
    (sdk_fault sample_env) (fun _ => Some FaultTransient)
    (storage_list sample_env) (db_fault sample_env)
    (supabaseUrl sample_env) (NETWORK sample_env)
    (BADGE_NFT_CONTRACT sample_env) (TEST_REGISTRY_CONTRACT sample_env).

(** The sample world with an object store that answers every listing
    with an empty list. *)
Definition empty_listing_env : Env :=
  mkEnv (clock sample_env) (entropy sample_env) (keygen sample_env)
    (rpc_getAccount sample_env) (rpc_simulate sample_env) (rpc_send sample_env)
    (rpc_getTransaction sample_env)
    (sdk_fault sample_env) (storage_fault sample_env) (fun _ => Some [])
    (db_fault sample_env)
    (supabaseUrl sample_env) (NETWORK sample_env)
    (BADGE_NFT_CONTRACT sample_env) (TEST_REGISTRY_CONTRACT sample_env).

(** Where the earlier revision of the metadata helper stores a document,
    and the URL it returns. *)
Definition legacy_key (testId walletAddress : string) : string :=
  ObjectStore.object_key "badge-metadata"
    (SorobanSimple.fileName testId walletAddress).

Definition legacy_url (env : Env) (testId walletAddress : string) : string :=
  ObjectStore.publicUrl (supabaseUrl env) "badge-metadata"
    (SorobanSimple.fileName testId walletAddress).

(* ===================================================================== *)
(** ** Properties                                                          *)
(* ===================================================================== *)

Arguments Js.dec : simpl never.
Arguments Js.Number_toString : simpl never.
Arguments Js.toFixed2 : simpl never.
Arguments Js.toISOString : simpl never.

(** *** The runtime model on known values *)

Example toFixed2_known :
  Js.toFixed2 (8 / 10 * 100)%float = "80.00"
  /\ Js.toFixed2 (1 / 800 * 100)%float = "0.13"
  /\ Js.toFixed2 (1 / 3 * 100)%float = "33.33"
  /\ Js.toFixed2 (2 / 3 * 100)%float = "66.67"
  /\ Js.toFixed2 (-1 / 1024)%float = "-0.00"
  /\ Js.toFixed2 (0 / 0)%float = "NaN".
Proof. repeat apply conj; vm_compute; reflexivity. Qed.

Example Number_toString_known :
  Js.Number_toString 8%float = "8"
  /\ Js.Number_toString 0.5%float = "0.5"
  /\ Js.Number_toString (1 / 3)%float = "0.3333333333333333"
  /\ Js.Number_toString (1 / 10 + 2 / 10)%float = "0.30000000000000004"
  /\ Js.Number_toString 123456789%float = "123456789"
  /\ Js.Number_toString 1e21%float = "1e+21"
  /\ Js.Number_toString (1 / 10000000)%float = "1e-7"
  /\ Js.Number_toString (-0)%float = "0"
  /\ Js.Number_toString (1 / 0)%float = "Infinity".
Proof. repeat apply conj; vm_compute; reflexivity. Qed.

Example toISOString_known :
  Js.toISOString 0 = "1970-01-01T00:00:00.000Z"
  /\ Js.toISOString 951782400000 = "2000-02-29T00:00:00.000Z"
  /\ Js.toISOString 1732551234567 = "2024-11-25T16:13:54.567Z".
Proof. repeat apply conj; vm_compute; reflexivity. Qed.

Example negative_zero_is_a_zero :
  Prim2SF (-0)%float = S754_zero true
  /\ PrimFloat.ltb PrimFloat.zero (-0)%float = false.
Proof. split; reflexivity. Qed.

(** *** Decimal rendering is injective and made of digits *)

Lemma string_of_uint_digits (d : Decimal.uint) :
  all_digits (NilEmpty.string_of_uint d) = true.
Proof. induction d; simpl; auto. Qed.

Lemma dec_digits (n : N) : all_digits (Js.dec n) = true.
Proof. apply string_of_uint_digits. Qed.

Lemma string_of_uint_inj (d d' : Decimal.uint) :
  NilEmpty.string_of_uint d = NilEmpty.string_of_uint d' -> d = d'.
Proof.
  intros H.
  assert (E : Some d = Some d').
  { rewrite <- (NilEmpty.usu d), <- (NilEmpty.usu d'). now rewrite H. }
  now inversion E.
Qed.

Lemma dec_inj (n n' : N) : Js.dec n = Js.dec n' -> n = n'.
Proof.
  unfold Js.dec. intros H%string_of_uint_inj.
  rewrite <- (DecimalN.Unsigned.of_to n), <- (DecimalN.Unsigned.of_to n').
  now rewrite H.
Qed.

(** A run of digits followed by an underscore ends at that underscore. *)
Lemma digits_underscore_split (a b x y : string) :
  all_digits a = true -> all_digits b = true ->
  a +:+ "_" +:+ x = b +:+ "_" +:+ y -> a = b /\ x = y.
Proof.
  revert b. induction a as [|c a IH]; intros [|c' b] Ha Hb H; simpl in *.
  - inversion H. auto.
  - inversion H; subst. apply andb_prop in Hb as [Hb _]. discriminate Hb.
  - inversion H; subst. apply andb_prop in Ha as [Ha _]. discriminate Ha.
  - inversion H; subst.
    apply andb_prop in Ha as [_ Ha]. apply andb_prop in Hb as [_ Hb].
    destruct (IH b Ha Hb H2) as [-> ->]. auto.
Qed.

Lemma sim_hash_inj (n n' : N) (r r' : string) :
  sim_hash n r = sim_hash n' r' -> n = n' /\ r = r'.
Proof.
  unfold sim_hash. simpl. intros H. inversion H as [H'].
  apply digits_underscore_split in H' as [Hn ->]; auto using dec_digits.
  apply dec_inj in Hn. auto.
Qed.

Lemma sim_hash_marker (n : N) (r : string) :
  Js.startsWith (sim_hash n r) "sim_" = true.
Proof. reflexivity. Qed.

(** *** Metadata generator *)

Section MetadataGenerator.

Import SorobanSimple.

Variables (base testId wallet : string) (title : option string) (issued : N).

Local Abbreviation doc score totalScore :=
  (badge_metadata base testId wallet title score totalScore issued).

Lemma percentage_attribute (score totalScore : option Js.Number) :
  attribute (doc score totalScore) "Percentage"
  = Some (percentage_value score totalScore).
Proof. reflexivity. Qed.

Lemma score_attribute (score totalScore : option Js.Number) :
  attribute (doc score totalScore) "Score" = Some (score_value score totalScore).
Proof. reflexivity. Qed.

Example score_8_of_10 :
  attribute (doc (Some 8%float) (Some 10%float)) "Score" = Some "8/10".
Proof. rewrite score_attribute. vm_compute. reflexivity. Qed.

(** C5 (as the code has it). With score 8 and totalScore 10 the
    percentage attribute is "80.00%"; with totalScore zero or absent it
    is "N/A"; with score absent the score attribute is "Passed", and so
    it is with totalScore absent; with both present the score attribute
    is "score/total". *)
Theorem metadata_score_and_percentage :
  attribute (doc (Some 8%float) (Some 10%float)) "Percentage" = Some "80.00%"
  /\ (forall score, attribute (doc score None) "Percentage" = Some "N/A")
  /\ (forall score, attribute (doc score (Some 0%float)) "Percentage" = Some "N/A")
  /\ (forall score, attribute (doc score (Some (-0)%float)) "Percentage" = Some "N/A")
  /\ (forall totalScore, attribute (doc None totalScore) "Score" = Some "Passed")
  /\ (forall score, attribute (doc score None) "Score" = Some "Passed")
  /\ (forall s t, attribute (doc (Some s) (Some t)) "Score"
                  = Some (Js.Number_toString s +:+ "/" +:+ Js.Number_toString t)).
Proof.
  repeat apply conj; intros; rewrite ?percentage_attribute, ?score_attribute.
  - vm_compute. reflexivity.
  - now destruct score.
  - now destruct score.
  - now destruct score.
  - reflexivity.
  - now destruct score.
  - reflexivity.
Qed.

End MetadataGenerator.

(** C5, the claim as worded fails: a score that is present with no
    totalScore yields "Passed", not a "score/total" string. *)
Lemma score_present_total_absent_is_Passed :
  let m := SorobanSimple.badge_metadata "https://p.supabase.co" "T1" "GDDX"
             (Some "JavaScript Fundamentals") (Some 8%float) None 1732551234567 in
  SorobanSimple.attribute m "Score" = Some "Passed"
  /\ SorobanSimple.attribute m "Score"
     <> Some (Js.Number_toString 8%float +:+ "/" +:+ Js.template_number None).
Proof. split; [reflexivity | vm_compute; discriminate]. Qed.

(** The earlier revision has no percentage attribute and prints
    "Passed" for a score of zero. *)
Lemma legacy_metadata_shape (base testId wallet : string) (title : option string)
    (score totalScore : option Js.Number) (issued : N) :
  let m := SorobanSimple.badge_metadata_legacy base testId wallet title score
             totalScore issued in
  SorobanSimple.attribute m "Percentage" = None
  /\ SorobanSimple.attribute m "Score"
     = Some (SorobanSimple.score_value_legacy score totalScore).
Proof. split; reflexivity. Qed.

Example legacy_score_zero :
  SorobanSimple.score_value_legacy (Some 0%float) (Some 10%float) = "Passed"
  /\ SorobanSimple.score_value_legacy (Some 8%float) None = "8/undefined".
Proof. split; vm_compute; reflexivity. Qed.

(** *** The HTTP operations *)

Lemma falsy_spec (x : option string) :
  Js.falsy x = true <-> x = None \/ x = Some "".
Proof.
  destruct x as [[|c r]|]; simpl; split; intros H; auto;
    try discriminate; destruct H; discriminate.
Qed.

Section Controller.

Import BlockchainController.

Variable registerTestOnChain :
  string -> string -> string -> M TestRegistrationResult.
Variable mintBadgeNFT :
  string -> string -> option string -> option Js.Number -> option Js.Number ->
  M (NFTMintResult string).

Lemma register_guard (req : RegisterBody) :
  Js.falsy (rb_testId req) || Js.falsy (rb_creator req)
  || Js.falsy (rb_metadataCid req) = true <-> register_rejected req.
Proof.
  unfold register_rejected, missing_or_empty.
  rewrite !orb_true_iff, !falsy_spec. tauto.
Qed.

Lemma mint_guard (req : MintBody) :
  Js.falsy (mb_receiver req) || Js.falsy (mb_testId req) = true
  <-> mint_rejected req.
Proof.
  unfold mint_rejected, missing_or_empty.
  rewrite !orb_true_iff, !falsy_spec. tauto.
Qed.

Lemma classic_rejected_register (req : RegisterBody) :
  register_rejected req \/ ~ register_rejected req.
Proof.
  rewrite <- register_guard.
  destruct (Js.falsy (rb_testId req) || Js.falsy (rb_creator req)
            || Js.falsy (rb_metadataCid req)); auto.
Qed.

Lemma classic_rejected_mint (req : MintBody) :
  mint_rejected req \/ ~ mint_rejected req.
Proof.
  rewrite <- mint_guard.
  destruct (Js.falsy (mb_receiver req) || Js.falsy (mb_testId req)); auto.
Qed.

(** The response of register-test, by cases on the guard and on what the
    service does. *)
Lemma registerTest_cases (req : RegisterBody) (env : Env) (s : State) :
  exists resp s',
    registerTest registerTestOnChain (Some req) env s = (Returned resp, s')
    /\ (register_rejected req ->
        resp = mkResponse 400
                 (ErrorBody "Missing required fields: testId, creator, metadataCid"
                    None)
        /\ s' = s)
    /\ (~ register_rejected req ->
        match registerTestOnChain (the (rb_testId req)) (the (rb_creator req))
                (the (rb_metadataCid req)) env s with
        | (Returned data, s1) =>
            resp = mkResponse 200
                     (ResultBody true "Test registered on blockchain" data)
            /\ s' = s1
        | (Thrown e, s1) =>
            resp = mkResponse 500
                     (ErrorBody "Failed to register test on blockchain" (Some e))
            /\ s' = set_console ((Error, "Blockchain registration error:")
                                  :: console s1) s1
        end).
Proof using registerTestOnChain.
  clear mintBadgeNFT. unfold registerTest, try_catch, bind.
  destruct (Js.falsy (rb_testId req) || Js.falsy (rb_creator req)
            || Js.falsy (rb_metadataCid req)) eqn:G.
  - apply register_guard in G. cbn. eexists _, _. split; [reflexivity|].
    split; [auto | tauto].
  - assert (N : ~ register_rejected req).
    { intros R%register_guard. congruence. }
    destruct (registerTestOnChain _ _ _ env s) as [[data|e] s1] eqn:E;
      cbn; eexists _, _; (split; [reflexivity|]); split; try tauto;
      intros _; rewrite E; auto.
Qed.

Lemma mintNFT_cases (req : MintBody) (env : Env) (s : State) :
  exists resp s',
    mintNFT mintBadgeNFT (Some req) env s = (Returned resp, s')
    /\ (mint_rejected req ->
        resp = mkResponse 400
                 (ErrorBody "Missing required fields: receiver, testId" None)
        /\ s' = s)
    /\ (~ mint_rejected req ->
        match mintBadgeNFT (the (mb_receiver req)) (the (mb_testId req))
                (mb_testTitle req) (mb_score req) (mb_totalScore req) env s with
        | (Returned data, s1) =>
            resp = mkResponse 200
                     (ResultBody true "NFT badge minted successfully" data)
            /\ s' = s1
        | (Thrown e, s1) =>
            resp = mkResponse 500 (ErrorBody "Failed to mint NFT badge" (Some e))
            /\ s' = set_console ((Error, "NFT minting error:") :: console s1) s1
        end).
Proof using mintBadgeNFT.
  clear registerTestOnChain. unfold mintNFT, try_catch, bind.
  destruct (Js.falsy (mb_receiver req) || Js.falsy (mb_testId req)) eqn:G.
  - apply mint_guard in G. cbn. eexists _, _. split; [reflexivity|].
    split; [auto | tauto].
  - assert (N : ~ mint_rejected req).
    { intros R%mint_guard. congruence. }
    destruct (mintBadgeNFT _ _ _ _ _ env s) as [[data|e] s1] eqn:E;
      cbn; eexists _, _; (split; [reflexivity|]); split; try tauto;
      intros _; rewrite E; auto.
Qed.

(** A request without a body: the destructuring throws inside the [try]
    block, the handler logs the error and answers 500 with the message
    of the [TypeError] as [details]; the service is not called. *)
Lemma registerTest_no_body (env : Env) (s : State) :
  registerTest registerTestOnChain None env s
  = (Returned (mkResponse 500
                 (ErrorBody "Failed to register test on blockchain"
                    (Some (cannot_destructure "testId")))),
     set_console ((Error, "Blockchain registration error:") :: console s) s).
Proof using registerTestOnChain. reflexivity. Qed.

Lemma mintNFT_no_body (env : Env) (s : State) :
  mintNFT mintBadgeNFT None env s
  = (Returned (mkResponse 500
                 (ErrorBody "Failed to mint NFT badge"
                    (Some (cannot_destructure "receiver")))),
     set_console ((Error, "NFT minting error:") :: console s) s).
Proof using mintBadgeNFT. reflexivity. Qed.

(** C7 (as the code has it). Each operation always answers. register-test
    answers 400 exactly when the request has a body in which testId,
    creator or metadataCid is absent or empty, mint-nft exactly when it
    has a body in which receiver or testId is absent or empty. A request
    without a body is answered 500, with the message of the [TypeError]
    as [details]; otherwise a failure of the workflow gives 500 with
    [error] and [details], and its success gives 200 with [{success,
    message, data}]. *)
Theorem http_status_mapping (env : Env) (s : State)
    (rbody : option RegisterBody) (mbody : option MintBody) :
  (exists resp s',
     registerTest registerTestOnChain rbody env s = (Returned resp, s')
     /\ (status resp = 400 <-> register_refused rbody)
     /\ (status resp = 400 -> exists error, body resp = ErrorBody error None)
     /\ (status resp <> 400 ->
         match rbody with
         | None =>
             exists details,
               resp = mkResponse 500
                        (ErrorBody "Failed to register test on blockchain"
                           (Some details))
         | Some rreq =>
             match fst (registerTestOnChain (the (rb_testId rreq))
                          (the (rb_creator rreq)) (the (rb_metadataCid rreq))
                          env s)
             with
             | Returned data =>
                 resp = mkResponse 200
                          (ResultBody true "Test registered on blockchain" data)
             | Thrown e =>
                 resp = mkResponse 500
                          (ErrorBody "Failed to register test on blockchain"
                             (Some e))
             end
         end))
  /\ (exists resp s',
        mintNFT mintBadgeNFT mbody env s = (Returned resp, s')
        /\ (status resp = 400 <-> mint_refused mbody)
        /\ (status resp = 400 -> exists error, body resp = ErrorBody error None)
        /\ (status resp <> 400 ->
            match mbody with
            | None =>
                exists details,
                  resp = mkResponse 500
                           (ErrorBody "Failed to mint NFT badge" (Some details))
            | Some mreq =>
                match fst (mintBadgeNFT (the (mb_receiver mreq))
                             (the (mb_testId mreq)) (mb_testTitle mreq)
                             (mb_score mreq) (mb_totalScore mreq) env s)
                with
                | Returned data =>
                    resp = mkResponse 200
                             (ResultBody true "NFT badge minted successfully"
                                data)
                | Thrown e =>
                    resp = mkResponse 500
                             (ErrorBody "Failed to mint NFT badge" (Some e))
                end
            end)).
Proof.
  split.
  - destruct rbody as [rreq|].
    2:{ rewrite registerTest_no_body. eexists _, _. split; [reflexivity|].
        cbn. repeat split; try discriminate; try tauto; eauto. }
    destruct (registerTest_cases rreq env s) as (resp & s' & E & Hrej & Hrun).
    exists resp, s'. split; [exact E|]. cbn [register_refused].
    destruct (classic_rejected_register rreq) as [R|R].
    + destruct (Hrej R) as [-> _]. cbn. repeat split; eauto; intros; tauto.
    + specialize (Hrun R).
      destruct (registerTestOnChain _ _ _ env s) as [[data|e] s1];
        destruct Hrun as [-> _]; cbn; repeat split;
        try discriminate; try tauto; intros; try lia; auto.
  - destruct mbody as [mreq|].
    2:{ rewrite mintNFT_no_body. eexists _, _. split; [reflexivity|].
        cbn. repeat split; try discriminate; try tauto; eauto. }
    destruct (mintNFT_cases mreq env s) as (resp & s' & E & Hrej & Hrun).
    exists resp, s'. split; [exact E|]. cbn [mint_refused].
    destruct (classic_rejected_mint mreq) as [R|R].
    + destruct (Hrej R) as [-> _]. cbn. repeat split; eauto; intros; tauto.
    + specialize (Hrun R).
      destruct (mintBadgeNFT _ _ _ _ _ env s) as [[data|e] s1];
        destruct Hrun as [-> _]; cbn; repeat split;
        try discriminate; try tauto; intros; try lia; auto.
Qed.

End Controller.

(** C7, the claim as worded fails, in both directions: a request in
    which no member is missing is answered 400 when one of them is the
    empty string, and a request without a body, in which every member is
    missing, is answered 500 and not 400. *)
Lemma empty_member_is_rejected :
  let rreq := BlockchainController.mkRegisterBody (Some "") (Some "GDDX")
                (Some "T1.json") [] in
  let mreq := BlockchainController.mkMintBody (Some "GDDX") (Some "") None None
                None [] in
  (is_Some (BlockchainController.rb_testId rreq)
   /\ is_Some (BlockchainController.rb_creator rreq)
   /\ is_Some (BlockchainController.rb_metadataCid rreq)
   /\ register_test_operation (Some rreq) sample_env empty_state
      = (Returned (BlockchainController.mkResponse 400
                     (BlockchainController.ErrorBody
                        "Missing required fields: testId, creator, metadataCid"
                        None)),
         empty_state))
  /\ (is_Some (BlockchainController.mb_receiver mreq)
      /\ is_Some (BlockchainController.mb_testId mreq)
      /\ mint_nft_operation (Some mreq) sample_env empty_state
         = (Returned (BlockchainController.mkResponse 400
                        (BlockchainController.ErrorBody
                           "Missing required fields: receiver, testId" None)),
            empty_state))
  /\ (exists details,
        fst (register_test_operation None sample_env empty_state)
        = Returned (BlockchainController.mkResponse 500
                      (BlockchainController.ErrorBody
                         "Failed to register test on blockchain"
                         (Some details))))
  /\ (exists details,
        fst (mint_nft_operation None sample_env empty_state)
        = Returned (BlockchainController.mkResponse 500
                      (BlockchainController.ErrorBody "Failed to mint NFT badge"
                         (Some details)))).
Proof. cbv zeta. repeat apply conj; cbn; eauto. Qed.

(** *** The simulated services, run on a world *)

Lemma append_inv_head (p x y : string) : p +:+ x = p +:+ y -> x = y.
Proof. induction p as [|c p IH]; simpl; intros H; [exact H|]. inversion H; auto. Qed.

Lemma generated_token_inj (testId : string) (a b : N) :
  generated_token testId a = generated_token testId b -> a = b.
Proof.
  unfold generated_token. intros H.
  apply (append_inv_head "nft_") in H. apply append_inv_head in H.
  apply (append_inv_head "_") in H. now apply dec_inj.
Qed.

Lemma registerTestOnChain_sim_run (env : Env) (s : State)
    (testId creator metadataCid : string) :
  RegistryServiceSim.registerTestOnChain testId creator metadataCid env s
  = (Returned
       (mkTestRegistrationResult true
          (sim_hash (clock env (ticks s)) (entropy env (draws s)))
          (mkTestMetadata testId creator metadataCid (clock env (S (ticks s))))),
     set_draws (S (draws s)) (set_ticks (2 + ticks s) s)).
Proof. reflexivity. Qed.

Lemma mintBadgeNFT_sim_run (env : Env) (s : State) (receiver testId : string)
    (title : option string) (score totalScore : option Js.Number) :
  NftService.mintBadgeNFT receiver testId title score totalScore env s
  = match storage_fault env (storage_ops s) with
    | Some f =>
        (Thrown ("NFT minting failed: " +:+
                 ObjectStore.error_message (ObjectStore.fault_error f)),
         set_console ((Error, "Error minting badge NFT:") :: console s)
           (set_storage (storage s) (S (storage_ops s))
              (set_ticks (S (ticks s)) s)))
    | None =>
        (Returned
           (mkNFTMintResult true
              (sim_hash (clock env (2 + ticks s)) (entropy env (draws s)))
              (generated_token testId (clock env (1 + ticks s)))
              (metadata_public_url env testId receiver)),
         set_draws (S (draws s))
           (set_ticks (3 + ticks s)
              (set_storage
                 (<[metadata_key testId receiver :=
                      JsonBlob
                        (SorobanSimple.badge_metadata (supabaseUrl env) testId
                           receiver title score totalScore (clock env (ticks s)))]>
                    (storage s))
                 (S (storage_ops s)) s)))
    end.
Proof.
  unfold NftService.mintBadgeNFT, StorageService.generateBadgeMetadata,
    StorageService.uploadBadgeMetadata, ObjectStore.upload, try_catch, bind,
    ask, Date_now, random_suffix, ret, throw, console_error. cbn.
  destruct (storage_fault env (storage_ops s)) as [f|]; [reflexivity|].
  destruct (storage s !! _); reflexivity.
Qed.

Lemma mintBadgeNFT_sim_keeps (env : Env) (s : State) (receiver testId : string)
    (title : option string) (score totalScore : option Js.Number) :
  let s' := snd (NftService.mintBadgeNFT receiver testId title score totalScore
                   env s) in
  badges s' = badges s /\ custom_badges s' = custom_badges s
  /\ registry_refs s' = registry_refs s /\ rpc_log s' = rpc_log s.
Proof.
  rewrite mintBadgeNFT_sim_run.
  destruct (storage_fault env (storage_ops s)); cbn; auto.
Qed.

(** The world after the mint-nft operation: the badges table, the
    registry references and the RPC log are the ones before it. *)
Lemma mint_nft_operation_keeps
    (body : option BlockchainController.MintBody) (env : Env) (s : State) :
  let s' := snd (mint_nft_operation body env s) in
  badges s' = badges s /\ registry_refs s' = registry_refs s
  /\ rpc_log s' = rpc_log s.
Proof.
  unfold mint_nft_operation. destruct body as [req|];
    [|rewrite mintNFT_no_body; cbn; auto].
  destruct (mintNFT_cases NftService.mintBadgeNFT req env s)
    as (resp & s' & E & Hrej & Hrun).
  rewrite E. cbn.
  destruct (classic_rejected_mint req) as [R|R].
  - destruct (Hrej R) as [_ ->]. auto.
  - specialize (Hrun R).
    pose proof (mintBadgeNFT_sim_keeps env s
                  (BlockchainController.the (BlockchainController.mb_receiver req))
                  (BlockchainController.the (BlockchainController.mb_testId req))
                  (BlockchainController.mb_testTitle req)
                  (BlockchainController.mb_score req)
                  (BlockchainController.mb_totalScore req)) as K.
    cbn in K.
    destruct (NftService.mintBadgeNFT _ _ _ _ _ env s) as [[data|e] s1];
      destruct Hrun as [_ ->]; cbn in *; tauto.
Qed.

(** The mint-nft operation reads five members of the body and nothing
    else. *)
Lemma mint_nft_operation_ignores_others (env : Env) (s : State)
    (receiver testId title : option string) (score totalScore : option Js.Number)
    (others others' : list (string * string)) :
  mint_nft_operation
    (Some (BlockchainController.mkMintBody receiver testId title score
             totalScore others))
    env s
  = mint_nft_operation
      (Some (BlockchainController.mkMintBody receiver testId title score
               totalScore others'))
      env s.
Proof. reflexivity. Qed.

(** The mint-nft operation on a body that names a receiver and a test. *)
Lemma mint_nft_operation_run (env : Env) (s : State) (receiver testId : string)
    (title : option string) (score totalScore : option Js.Number)
    (others : list (string * string)) :
  receiver <> "" -> testId <> "" ->
  mint_nft_operation
    (Some (BlockchainController.mkMintBody (Some receiver) (Some testId) title
             score totalScore others)) env s
  = match NftService.mintBadgeNFT receiver testId title score totalScore env s with
    | (Returned data, s1) =>
        (Returned
           (BlockchainController.mkResponse 200
              (BlockchainController.ResultBody true
                 "NFT badge minted successfully" data)), s1)
    | (Thrown e, s1) =>
        (Returned
           (BlockchainController.mkResponse 500
              (BlockchainController.ErrorBody "Failed to mint NFT badge" (Some e))),
         set_console ((Error, "NFT minting error:") :: console s1) s1)
    end.
Proof.
  intros Hr Ht.
  destruct receiver as [|c r]; [congruence|].
  destruct testId as [|c' t]; [congruence|].
  unfold mint_nft_operation, BlockchainController.mintNFT, try_catch, bind. cbn.
  destruct (NftService.mintBadgeNFT _ _ _ _ _ env s) as [[data|e] s1]; reflexivity.
Qed.

Lemma register_test_operation_run (env : Env) (s : State)
    (testId creator metadataCid : string) (others : list (string * string)) :
  testId <> "" -> creator <> "" -> metadataCid <> "" ->
  register_test_operation
    (Some (BlockchainController.mkRegisterBody (Some testId) (Some creator)
             (Some metadataCid) others)) env s
  = (Returned
       (BlockchainController.mkResponse 200
          (BlockchainController.ResultBody true "Test registered on blockchain"
             (mkTestRegistrationResult true
                (sim_hash (clock env (ticks s)) (entropy env (draws s)))
                (mkTestMetadata testId creator metadataCid
                   (clock env (S (ticks s))))))),
     set_draws (S (draws s)) (set_ticks (2 + ticks s) s)).
Proof.
  intros Ht Hc Hm.
  destruct testId as [|a t]; [congruence|].
  destruct creator as [|b c]; [congruence|].
  destruct metadataCid as [|d m]; [congruence|].
  reflexivity.
Qed.

(** *** Issuance *)

Lemma update_badge_ids (badgeId token tx url : string) (env : Env) (s : State) :
  let s' := snd (RecordStore.update_badge badgeId token tx url env s) in
  map id (badges s') = map id (badges s)
  /\ map test_id (badges s') = map test_id (badges s)
  /\ map wallet_address (badges s') = map wallet_address (badges s).
Proof.
  unfold RecordStore.update_badge.
  destruct (db_fault env (db_ops s)); cbn; [auto|].
  induction (badges s) as [|b l IH]; cbn; [auto|].
  destruct IH as (-> & -> & ->).
  destruct (String.eqb (id b) badgeId); auto.
Qed.

(** The retry action never throws and leaves the rows of the badges
    table in place: same ids, tests and owners, in the same order. *)
Lemma retryMintNFT_rows (walletAddress : string) (badge : Badge)
    (title : option string) (env : Env) (s : State) :
  let r := BadgesTab.retryMintNFT walletAddress badge title env s in
  fst r = Returned tt
  /\ map id (badges (snd r)) = map id (badges s)
  /\ map test_id (badges (snd r)) = map test_id (badges s)
  /\ map wallet_address (badges (snd r)) = map wallet_address (badges s).
Proof.
  unfold BadgesTab.retryMintNFT, BadgesTab.mintNFTViaBackend, try_catch, bind.
  pose proof (mint_nft_operation_keeps
                (Some (BlockchainController.mkMintBody (Some walletAddress)
                         (Some (test_id badge))
                         (Some (Js.or_default title "Achievement Badge"))
                         (Some 0%float) (Some 0%float) [])) env s) as K.
  cbn in K. destruct K as (Kb & _ & _).
  destruct (mint_nft_operation _ env s) as [[resp|e] s1]; cbn in Kb |- *.
  - destruct (BlockchainController.body resp) as [err det|ok msg data]; cbn.
    + rewrite Kb. auto.
    + pose proof (update_badge_ids (id badge) (tokenId data) (txHash data)
                    (metadataUrl data) env s1) as U.
      cbn in U.
      destruct (RecordStore.update_badge _ _ _ _ env s1) as [[[err|]|e] s2];
        cbn in U |- *; rewrite <- Kb; tauto.
  - rewrite Kb. auto.
Qed.

(** C1 (as the code has it). Two invocations of the mint-nft operation
    with the same receiver and test create no Badge row: the operation
    does not write the badges table, and the retry action that follows it
    updates the rows in place. When both invocations succeed they return
    the same metadata URL, and each returns a token id generated from its
    own clock reading, so the second returns the first one's token id
    exactly when the two readings coincide. *)
Theorem issuance_twice (env : Env) (s : State) (receiver testId : string)
    (title : option string) (score totalScore : option Js.Number)
    (others : list (string * string)) :
  receiver <> "" -> testId <> "" ->
  let req := Some (BlockchainController.mkMintBody (Some receiver) (Some testId)
                     title score totalScore others) in
  let r1 := mint_nft_operation req env s in
  let r2 := mint_nft_operation req env (snd r1) in
  badges (snd r1) = badges s /\ badges (snd r2) = badges s
  /\ (forall walletAddress badge test_title,
        map id (badges (snd (BadgesTab.retryMintNFT walletAddress badge
                               test_title env s)))
        = map id (badges s))
  /\ (forall d1 d2,
        fst r1 = Returned (BlockchainController.mkResponse 200
                   (BlockchainController.ResultBody true
                      "NFT badge minted successfully" d1)) ->
        fst r2 = Returned (BlockchainController.mkResponse 200
                   (BlockchainController.ResultBody true
                      "NFT badge minted successfully" d2)) ->
        metadataUrl d2 = metadataUrl d1
        /\ tokenId d1 = generated_token testId (clock env (1 + ticks s))
        /\ tokenId d2 = generated_token testId (clock env (4 + ticks s))
        /\ (tokenId d2 = tokenId d1
            <-> clock env (4 + ticks s) = clock env (1 + ticks s))).
Proof.
  intros Hr Ht req r1 r2.
  pose proof (mint_nft_operation_keeps req env s) as (K1 & _ & _).
  pose proof (mint_nft_operation_keeps req env (snd r1)) as (K2 & _ & _).
  fold r1 in K1. fold r1 r2 in K2.
  split; [exact K1|]. split; [congruence|].
  split; [intros; apply retryMintNFT_rows|].
  intros d1 d2 E1 E2. subst r2 r1 req.
  rewrite mint_nft_operation_run, mintBadgeNFT_sim_run in E1, E2 by assumption.
  rewrite mint_nft_operation_run, mintBadgeNFT_sim_run in E2 by assumption.
  destruct (storage_fault env (storage_ops s)) as [f|]; [discriminate E1|].
  cbn in E1, E2.
  destruct (storage_fault env (S (storage_ops s))) as [f|]; [discriminate E2|].
  cbn in E1, E2.
  injection E1 as <-. injection E2 as <-. cbn.
  repeat apply conj; try reflexivity.
  - apply generated_token_inj.
  - intros ->. reflexivity.
Qed.

(** The statement above on the sample world. *)
Lemma issuance_twice_witness :
  "GDDX" <> "" /\ "T1" <> ""
  /\ badges (snd (mint_nft_operation sample_mint_body sample_env empty_state))
     = badges empty_state.
Proof.
  split; [discriminate|]. split; [discriminate|].
  apply (issuance_twice sample_env empty_state "GDDX" "T1"
           (Some "JavaScript Fundamentals") (Some 8%float) (Some 10%float) []);
    discriminate.
Defined.

(** C1, the claim as worded fails: after a retry has stored a token id on
    the row, the next invocation for the same receiver and test mints
    again and returns another token id. *)
Lemma second_mint_returns_new_token :
  let s1 := snd (BadgesTab.retryMintNFT "GDDX" pending_badge
                   (Some "JavaScript Fundamentals") sample_env one_badge_state) in
  map nft_token_id (badges s1) = [Some "nft_T1_1732551235567"]
  /\ exists data s2,
       mint_nft_operation sample_mint_body sample_env s1
       = (Returned (BlockchainController.mkResponse 200
                      (BlockchainController.ResultBody true
                         "NFT badge minted successfully" data)), s2)
       /\ tokenId data = "nft_T1_1732551238567"
       /\ Some (tokenId data) <> nft_token_id (hd pending_badge (badges s1))
       /\ length (badges s2) = 1.
Proof.
  cbv zeta. split; [vm_compute; reflexivity|].
  eexists _, _. split; [vm_compute; reflexivity|].
  cbn. split; [reflexivity|]. split; [vm_compute; discriminate|reflexivity].
Qed.

(** *** Registration *)

(** C2 (as the code has it). For non-empty testId, creator and
    metadataCid, each of two invocations of the register-test operation
    succeeds and echoes the three values; each returns a transaction hash
    generated from its own clock reading and random draw, so the two
    hashes are equal exactly when both coincide; neither invocation
    writes a registry reference, an object or a Badge row. *)
Theorem registration_twice (env : Env) (s : State)
    (testId creator metadataCid : string) (others : list (string * string)) :
  testId <> "" -> creator <> "" -> metadataCid <> "" ->
  let req := Some (BlockchainController.mkRegisterBody (Some testId)
                     (Some creator) (Some metadataCid) others) in
  let r1 := register_test_operation req env s in
  let r2 := register_test_operation req env (snd r1) in
  exists d1 d2,
    fst r1 = Returned (BlockchainController.mkResponse 200
               (BlockchainController.ResultBody true
                  "Test registered on blockchain" d1))
    /\ fst r2 = Returned (BlockchainController.mkResponse 200
                  (BlockchainController.ResultBody true
                     "Test registered on blockchain" d2))
    /\ reg_success d1 = true /\ reg_success d2 = true
    /\ reg_txHash d1 = sim_hash (clock env (ticks s)) (entropy env (draws s))
    /\ reg_txHash d2
       = sim_hash (clock env (2 + ticks s)) (entropy env (1 + draws s))
    /\ (reg_txHash d2 = reg_txHash d1
        <-> clock env (2 + ticks s) = clock env (ticks s)
            /\ entropy env (1 + draws s) = entropy env (draws s))
    /\ testMetadata d1
       = mkTestMetadata testId creator metadataCid (clock env (1 + ticks s))
    /\ testMetadata d2
       = mkTestMetadata testId creator metadataCid (clock env (3 + ticks s))
    /\ registry_refs (snd r1) = registry_refs s
    /\ registry_refs (snd r2) = registry_refs s
    /\ storage (snd r2) = storage s
    /\ badges (snd r2) = badges s.
Proof.
  intros Ht Hc Hm req r1 r2. subst r2 r1 req.
  rewrite !register_test_operation_run by assumption. cbn.
  eexists _, _. repeat apply conj; try reflexivity.
  - intros H. apply sim_hash_inj in H. exact H.
  - intros [-> ->]. reflexivity.
Qed.

(** The statement above on the sample world. *)
Lemma registration_twice_witness :
  "T1" <> "" /\ "GDDX" <> "" /\ "T1.json" <> ""
  /\ exists d1 d2,
       fst (register_test_operation sample_register_body sample_env empty_state)
       = Returned (BlockchainController.mkResponse 200
           (BlockchainController.ResultBody true
              "Test registered on blockchain" d1))
       /\ fst (register_test_operation sample_register_body sample_env
                 (snd (register_test_operation sample_register_body sample_env
                         empty_state)))
          = Returned (BlockchainController.mkResponse 200
              (BlockchainController.ResultBody true
                 "Test registered on blockchain" d2))
       /\ reg_success d1 = true /\ reg_success d2 = true.
Proof.
  split; [discriminate|]. split; [discriminate|]. split; [discriminate|].
  destruct (registration_twice sample_env empty_state "T1" "GDDX" "T1.json" [])
    as (d1 & d2 & E1 & E2 & S1 & S2 & _); try discriminate.
  exists d1, d2. repeat split; assumption.
Defined.

(** C2, the claim as worded fails: the second invocation returns another
    transaction hash, and no registry reference is written, not even
    once. *)
Lemma second_registration_returns_new_hash :
  let r1 := register_test_operation sample_register_body sample_env empty_state in
  let r2 := register_test_operation sample_register_body sample_env (snd r1) in
  exists d1 d2,
    fst r1 = Returned (BlockchainController.mkResponse 200
               (BlockchainController.ResultBody true
                  "Test registered on blockchain" d1))
    /\ fst r2 = Returned (BlockchainController.mkResponse 200
                  (BlockchainController.ResultBody true
                     "Test registered on blockchain" d2))
    /\ reg_txHash d1 = "sim_1732551234567_k3j9x2"
    /\ reg_txHash d2 = "sim_1732551236567_p0q8zr"
    /\ reg_txHash d2 <> reg_txHash d1
    /\ registry_refs (snd r2) = ∅.
Proof.
  cbv zeta. eexists _, _.
  split; [vm_compute; reflexivity|]. split; [vm_compute; reflexivity|].
  cbn. split; [vm_compute; reflexivity|]. split; [vm_compute; reflexivity|].
  split; [vm_compute; discriminate|reflexivity].
Qed.

(** *** Practice mode *)

(** The status of mint-nft is 400 exactly on a body that is refused, and
    500 on a request without a body. *)
Lemma http_status_sound (body : option BlockchainController.MintBody)
    (env : Env) (s : State) :
  exists resp s',
    mint_nft_operation body env s = (Returned resp, s')
    /\ (BlockchainController.status resp = 400 <-> mint_refused body)
    /\ (body = None -> BlockchainController.status resp = 500).
Proof.
  destruct body as [req|].
  2:{ unfold mint_nft_operation. rewrite mintNFT_no_body. eexists _, _.
      split; [reflexivity|]. cbn. split; [split; [discriminate | tauto] | auto]. }
  destruct (mintNFT_cases NftService.mintBadgeNFT req env s)
    as (resp & s' & E & Hrej & Hrun).
  exists resp, s'. split; [exact E|]. split; [|discriminate].
  cbn [mint_refused].
  destruct (classic_rejected_mint req) as [R|R].
  - destruct (Hrej R) as [-> _]. cbn. tauto.
  - specialize (Hrun R).
    destruct (NftService.mintBadgeNFT _ _ _ _ _ env s) as [[data|e] s1];
      destruct Hrun as [-> _]; cbn; split; intros; try discriminate; tauto.
Qed.

(** C3 (as the code has it). The mint-nft operation has no
    practice-mode input: it reads receiver, testId, testTitle, score and
    totalScore, and any other member of the body changes nothing. It
    refuses, with status 400, exactly when the request has a body in
    which receiver or testId is absent or empty; a request without a
    body is answered 500. No request makes it create or change a Badge
    row. *)
Theorem practice_flag_is_not_read (env : Env) (s : State)
    (receiver testId title : option string) (score totalScore : option Js.Number)
    (others : list (string * string)) :
  let req := Some (BlockchainController.mkMintBody receiver testId title score
                     totalScore others) in
  let plain := Some (BlockchainController.mkMintBody receiver testId title score
                       totalScore []) in
  mint_nft_operation req env s = mint_nft_operation plain env s
  /\ (forall body, badges (snd (mint_nft_operation body env s)) = badges s)
  /\ (forall body,
        exists resp s',
          mint_nft_operation body env s = (Returned resp, s')
          /\ (BlockchainController.status resp = 400 <-> mint_refused body)
          /\ (body = None -> BlockchainController.status resp = 500)).
Proof.
  intros req plain. split; [reflexivity|].
  split; [intros body; apply mint_nft_operation_keeps|].
  intros body. apply http_status_sound.
Qed.

(** C3, the claim as worded fails: a request that carries a practice
    flag is minted like any other and answered with a token id. *)
Lemma practice_request_is_minted :
  let req := Some (BlockchainController.mkMintBody (Some "GDDX") (Some "T1")
                     (Some "JavaScript Fundamentals") (Some 8%float)
                     (Some 10%float)
                     [("practice", "true"); ("mode", "no-badge")]) in
  exists data s',
    mint_nft_operation req sample_env empty_state
    = (Returned (BlockchainController.mkResponse 200
                   (BlockchainController.ResultBody true
                      "NFT badge minted successfully" data)), s')
    /\ success data = true
    /\ tokenId data = "nft_T1_1732551235567".
Proof.
  cbv zeta. eexists _, _. split; [vm_compute; reflexivity|].
  split; reflexivity.
Qed.

(** *** The confirmation loop *)

Lemma poll_done (remaining : nat) (txHash status : string) (attempts : nat)
    (env : Env) (s : State) :
  status <> "PENDING" ->
  Ledger.poll remaining txHash status attempts env s
  = (Returned (status, attempts), s).
Proof.
  intros H. apply String.eqb_neq in H.
  destruct remaining; simpl; rewrite H; reflexivity.
Qed.

Lemma poll_exhausted (txHash : string) (attempts : nat) (env : Env) (s : State) :
  Ledger.poll 0 txHash "PENDING" attempts env s
  = (Returned ("PENDING", attempts), s).
Proof. reflexivity. Qed.

Lemma poll_step (remaining : nat) (txHash : string) (attempts : nat)
    (env : Env) (s : State) :
  Ledger.poll (S remaining) txHash "PENDING" attempts env s
  = let s1 := set_rpc_log (GetTransaction txHash :: rpc_log s)
                (set_slept (slept s + 1000)%N s) in
    match rpc_getTransaction env (length (rpc_log s)) with
    | Returned statusResponse =>
        Ledger.poll remaining txHash (tx_status statusResponse) (S attempts)
          env s1
    | Thrown e => (Thrown e, s1)
    end.
Proof.
  cbn [Ledger.poll]. unfold bind, sleep, server_getTransaction, rpc. cbn.
  destruct (rpc_getTransaction env (length (rpc_log s))); reflexivity.
Qed.

Lemma repeat_shift {A} (x : A) (k : nat) (l : list A) :
  (repeat x k ++ x :: l = x :: repeat x k ++ l)%list.
Proof. induction k as [|k IH]; cbn; [reflexivity|]. now rewrite IH. Qed.

Lemma poll_run (remaining : nat) (txHash status : string) (attempts : nat)
    (env : Env) (s : State) :
  exists k,
    poll_outcome remaining txHash status attempts env s
      (Ledger.poll remaining txHash status attempts env s) k.
Proof.
  revert status attempts s.
  induction remaining as [|remaining IH]; intros status attempts s.
  - exists 0. destruct (String.eqb_spec status "PENDING") as [->|Hne].
    + rewrite poll_exhausted. unfold poll_outcome. cbn.
      rewrite N.add_0_r. repeat apply conj; intros; try lia; auto.
    + rewrite poll_done by assumption. unfold poll_outcome. cbn.
      rewrite N.add_0_r. repeat apply conj; intros; try lia; auto.
  - destruct (String.eqb_spec status "PENDING") as [->|Hne].
    + rewrite poll_step. cbv zeta.
      destruct (rpc_getTransaction env (length (rpc_log s))) as [resp|e] eqn:E.
      * destruct (IH (tx_status resp) (S attempts)
                    (set_rpc_log (GetTransaction txHash :: rpc_log s)
                       (set_slept (slept s + 1000)%N s)))
          as (k & Hk & Hs & Hl & Hmid & Hpos & Hres).
        exists (S k). unfold poll_outcome. cbn in Hs, Hl, Hmid, Hres.
        split; [lia|]. split; [rewrite Hs; lia|].
        split.
        { rewrite Hl. cbn. apply repeat_shift. }
        split.
        { intros [|j] Hj.
          - rewrite Nat.add_0_r. exists resp. split; [exact E|].
            apply Hpos. lia.
          - destruct (Hmid j) as (resp' & E' & P'); [lia|].
            exists resp'. split; [|exact P'].
            rewrite <- E'. f_equal. lia. }
        split; [reflexivity|].
        destruct (fst (Ledger.poll remaining txHash (tx_status resp) (S attempts)
                         env _)) as [[st n]|e].
        -- destruct Hres as (Hn & Hstop & Hzero & Hlast).
           split; [lia|]. split; [destruct Hstop; [left|right]; congruence|].
           split; [lia|]. intros _.
           destruct k as [|k].
           ++ exists resp. rewrite Nat.add_0_r. split; [exact E|].
              symmetry. now apply Hzero.
           ++ destruct Hlast as (resp' & E' & P'); [lia|].
              exists resp'. split; [|exact P'].
              rewrite <- E'. f_equal. cbn. lia.
        -- destruct Hres as (Hk0 & E').
           split; [lia|]. rewrite <- E'. f_equal.
           destruct k; [lia|]. cbn. lia.
      * exists 1. unfold poll_outcome. cbn.
        split; [lia|]. split; [reflexivity|]. split; [reflexivity|].
        split; [intros j Hj; lia|]. split; [reflexivity|].
        split; [lia|]. now rewrite Nat.add_0_r.
    + exists 0. rewrite poll_done by assumption. unfold poll_outcome. cbn.
      rewrite N.add_0_r. repeat apply conj; intros; try lia; auto.
Qed.

Lemma confirm_run (txHash status : string) (env : Env) (s : State) :
  let p := Ledger.poll Ledger.maxAttempts txHash status 0 env s in
  Ledger.confirm txHash status env s
  = match fst p with
    | Returned (st, _) =>
        if String.eqb st "SUCCESS" then (Returned txHash, snd p)
        else (Thrown ("Transaction failed with status: " +:+ st), snd p)
    | Thrown e => (Thrown e, snd p)
    end.
Proof.
  unfold Ledger.confirm, bind. cbv zeta.
  destruct (Ledger.poll Ledger.maxAttempts txHash status 0 env s)
    as [[[st n]|e] s1]; cbn; [|reflexivity].
  destruct (String.eqb st "SUCCESS"); reflexivity.
Qed.

(** C6 (as the code has it). For every transaction hash and every
    behaviour of the server the confirmation loop terminates after at
    most 30 polls, each preceded by a 1000 ms sleep. It polls while the
    status is exactly "PENDING": there is no poll unless the status it
    starts from is "PENDING", every reply but the last reported
    "PENDING", and the loop stops at the first other status, whatever it
    is, or after the 30th poll. The status it ends with is the one of
    the last reply, or the one it started from when there was no poll.
    The operation then goes on only if that status is "SUCCESS";
    otherwise, and so too when the status is still "PENDING" after 30
    polls, it throws "Transaction failed with status: " followed by the
    status. *)
Theorem polling_is_bounded (txHash status : string) (env : Env) (s : State) :
  let p := Ledger.poll Ledger.maxAttempts txHash status 0 env s in
  (exists k,
     k <= 30
     /\ slept (snd p) = (slept s + 1000 * N.of_nat k)%N
     /\ rpc_log (snd p) = (repeat (GetTransaction txHash) k ++ rpc_log s)%list
     /\ (0 < k -> status = "PENDING")
     /\ (forall j, S j < k ->
           exists resp,
             rpc_getTransaction env (length (rpc_log s) + j) = Returned resp
             /\ tx_status resp = "PENDING")
     /\ match fst p with
        | Returned (st, attempts) =>
            attempts = k
            /\ (st <> "PENDING" \/ k = 30)
            /\ (k = 0 -> st = status)
            /\ (0 < k ->
                exists resp,
                  rpc_getTransaction env (length (rpc_log s) + (k - 1))
                  = Returned resp
                  /\ tx_status resp = st)
        | Thrown e =>
            0 < k
            /\ rpc_getTransaction env (length (rpc_log s) + (k - 1)) = Thrown e
        end)
  /\ Ledger.confirm txHash status env s
     = match fst p with
       | Returned (st, _) =>
           if String.eqb st "SUCCESS" then (Returned txHash, snd p)
           else (Thrown ("Transaction failed with status: " +:+ st), snd p)
       | Thrown e => (Thrown e, snd p)
       end.
Proof.
  intros p. split; [|apply confirm_run].
  destruct (poll_run Ledger.maxAttempts txHash status 0 env s)
    as (k & Hk & Hs & Hl & Hmid & Hpos & Hres).
  fold p in Hs, Hl, Hres. exists k.
  split; [exact Hk|]. split; [exact Hs|]. split; [exact Hl|].
  split; [exact Hpos|]. split; [exact Hmid|].
  destruct (fst p) as [[st n]|e]; exact Hres.
Qed.

(** C6, the claim as worded fails: a status that is neither "SUCCESS"
    nor "FAILED" ends the polling after one attempt, and running out of
    attempts is reported as a failed transaction, not as a timeout. *)
Lemma polling_stops_on_any_status :
  Ledger.poll Ledger.maxAttempts "a1b2c3" "PENDING" 0
    (env_reporting "NOT_FOUND") empty_state
  = (Returned ("NOT_FOUND", 1),
     set_rpc_log [GetTransaction "a1b2c3"] (set_slept 1000 empty_state))
  /\ fst (Ledger.confirm "a1b2c3" "PENDING" (env_reporting "NOT_FOUND")
            empty_state)
     = Thrown "Transaction failed with status: NOT_FOUND"
  /\ fst (Ledger.confirm "a1b2c3" "PENDING" (env_reporting "PENDING")
            empty_state)
     = Thrown "Transaction failed with status: PENDING".
Proof. repeat apply conj; vm_compute; reflexivity. Qed.

(** *** Simulation mode of the ledger clients *)

Lemma mintBadgeNFT_no_signer_run (env : Env) (s : State)
    (receiver testId metadataUri : string) :
  BadgeNFTService.mintBadgeNFT receiver testId metadataUri None env s
  = (Returned
       (mkNFTMintResult true
          (sim_hash (clock env (1 + ticks s)) (entropy env (1 + draws s)))
          (NStr ("nft_" +:+ Js.dec (clock env (ticks s)) +:+ "_" +:+
                 entropy env (draws s)))
          metadataUri),
     set_draws (2 + draws s) (set_ticks (2 + ticks s) s)).
Proof. reflexivity. Qed.

Lemma registerTestOnChain_no_signer_run (env : Env) (s : State)
    (testId creator metadataCid : string) :
  RegistryService.registerTestOnChain testId creator metadataCid None env s
  = (Returned
       (mkTestRegistrationResult true
          (sim_hash (clock env (ticks s)) (entropy env (draws s)))
          (mkTestMetadata testId creator metadataCid (clock env (1 + ticks s)))),
     set_draws (1 + draws s) (set_ticks (2 + ticks s) s)).
Proof. reflexivity. Qed.

(** C4 (as the code has it). Without a signing keypair the mint and the
    register operation of the ledger clients return a successful,
    complete result, send no request to the RPC server and touch no
    store; the simulated mint of the NFT service, which has no signer at
    all, sends no request to the RPC server either. The transaction hash
    starts with "sim_". The token id starts with "nft_", not with
    "sim_". *)
Theorem no_signer_is_simulated (env : Env) (s : State)
    (receiver testId metadataUri creator metadataCid : string)
    (title : option string) (score totalScore : option Js.Number) :
  let m := BadgeNFTService.mintBadgeNFT receiver testId metadataUri None env s in
  let r := RegistryService.registerTestOnChain testId creator metadataCid None
             env s in
  let n := NftService.mintBadgeNFT receiver testId title score totalScore env s in
  (exists hash token,
     fst m = Returned (mkNFTMintResult true hash (NStr token) metadataUri)
     /\ Js.startsWith hash "sim_" = true
     /\ Js.startsWith token "nft_" = true
     /\ Js.startsWith token "sim_" = false
     /\ rpc_log (snd m) = rpc_log s
     /\ storage (snd m) = storage s)
  /\ (exists hash created,
        fst r = Returned (mkTestRegistrationResult true hash
                  (mkTestMetadata testId creator metadataCid created))
        /\ Js.startsWith hash "sim_" = true
        /\ rpc_log (snd r) = rpc_log s
        /\ storage (snd r) = storage s)
  /\ rpc_log (snd n) = rpc_log s
  /\ (forall data, fst n = Returned data ->
        success data = true
        /\ Js.startsWith (txHash data) "sim_" = true
        /\ Js.startsWith (tokenId data) "nft_" = true
        /\ Js.startsWith (tokenId data) "sim_" = false).
Proof.
  intros m r n. subst m r n.
  rewrite mintBadgeNFT_no_signer_run, registerTestOnChain_no_signer_run.
  split; [eexists _, _; repeat apply conj; reflexivity|].
  split; [eexists _, _; repeat apply conj; reflexivity|].
  split; [apply mintBadgeNFT_sim_keeps|].
  intros data. rewrite mintBadgeNFT_sim_run.
  destruct (storage_fault env (storage_ops s)); cbn; [discriminate|].
  intros [= <-]. repeat apply conj; reflexivity.
Qed.

(** C4, the claim as worded fails: the token id of a simulated mint does
    not carry the marker of the transaction hash, and its own prefix is
    the one the signed path gives a token id it generates, after real
    requests to the server. *)
Lemma token_id_has_no_simulation_marker :
  (exists hash token s',
     BadgeNFTService.mintBadgeNFT "GDDX" "T1" "https://p.supabase.co/m.json"
       None sample_env empty_state
     = (Returned (mkNFTMintResult true hash (NStr token)
                    "https://p.supabase.co/m.json"), s')
     /\ token = "nft_1732551234567_k3j9x2"
     /\ Js.startsWith token "sim_" = false)
  /\ (exists hash token s',
        BadgeNFTService.mintBadgeNFT "GDDX" "T1" "https://p.supabase.co/m.json"
          (Some "GSIGNER") sample_env empty_state
        = (Returned (mkNFTMintResult true hash (NStr token)
                       "https://p.supabase.co/m.json"), s')
        /\ hash = "a1b2c3"
        /\ Js.startsWith token "nft_" = true
        /\ length (rpc_log s') = 5).
Proof.
  split; eexists _, _, _; (split; [vm_compute; reflexivity|]);
    repeat apply conj; reflexivity.
Qed.

(** *** Token id of a signed mint *)

(** C9 (as the code has it). In signed mode, once the mint transaction
    has been submitted and confirmed, a return value that the decoder
    rejects does not fail the mint: the operation logs a warning and
    returns [success = true] with the hash of the submitted transaction
    and a placeholder token id. The placeholder is
    [nft_{testId}_{Date.now()}]: it is made of the test id and one clock
    reading, without the receiver, the hash or a random part, so another
    placeholder for the same test is equal to it exactly when its clock
    reading is the same. *)
Theorem decode_failure_falls_back (env : Env) (s s1 : State)
    (receiver testId metadataUri signer hash why : string)
    (txResult : GetTransactionResponse) :
  BadgeNFTService.submit_mint receiver metadataUri signer env s
  = (Returned hash, s1) ->
  rpc_getTransaction env (length (rpc_log s1)) = Returned txResult ->
  tx_status txResult = "SUCCESS" ->
  tx_resultMetaXdr txResult = true ->
  tx_returnValue txResult = Some (ScvMalformed why) ->
  exists s2,
    BadgeNFTService.mintBadgeNFT receiver testId metadataUri (Some signer) env s
    = (Returned (mkNFTMintResult true hash
                   (NStr (generated_token testId (clock env (ticks s1))))
                   metadataUri), s2)
    /\ console s2 = (Warn, fallback_warning) :: console s1
    /\ forall now,
         generated_token testId now
         = generated_token testId (clock env (ticks s1))
         <-> now = clock env (ticks s1).
Proof.
  intros Hsub Hget Hst Hmeta Hval.
  unfold BadgeNFTService.mintBadgeNFT, try_catch, bind at 1, ask.
  unfold bind at 1. rewrite Hsub.
  unfold bind at 1, server_getTransaction, rpc. rewrite Hget.
  unfold bind at 1, Date_now.
  unfold bind at 1, BadgeNFTService.extract_token_id.
  cbn [tx_status]. rewrite Hst, Hmeta, Hval. cbn.
  eexists. split; [reflexivity|]. split; [reflexivity|].
  intros now. split; [apply generated_token_inj | now intros ->].
Qed.

(** The statement above on the sample world, whose server confirms the
    transaction and returns a value the decoder rejects. *)
Lemma decode_failure_falls_back_witness :
  exists s2,
    BadgeNFTService.mintBadgeNFT "GDDX" "T1" "https://p.supabase.co/m.json"
      (Some "GSIGNER") sample_env empty_state
    = (Returned (mkNFTMintResult true "a1b2c3" (NStr "nft_T1_1732551234567")
                   "https://p.supabase.co/m.json"), s2)
    /\ console s2 = [(Warn, fallback_warning)].
Proof.
  destruct (decode_failure_falls_back sample_env empty_state
              (snd (BadgeNFTService.submit_mint "GDDX"
                      "https://p.supabase.co/m.json" "GSIGNER" sample_env
                      empty_state))
              "GDDX" "T1" "https://p.supabase.co/m.json" "GSIGNER" "a1b2c3"
              "bad union switch"
              (mkGetTransactionResponse "SUCCESS" true
                 (Some (ScvMalformed "bad union switch"))))
    as (s2 & E & C & _); try (vm_compute; reflexivity).
  exists s2. split; [exact E | exact C].
Defined.

(** C9, the claim as worded fails: the placeholder is not locally
    unique. Two signed mints of one test for two receivers, submitted as
    two transactions, get the same token id when the return values do
    not decode and the clock reads the same millisecond. *)
Lemma fallback_ids_collide :
  let first :=
    BadgeNFTService.mintBadgeNFT "GDDX" "T1" "https://p.supabase.co/m1.json"
      (Some "GSIGNER") same_millisecond_env empty_state in
  let second :=
    BadgeNFTService.mintBadgeNFT "GAAA" "T1" "https://p.supabase.co/m2.json"
      (Some "GSIGNER") same_millisecond_env (snd first) in
  fst first
  = Returned (mkNFTMintResult true "tx2" (NStr "nft_T1_1732551234567")
                "https://p.supabase.co/m1.json")
  /\ fst second
     = Returned (mkNFTMintResult true "tx7" (NStr "nft_T1_1732551234567")
                   "https://p.supabase.co/m2.json")
  /\ console (snd second)
     = [(Warn, fallback_warning); (Warn, fallback_warning)].
Proof. cbv zeta. repeat apply conj; vm_compute; reflexivity. Qed.

(** Without a return value, or without result metadata, the generated
    token id is returned as well, and nothing is logged. *)
Lemma extract_token_id_default (generated : string)
    (txResult : GetTransactionResponse) (env : Env) (s : State) :
  tx_returnValue txResult = None \/ tx_resultMetaXdr txResult = false ->
  BadgeNFTService.extract_token_id generated txResult env s
  = (Returned (NStr generated), s).
Proof.
  unfold BadgeNFTService.extract_token_id, try_catch.
  intros [H|H]; rewrite H.
  - destruct (String.eqb (tx_status txResult) "SUCCESS" && tx_resultMetaXdr txResult);
      reflexivity.
  - rewrite andb_false_r. reflexivity.
Qed.

(** *** Read-only queries *)

(** A [try] block whose handler returns a default never throws: the
    result is the block's own, or the default. *)
Lemma try_catch_default {A} (body : M A) (note : string) (dflt : A)
    (env : Env) (s : State) :
  try_catch body (fun _ => console_error note ;;; ret dflt) env s
  = match body env s with
    | (Returned v, s1) => (Returned v, s1)
    | (Thrown _, s1) =>
        (Returned dflt, set_console ((Error, note) :: console s1) s1)
    end.
Proof.
  unfold try_catch. destruct (body env s) as [[v|e] s1]; reflexivity.
Qed.

Lemma sdk_run (step : SdkStep) (arguments : list string) (env : Env)
    (s : State) :
  sdk step arguments env s
  = match sdk_fault env step arguments with
    | Some e => (Thrown e, s)
    | None => (Returned tt, s)
    end.
Proof. reflexivity. Qed.

Lemma to_scvals_state (arguments : list string) (env : Env) (s : State) :
  snd (Ledger.to_scvals arguments env s) = s.
Proof.
  induction arguments as [|a rest IH]; cbn; [reflexivity|].
  unfold bind. rewrite sdk_run.
  destruct (sdk_fault env NativeToScVal [a]); [reflexivity|]. exact IH.
Qed.

Lemma build_call_state (account : Account) (contract method : string)
    (arguments : list string) (env : Env) (s : State) :
  snd (Ledger.build_call account contract method arguments env s) = s.
Proof.
  unfold Ledger.build_call, bind. rewrite sdk_run.
  destruct (sdk_fault env NewTransactionBuilder _); [reflexivity|].
  pose proof (to_scvals_state arguments env s) as T.
  destruct (Ledger.to_scvals arguments env s) as [[[]|e] s1]; cbn in T; subst s1;
    [|reflexivity].
  rewrite sdk_run. destruct (sdk_fault env ContractCall _); [reflexivity|].
  rewrite sdk_run. destruct (sdk_fault env BuildTransaction _); reflexivity.
Qed.

Lemma build_call_source (account : Account) (contract method : string)
    (arguments : list string) (env : Env) (s : State) :
  match fst (Ledger.build_call account contract method arguments env s) with
  | Returned tx =>
      tx = mkTransaction (accountId account) contract method arguments None
  | Thrown _ => True
  end.
Proof.
  unfold Ledger.build_call, bind. rewrite sdk_run.
  destruct (sdk_fault env NewTransactionBuilder _); [exact I|].
  destruct (Ledger.to_scvals arguments env s) as [[[]|e] s1]; [|exact I].
  rewrite sdk_run. destruct (sdk_fault env ContractCall _); [exact I|].
  rewrite sdk_run. destruct (sdk_fault env BuildTransaction _); [exact I|].
  reflexivity.
Qed.

Lemma dummy_account_log (env : Env) (s : State) :
  match Ledger.dummy_account env s with
  | (Returned _, s') => rpc_log s' = GetAccount (keygen env (keys s)) :: rpc_log s
  | (Thrown _, s') => rpc_log s' = rpc_log s
  end.
Proof.
  unfold Ledger.dummy_account, Keypair_random, catch_with, try_catch,
    server_getAccount, rpc, bind, ret.
  rewrite sdk_run. destruct (sdk_fault env KeypairRandom []); [reflexivity|].
  cbn. destruct (rpc_getAccount env (length (rpc_log s))); reflexivity.
Qed.

(** A read-only call that returns has made two requests, for the account
    and for the simulation, and returns the reply to the second. *)
Lemma read_only_call_run (contractArgument : list string)
    (contract method : string) (arguments : list string) (env : Env)
    (s : State) :
  match Ledger.read_only_call contractArgument contract method arguments env s
  with
  | (Returned r, s') =>
      rpc_simulate env (S (length (rpc_log s))) = Returned r
      /\ exists source,
           rpc_log s'
           = SimulateTransaction
               (mkTransaction source contract method arguments None)
             :: GetAccount (keygen env (keys s)) :: rpc_log s
  | (Thrown _, _) => True
  end.
Proof.
  unfold Ledger.read_only_call, bind at 1. rewrite sdk_run.
  destruct (sdk_fault env NewContract contractArgument); [exact I|].
  unfold bind at 1.
  pose proof (dummy_account_log env s) as D.
  destruct (Ledger.dummy_account env s) as [[account|e] s1]; [|exact I].
  unfold bind.
  pose proof (build_call_state account contract method arguments env s1) as B.
  pose proof (build_call_source account contract method arguments env s1) as T.
  destruct (Ledger.build_call account contract method arguments env s1)
    as [[tx|e] s2]; cbn in B; subst s2; [|exact I].
  unfold server_simulateTransaction, rpc. rewrite D. cbn.
  destruct (rpc_simulate env (S (length (rpc_log s)))) as [r|e]; [|exact I].
  split; [reflexivity|]. exists (accountId account). now rewrite T.
Qed.

Lemma getTestFromChain_unusable (testId : string) (env : Env) (s : State) :
  simulation_unusable env s ->
  match RegistryService.getTestFromChain_try testId env s with
  | (Returned v, _) => v = None
  | (Thrown _, _) => True
  end.
Proof.
  unfold simulation_unusable, RegistryService.getTestFromChain_try.
  intros U. unfold bind at 1, ask. unfold bind.
  pose proof (read_only_call_run [TEST_REGISTRY_CONTRACT env]
                (TEST_REGISTRY_CONTRACT env) "get_test" [testId] env s) as R.
  destruct (Ledger.read_only_call _ _ _ _ env s) as [[r|e] s1]; [|exact I].
  destruct R as [R _]. rewrite R in U.
  destruct (sim_error r); [reflexivity|].
  destruct U as [U|U]; [congruence|]. rewrite U. reflexivity.
Qed.

Lemma listTestsFromChain_unusable (env : Env) (s : State) :
  simulation_unusable env s ->
  match RegistryService.listTestsFromChain_try env s with
  | (Returned v, _) => v = []
  | (Thrown _, _) => True
  end.
Proof.
  unfold simulation_unusable, RegistryService.listTestsFromChain_try.
  intros U. unfold bind at 1, ask. unfold bind.
  pose proof (read_only_call_run [TEST_REGISTRY_CONTRACT env]
                (TEST_REGISTRY_CONTRACT env) "list_tests" [] env s) as R.
  destruct (Ledger.read_only_call _ _ _ _ env s) as [[r|e] s1]; [|exact I].
  destruct R as [R _]. rewrite R in U.
  destruct (sim_error r); [reflexivity|].
  destruct U as [U|U]; [congruence|]. rewrite U. reflexivity.
Qed.

Lemma getNFTMetadata_unusable (tokenId : string) (env : Env) (s : State) :
  simulation_unusable env s ->
  match BadgeNFTService.getNFTMetadata_try tokenId env s with
  | (Returned v, _) => v = None
  | (Thrown _, _) => True
  end.
Proof.
  unfold simulation_unusable, BadgeNFTService.getNFTMetadata_try.
  intros U. unfold bind at 1, ask. unfold bind.
  pose proof (read_only_call_run (BadgeNFTService.contract_argument env)
                (BadgeNFTService.contract_id env) "get_token_uri" [tokenId]
                env s) as R.
  destruct (Ledger.read_only_call _ _ _ _ env s) as [[r|e] s1]; [|exact I].
  destruct R as [R _]. rewrite R in U.
  destruct (sim_error r); [reflexivity|].
  destruct U as [U|U]; [congruence|]. rewrite U. reflexivity.
Qed.

(** C10. The three read-only queries never throw. [getTestFromChain]
    and [getNFTMetadata] return [null], and [listTestsFromChain] the
    empty list, whenever anything in their [try] block throws and
    whenever the simulation fails, reports an error or has no result;
    otherwise they return what the block returns. *)
Theorem readonly_queries_total (env : Env) (s : State) (testId tokenId : string) :
  (exists v s',
     RegistryService.getTestFromChain testId env s = (Returned v, s')
     /\ match RegistryService.getTestFromChain_try testId env s with
        | (Returned v1, s1) => v = v1 /\ s' = s1
        | (Thrown _, _) => v = None
        end
     /\ (simulation_unusable env s -> v = None))
  /\ (exists v s',
        BadgeNFTService.getNFTMetadata tokenId env s = (Returned v, s')
        /\ match BadgeNFTService.getNFTMetadata_try tokenId env s with
           | (Returned v1, s1) => v = v1 /\ s' = s1
           | (Thrown _, _) => v = None
           end
        /\ (simulation_unusable env s -> v = None))
  /\ (exists v s',
        RegistryService.listTestsFromChain env s = (Returned v, s')
        /\ match RegistryService.listTestsFromChain_try env s with
           | (Returned v1, s1) => v = v1 /\ s' = s1
           | (Thrown _, _) => v = []
           end
        /\ (simulation_unusable env s -> v = [])).
Proof.
  repeat apply conj.
  - unfold RegistryService.getTestFromChain. rewrite try_catch_default.
    pose proof (getTestFromChain_unusable testId env s) as U.
    destruct (RegistryService.getTestFromChain_try testId env s) as [[v|e] s1];
      eexists _, _; (split; [reflexivity|]); auto.
  - unfold BadgeNFTService.getNFTMetadata. rewrite try_catch_default.
    pose proof (getNFTMetadata_unusable tokenId env s) as U.
    destruct (BadgeNFTService.getNFTMetadata_try tokenId env s) as [[v|e] s1];
      eexists _, _; (split; [reflexivity|]); auto.
  - unfold RegistryService.listTestsFromChain. rewrite try_catch_default.
    pose proof (listTestsFromChain_unusable env s) as U.
    destruct (RegistryService.listTestsFromChain_try env s) as [[v|e] s1];
      eexists _, _; (split; [reflexivity|]); auto.
Qed.

Example getTestFromChain_found :
  fst (RegistryService.getTestFromChain "T1"
         (env_simulating
            (Returned (mkSimulateResponse None (Some (ScvDecodable chain_test)))))
         empty_state)
  = Returned (Some (RegistryService.mkChainTest (NStr "T1") (NStr "GDDX")
                      (NStr "T1.json") (NNum 1732551234567%float))).
Proof. vm_compute. reflexivity. Qed.

Example listTestsFromChain_null_item :
  RegistryService.listTestsFromChain
    (env_simulating
       (Returned (mkSimulateResponse None
                    (Some (ScvDecodable (NArr [chain_test; NNull]))))))
    empty_state
  = (Returned [],
     mkState 0 0 1
       [SimulateTransaction (mkTransaction "GDUMMY" "CC6TAXNQ" "list_tests" [] None);
        GetAccount "GDUMMY"]
       0 ∅ 0 [] [] ∅ 0 [(Error, "Error listing tests from chain:")]).
Proof. vm_compute. reflexivity. Qed.

Example getNFTMetadata_rejected :
  fst (BadgeNFTService.getNFTMetadata "nft_T1_1"
         (env_simulating (Thrown "socket hang up")) empty_state)
  = Returned None.
Proof. vm_compute. reflexivity. Qed.

(** *** Object store uploads *)






Example profile_upload_conflict :
  fst (ProfileTab.handleUploadBadge "u-7" "Python Expert" (Some "<svg/>")
         sample_env occupied_state)
  = Returned (ProfileTab.ShowError "The resource already exists").
Proof. vm_compute. reflexivity. Qed.

Example profile_upload_fresh :
  let r := ProfileTab.handleUploadBadge "u-8" "  Python Expert " (Some "<svg/>")
             sample_env occupied_state in
  fst r = Returned (ProfileTab.ShowSuccess "Badge created successfully! 🎉")
  /\ custom_badges (snd r)
     = [mkCustomBadge "u-8" "Python Expert"
          "https://p.supabase.co/storage/v1/object/public/stellar/badges/u-8_1732551234567.svg"].
Proof. split; vm_compute; reflexivity. Qed.

(* ===================================================================== *)
(** ** Further properties                                                  *)
(* ===================================================================== *)

(** *** The signed path of the ledger clients *)

Lemma sleep_run (ms : N) (env : Env) (s : State) :
  sleep ms env s = (Returned tt, set_slept (slept s + ms)%N s).
Proof. reflexivity. Qed.

(** The requests of the wait for confirmation: at most 30, all for the
    same hash, and none unless the first status is "PENDING". *)
Lemma confirm_log (hash status : string) (env : Env) (s : State) :
  exists k,
    k <= 30
    /\ rpc_log (snd (Ledger.confirm hash status env s))
       = (repeat (GetTransaction hash) k ++ rpc_log s)%list
    /\ (0 < k -> status = "PENDING").
Proof.
  rewrite confirm_run.
  destruct (poll_run Ledger.maxAttempts hash status 0 env s)
    as (k & Hk & _ & Hl & _ & Hpos & _).
  exists k. split; [exact Hk|]. split; [|exact Hpos].
  destruct (fst (Ledger.poll Ledger.maxAttempts hash status 0 env s))
    as [[st n]|e]; [destruct (String.eqb st "SUCCESS")|]; exact Hl.
Qed.

(** The requests of the simulate-sign-submit-confirm sequence. *)
Lemma submit_and_confirm_requests (signer : string) (tx : Transaction)
    (env : Env) (s s' : State) (outcome : Outcome string) :
  Ledger.submit_and_confirm signer tx env s = (outcome, s') ->
  exists sent polls,
    rpc_log s' = (polls ++ sent ++ SimulateTransaction tx :: rpc_log s)%list
    /\ (sent = []
        \/ exists reply,
             rpc_simulate env (length (rpc_log s)) = Returned reply
             /\ sim_error reply = None
             /\ sent = [SendTransaction (signed_by signer tx)])
    /\ (polls = []
        \/ exists reply k,
             sent <> [] /\ k <= 30
             /\ rpc_send env (S (length (rpc_log s))) = Returned reply
             /\ send_status reply = "PENDING"
             /\ polls = repeat (GetTransaction (send_hash reply)) k)
    /\ (forall hash, outcome = Returned hash ->
        exists reply,
          sent <> []
          /\ rpc_send env (S (length (rpc_log s))) = Returned reply
          /\ send_hash reply = hash).
Proof.
  unfold Ledger.submit_and_confirm, bind at 1, server_simulateTransaction, rpc.
  destruct (rpc_simulate env (length (rpc_log s))) as [sim|e] eqn:Esim.
  2:{ intros [= <- <-]. exists [], []. cbn.
      repeat apply conj; auto; intros; discriminate. }
  destruct (sim_error sim) as [err|] eqn:Eerr.
  { intros [= <- <-]. exists [], []. cbn.
    repeat apply conj; auto; intros; discriminate. }
  unfold bind at 1. rewrite sdk_run.
  destruct (sdk_fault env AssembleTransaction []).
  { intros [= <- <-]. exists [], []. cbn.
    repeat apply conj; auto; intros; discriminate. }
  unfold bind at 1. rewrite sdk_run.
  destruct (sdk_fault env SignTransaction [signer]).
  { intros [= <- <-]. exists [], []. cbn.
    repeat apply conj; auto; intros; discriminate. }
  unfold bind at 1, server_sendTransaction, rpc. cbn [rpc_log set_rpc_log length].
  destruct (rpc_send env (S (length (rpc_log s)))) as [resp|e] eqn:Esend.
  2:{ intros [= <- <-]. exists [SendTransaction (signed_by signer tx)], []. cbn.
      repeat apply conj; eauto; intros; discriminate. }
  destruct (String.eqb (send_status resp) "ERROR").
  { intros [= <- <-]. exists [SendTransaction (signed_by signer tx)], []. cbn.
    repeat apply conj; eauto; intros; discriminate. }
  match goal with
  | |- context [Ledger.confirm ?h ?st env ?s1] =>
      destruct (confirm_log h st env s1) as (k & Hk & Hl & Hpos);
      pose proof (confirm_run h st env s1) as Hrun
  end.
  cbv zeta in Hrun. intros E. rewrite E in Hl, Hrun. cbn [snd] in Hl.
  exists [SendTransaction (signed_by signer tx)],
    (repeat (GetTransaction (send_hash resp)) k).
  split; [exact Hl|]. split; [eauto|]. split.
  - destruct k as [|k]; [now left|]. right. exists resp, (S k).
    repeat apply conj; auto; try discriminate. apply Hpos. lia.
  - intros hash ->. exists resp. split; [discriminate|]. split; [reflexivity|].
    destruct (fst (Ledger.poll _ _ _ _ _ _)) as [[st n]|e]; [|discriminate].
    destruct (String.eqb st "SUCCESS"); [|discriminate].
    now injection Hrun.
Qed.

(** The requests of a signed operation up to the confirmation: the
    account of the signer, then the sequence above on the call built for
    that account. *)
Lemma signed_call_requests (contractArgument : list string)
    (contract method signer : string) (arguments : list string) (env : Env)
    (s s' : State) (outcome : Outcome string) :
  (sdk NewContract contractArgument ;;;
   sourceAccount <- server_getAccount signer ;;
   transaction <- Ledger.build_call sourceAccount contract method arguments ;;
   Ledger.submit_and_confirm signer transaction) env s = (outcome, s') ->
  exists account simulated sent polls,
    rpc_log s' = (polls ++ sent ++ simulated ++ account ++ rpc_log s)%list
    /\ signing_stages env s signer contract method arguments account simulated
         sent polls
    /\ (forall hash, outcome = Returned hash ->
        exists reply,
          sent <> []
          /\ rpc_send env (2 + length (rpc_log s)) = Returned reply
          /\ send_hash reply = hash).
Proof.
  unfold signing_stages. unfold bind at 1. rewrite sdk_run.
  destruct (sdk_fault env NewContract contractArgument).
  { intros [= <- <-]. exists [], [], [], []. cbn.
    repeat apply conj; auto; intros; discriminate. }
  unfold bind at 1, server_getAccount, rpc.
  destruct (rpc_getAccount env (length (rpc_log s))) as [source|e] eqn:Eacc.
  2:{ intros [= <- <-]. exists [GetAccount signer], [], [], []. cbn.
      repeat apply conj; auto; intros; discriminate. }
  unfold bind at 1.
  match goal with
  | |- context [Ledger.build_call source contract method arguments env ?s1] =>
      pose proof (build_call_state source contract method arguments env s1) as B;
      pose proof (build_call_source source contract method arguments env s1) as T;
      destruct (Ledger.build_call source contract method arguments env s1)
        as [[tx|e] s2]; cbn in B, T; subst s2
  end.
  2:{ intros [= <- <-]. exists [GetAccount signer], [], [], []. cbn.
      repeat apply conj; auto; intros; discriminate. }
  subst tx. intros Esub.
  destruct (submit_and_confirm_requests _ _ _ _ _ _ Esub)
    as (sent & polls & Hl & Hsent & Hpolls & Hhash).
  cbn [rpc_log set_rpc_log length] in Hl, Hsent, Hpolls, Hhash.
  exists [GetAccount signer],
    [SimulateTransaction
       (mkTransaction (accountId source) contract method arguments None)],
    sent, polls.
  split; [rewrite Hl; reflexivity|].
  split; [|exact Hhash].
  split; [auto|].
  split; [right; exists source; repeat apply conj; auto; discriminate|].
  split.
  - destruct Hsent as [->|(reply & Es & Ee & ->)]; [now left|].
    right. exists source, reply. repeat apply conj; auto; discriminate.
  - destruct Hpolls as [->|(reply & k & Hs & Hk & Er & Ep & ->)]; [now left|].
    right. exists reply, k. repeat apply conj; auto.
Qed.

Lemma extract_token_id_log (generated : string)
    (txResult : GetTransactionResponse) (env : Env) (s : State) :
  rpc_log (snd (BadgeNFTService.extract_token_id generated txResult env s))
  = rpc_log s.
Proof.
  unfold BadgeNFTService.extract_token_id, try_catch.
  destruct (_ && _); [|reflexivity].
  destruct (tx_returnValue txResult) as [[n|why]|]; reflexivity.
Qed.

(** The signed mint, from the confirmed submission on. *)
Lemma mintBadgeNFT_signed_run (receiver testId metadataUri signer : string)
    (env : Env) (s : State) :
  BadgeNFTService.mintBadgeNFT receiver testId metadataUri (Some signer) env s
  = match BadgeNFTService.submit_mint receiver metadataUri signer env s with
    | (Returned hash, s1) =>
        let s2 := set_rpc_log (GetTransaction hash :: rpc_log s1) s1 in
        match rpc_getTransaction env (length (rpc_log s1)) with
        | Returned txResult =>
            match BadgeNFTService.extract_token_id
                    (generated_token testId (clock env (ticks s2))) txResult env
                    (set_ticks (S (ticks s2)) s2) with
            | (Returned token, s3) =>
                (Returned (mkNFTMintResult true hash token metadataUri), s3)
            | (Thrown e, s3) =>
                (Thrown ("NFT minting failed: " +:+ e),
                 with_error "Error minting badge NFT:" s3)
            end
        | Thrown e =>
            (Thrown ("NFT minting failed: " +:+ e),
             with_error "Error minting badge NFT:" s2)
        end
    | (Thrown e, s1) =>
        (Thrown ("NFT minting failed: " +:+ e),
         with_error "Error minting badge NFT:" s1)
    end.
Proof.
  unfold BadgeNFTService.mintBadgeNFT, try_catch, bind at 1, ask.
  unfold bind at 1.
  destruct (BadgeNFTService.submit_mint receiver metadataUri signer env s)
    as [[hash|e] s1]; [|reflexivity].
  unfold bind at 1, server_getTransaction, rpc.
  destruct (rpc_getTransaction env (length (rpc_log s1))) as [txResult|e];
    [|reflexivity].
  unfold bind at 1, Date_now. unfold bind at 1. cbv zeta.
  match goal with
  | |- context [BadgeNFTService.extract_token_id ?g txResult env ?s2] =>
      destruct (BadgeNFTService.extract_token_id g txResult env s2)
        as [[token|e] s3] eqn:E
  end; unfold generated_token; cbn in E |- *; rewrite E; reflexivity.
Qed.

(** X1. The requests of the two signed operations follow one protocol,
    whatever the server and the SDK do. The account of the signer is
    asked for first. The call, built for that account and unsigned, is
    simulated only if the account was returned. It is sent, signed by
    the signer and at most once, only after a simulation that returned
    without an error. The polls, at most 30, all ask for the hash the
    server returned for the submission, and there are none unless it
    answered "PENDING". The mint, and only the mint, may ask once more
    for the transaction of that hash, and a mint that returns has done
    so last, for the hash it returns. Nothing else is sent. *)
Theorem submission_protocol (receiver testId metadataUri creator metadataCid
    signer : string) (env : Env) (s : State) :
  let m := BadgeNFTService.mintBadgeNFT receiver testId metadataUri (Some signer)
             env s in
  let r := RegistryService.registerTestOnChain testId creator metadataCid
             (Some signer) env s in
  signed_requests env s signer (BadgeNFTService.contract_id env) "mint"
    [receiver; metadataUri] true (rpc_log (snd m))
  /\ (forall minted, fst m = Returned minted ->
      exists earlier, rpc_log (snd m) = GetTransaction (txHash minted) :: earlier)
  /\ signed_requests env s signer (TEST_REGISTRY_CONTRACT env) "register_test"
       [testId; creator; metadataCid] false (rpc_log (snd r)).
Proof.
  cbv zeta. repeat apply conj.
  - rewrite mintBadgeNFT_signed_run.
    destruct (BadgeNFTService.submit_mint receiver metadataUri signer env s)
      as [outcome s1] eqn:Ecall.
    destruct (signed_call_requests _ _ _ _ _ _ _ _ _ Ecall)
      as (account & simulated & sent & polls & Hl & Hstages & Hhash).
    unfold signed_requests. exists account, simulated, sent, polls.
    destruct outcome as [hash|e].
    2:{ exists []. cbn. auto. }
    destruct (Hhash hash eq_refl) as (reply & Hs & Er & <-).
    exists [GetTransaction (send_hash reply)].
    split; [|split; [exact Hstages | right; exists reply; auto]].
    cbv zeta.
    destruct (rpc_getTransaction env (length (rpc_log s1))) as [txResult|e];
      [|cbn; now rewrite Hl].
    match goal with
    | |- context [BadgeNFTService.extract_token_id ?g txResult env ?s2] =>
        pose proof (extract_token_id_log g txResult env s2) as L;
        destruct (BadgeNFTService.extract_token_id g txResult env s2)
          as [[token|e] s3]; cbn in L |- *; rewrite L, Hl; reflexivity
    end.
  - intros minted. rewrite mintBadgeNFT_signed_run.
    destruct (BadgeNFTService.submit_mint receiver metadataUri signer env s)
      as [[hash|e] s1]; [|discriminate].
    cbv zeta.
    destruct (rpc_getTransaction env (length (rpc_log s1))) as [txResult|e];
      [|discriminate].
    match goal with
    | |- context [BadgeNFTService.extract_token_id ?g txResult env ?s2] =>
        pose proof (extract_token_id_log g txResult env s2) as L;
        destruct (BadgeNFTService.extract_token_id g txResult env s2)
          as [[token|e] s3]; cbn in L |- *; [|discriminate]
    end.
    intros [= <-]. cbn. rewrite L. eauto.
  - destruct ((sdk NewContract [TEST_REGISTRY_CONTRACT env] ;;;
               sourceAccount <- server_getAccount signer ;;
               transaction <- Ledger.build_call sourceAccount
                                (TEST_REGISTRY_CONTRACT env) "register_test"
                                [testId; creator; metadataCid] ;;
               Ledger.submit_and_confirm signer transaction) env s)
      as [outcome s1] eqn:Ecall.
    destruct (signed_call_requests _ _ _ _ _ _ _ _ _ Ecall)
      as (account & simulated & sent & polls & Hl & Hstages & _).
    unfold signed_requests. exists account, simulated, sent, polls, [].
    split; [|split; [exact Hstages | now left]].
    rewrite <- Hl. clear Hl Hstages. revert Ecall.
    unfold RegistryService.registerTestOnChain, try_catch, bind at 1, ask.
    unfold bind. rewrite sdk_run.
    destruct (sdk_fault env NewContract [TEST_REGISTRY_CONTRACT env]);
      [now intros [= <- <-]|].
    unfold server_getAccount, rpc.
    destruct (rpc_getAccount env (length (rpc_log s)));
      [|now intros [= <- <-]].
    destruct (Ledger.build_call _ _ _ _ env _) as [[tx|e] s2];
      [|now intros [= <- <-]].
    destruct (Ledger.submit_and_confirm signer tx env s2) as [[hash|e] s3];
      now intros [= <- <-].
Qed.

(** X2. A signed submission returns a hash only if the server said so:
    the hash is the one the server returned when the transaction was
    sent, and the server reported the status "SUCCESS", either then or
    in reply to one of the at most 30 polls that followed. *)
Theorem confirmed_by_the_server (signer hash : string) (tx : Transaction)
    (env : Env) (s s' : State) :
  Ledger.submit_and_confirm signer tx env s = (Returned hash, s') ->
  exists resp,
    rpc_send env (S (length (rpc_log s))) = Returned resp
    /\ send_hash resp = hash
    /\ (send_status resp = "SUCCESS"
        \/ exists j polled,
             send_status resp = "PENDING"
             /\ j < 30
             /\ rpc_getTransaction env (2 + length (rpc_log s) + j)
                = Returned polled
             /\ tx_status polled = "SUCCESS").
Proof.
  unfold Ledger.submit_and_confirm, bind at 1, server_simulateTransaction, rpc.
  destruct (rpc_simulate env (length (rpc_log s))) as [sim|e]; [|discriminate].
  destruct (sim_error sim); [discriminate|].
  unfold bind at 1. rewrite sdk_run.
  destruct (sdk_fault env AssembleTransaction []); [discriminate|].
  unfold bind at 1. rewrite sdk_run.
  destruct (sdk_fault env SignTransaction [signer]); [discriminate|].
  unfold bind at 1, server_sendTransaction, rpc. cbn [rpc_log set_rpc_log length].
  destruct (rpc_send env (S (length (rpc_log s)))) as [resp|e]; [|discriminate].
  destruct (String.eqb (send_status resp) "ERROR"); [discriminate|].
  rewrite confirm_run.
  match goal with
  | |- context [Ledger.poll ?n ?h ?st 0 env ?s1] =>
      destruct (poll_run n h st 0 env s1)
        as (k & Hk & _ & _ & _ & Hpos & Hres);
      destruct (fst (Ledger.poll n h st 0 env s1)) as [[final n']|e];
      [|discriminate]
  end.
  destruct (String.eqb_spec final "SUCCESS") as [->|Hne]; [|discriminate].
  intros [= <- _]. exists resp. split; [reflexivity|]. split; [reflexivity|].
  destruct Hres as (_ & _ & Hzero & Hlast).
  destruct k as [|k].
  - left. symmetry. now apply Hzero.
  - right. destruct Hlast as (polled & Eg & Est); [lia|].
    exists k, polled. split; [apply Hpos; lia|].
    split; [unfold Ledger.maxAttempts in Hk; lia|].
    split; [|exact Est]. rewrite <- Eg. f_equal. cbn. lia.
Qed.

(** The statement above on the sample world, whose server confirms at
    the first poll. *)
Lemma confirmed_by_the_server_witness :
  exists resp,
    rpc_send sample_env 1 = Returned resp /\ send_hash resp = "a1b2c3".
Proof.
  destruct (confirmed_by_the_server "GSIGNER" "a1b2c3"
              (mkTransaction "GSIGNER" "CAKY3FB7" "mint" ["GDDX"; "u"] None)
              sample_env empty_state
              (snd (Ledger.submit_and_confirm "GSIGNER"
                      (mkTransaction "GSIGNER" "CAKY3FB7" "mint" ["GDDX"; "u"] None)
                      sample_env empty_state)))
    as (resp & E & H & _); [vm_compute; reflexivity|].
  exists resp. split; [exact E | exact H].
Defined.

(** X3. In signed mode, once the mint transaction has been submitted and
    confirmed, a return value that decodes is the token id of the
    result, whatever it decodes to, and no warning is logged. *)
Theorem decoded_token_is_returned (env : Env) (s s1 : State)
    (receiver testId metadataUri signer hash : string) (token : Native)
    (txResult : GetTransactionResponse) :
  BadgeNFTService.submit_mint receiver metadataUri signer env s
  = (Returned hash, s1) ->
  rpc_getTransaction env (length (rpc_log s1)) = Returned txResult ->
  tx_status txResult = "SUCCESS" ->
  tx_resultMetaXdr txResult = true ->
  tx_returnValue txResult = Some (ScvDecodable token) ->
  exists s2,
    BadgeNFTService.mintBadgeNFT receiver testId metadataUri (Some signer) env s
    = (Returned (mkNFTMintResult true hash token metadataUri), s2)
    /\ console s2 = console s1
    /\ rpc_log s2 = GetTransaction hash :: rpc_log s1.
Proof.
  intros Hsub Hget Hst Hmeta Hval.
  unfold BadgeNFTService.mintBadgeNFT, try_catch, bind at 1, ask.
  unfold bind at 1. rewrite Hsub.
  unfold bind at 1, server_getTransaction, rpc. rewrite Hget.
  unfold bind at 1, Date_now.
  unfold bind at 1, BadgeNFTService.extract_token_id.
  cbn [tx_status]. rewrite Hst, Hmeta, Hval. cbn.
  eexists. repeat split; reflexivity.
Qed.

(** The statement above on a server that returns the token id 7. *)
Lemma decoded_token_is_returned_witness :
  exists s2,
    BadgeNFTService.mintBadgeNFT "GDDX" "T1" "https://p.supabase.co/m.json"
      (Some "GSIGNER") decoding_env empty_state
    = (Returned (mkNFTMintResult true "a1b2c3" (NNum 7%float)
                   "https://p.supabase.co/m.json"), s2)
    /\ console s2 = [].
Proof.
  destruct (decoded_token_is_returned decoding_env empty_state
              (snd (BadgeNFTService.submit_mint "GDDX"
                      "https://p.supabase.co/m.json" "GSIGNER" decoding_env
                      empty_state))
              "GDDX" "T1" "https://p.supabase.co/m.json" "GSIGNER" "a1b2c3"
              (NNum 7%float)
              (mkGetTransactionResponse "SUCCESS" true
                 (Some (ScvDecodable (NNum 7%float)))))
    as (s2 & E & C & _); try (vm_compute; reflexivity).
  exists s2. split; [exact E | exact C].
Defined.

(** *** What the ledger clients leave alone *)

Lemma same_stores_refl (s : State) : same_stores s s.
Proof. repeat split. Qed.

Lemma same_stores_trans (s1 s2 s3 : State) :
  same_stores s1 s2 -> same_stores s2 s3 -> same_stores s1 s3.
Proof.
  unfold same_stores. intros (A & B & C & D & E & F) (A' & B' & C' & D' & E' & F').
  repeat split; congruence.
Qed.

Lemma keeps_ret {A} (a : A) : keeps_stores (ret a).
Proof. intros env s. apply same_stores_refl. Qed.

Lemma keeps_throw {A} (e : string) : keeps_stores (@throw A e).
Proof. intros env s. apply same_stores_refl. Qed.

Lemma keeps_ask : keeps_stores ask.
Proof. intros env s. apply same_stores_refl. Qed.

Lemma keeps_bind {A B} (m : M A) (k : A -> M B) :
  keeps_stores m -> (forall a, keeps_stores (k a)) -> keeps_stores (bind m k).
Proof.
  intros Hm Hk env s. unfold bind. specialize (Hm env s).
  destruct (m env s) as [[a|e] s1]; cbn in *; [|exact Hm].
  eapply same_stores_trans; [exact Hm | apply Hk].
Qed.

Lemma keeps_try_catch {A} (body : M A) (handler : string -> M A) :
  keeps_stores body -> (forall e, keeps_stores (handler e)) ->
  keeps_stores (try_catch body handler).
Proof.
  intros Hm Hk env s. unfold try_catch. specialize (Hm env s).
  destruct (body env s) as [[a|e] s1]; cbn in *; [exact Hm|].
  eapply same_stores_trans; [exact Hm | apply Hk].
Qed.

Lemma keeps_Date_now : keeps_stores Date_now.
Proof. intros env s. repeat split. Qed.

Lemma keeps_random_suffix : keeps_stores random_suffix.
Proof. intros env s. repeat split. Qed.

Lemma keeps_sleep (ms : N) : keeps_stores (sleep ms).
Proof. intros env s. repeat split. Qed.

Lemma keeps_console_warn (msg : string) : keeps_stores (console_warn msg).
Proof. intros env s. repeat split. Qed.

Lemma keeps_console_error (msg : string) : keeps_stores (console_error msg).
Proof. intros env s. repeat split. Qed.

Lemma keeps_sdk (step : SdkStep) (l : list string) : keeps_stores (sdk step l).
Proof.
  intros env s. rewrite sdk_run. destruct (sdk_fault env step l); repeat split.
Qed.

Lemma keeps_rpc {A} (call : RpcCall) (reply : Env -> nat -> Outcome A) :
  keeps_stores (rpc call reply).
Proof. intros env s. repeat split. Qed.

Lemma keeps_scValToNative (v : ScVal) : keeps_stores (scValToNative v).
Proof. destruct v; [apply keeps_ret | apply keeps_throw]. Qed.

Lemma keeps_Keypair_random : keeps_stores Keypair_random.
Proof.
  apply keeps_bind; [apply keeps_sdk|]. intros _ env s. repeat split.
Qed.

Ltac keeps_step :=
  first
    [ apply keeps_ret | apply keeps_throw | apply keeps_ask
    | apply keeps_Date_now | apply keeps_random_suffix | apply keeps_sleep
    | apply keeps_console_warn | apply keeps_console_error | apply keeps_sdk
    | apply keeps_rpc | apply keeps_scValToNative | apply keeps_Keypair_random
    | apply keeps_bind; [|intros ?] | apply keeps_try_catch; [|intros ?] ].

Lemma keeps_poll (remaining : nat) (hash status : string) (attempts : nat) :
  keeps_stores (Ledger.poll remaining hash status attempts).
Proof.
  revert status attempts.
  induction remaining as [|remaining IH]; intros status attempts; cbn;
    destruct (String.eqb status "PENDING"); try apply keeps_ret.
  apply keeps_bind; [apply keeps_sleep|]. intros _.
  apply keeps_bind; [apply keeps_rpc|]. intros resp. apply IH.
Qed.

Lemma keeps_confirm (hash status : string) :
  keeps_stores (Ledger.confirm hash status).
Proof.
  unfold Ledger.confirm. apply keeps_bind; [apply keeps_poll|].
  intros final. destruct (negb _); keeps_step.
Qed.

Lemma keeps_submit_and_confirm (signer : string) (tx : Transaction) :
  keeps_stores (Ledger.submit_and_confirm signer tx).
Proof.
  unfold Ledger.submit_and_confirm, server_simulateTransaction,
    server_sendTransaction.
  apply keeps_bind; [apply keeps_rpc|]. intros sim.
  destruct (sim_error sim); [apply keeps_throw|].
  repeat keeps_step.
  destruct (String.eqb _ _); [apply keeps_throw | apply keeps_confirm].
Qed.

Lemma keeps_to_scvals (arguments : list string) :
  keeps_stores (Ledger.to_scvals arguments).
Proof.
  induction arguments as [|a rest IH]; cbn; [apply keeps_ret|].
  apply keeps_bind; [apply keeps_sdk | intros _; exact IH].
Qed.

Lemma keeps_build_call (account : Account) (contract method : string)
    (arguments : list string) :
  keeps_stores (Ledger.build_call account contract method arguments).
Proof.
  unfold Ledger.build_call.
  apply keeps_bind; [apply keeps_sdk|]. intros _.
  apply keeps_bind; [apply keeps_to_scvals|]. intros _.
  repeat keeps_step.
Qed.

Lemma keeps_extract_token_id (generated : string)
    (txResult : GetTransactionResponse) :
  keeps_stores (BadgeNFTService.extract_token_id generated txResult).
Proof.
  unfold BadgeNFTService.extract_token_id.
  destruct (_ && _); [|apply keeps_ret].
  apply keeps_try_catch; [|intros e; repeat keeps_step].
  destruct (tx_returnValue txResult); keeps_step.
Qed.

(** X4. The ledger clients never touch the object store or the record
    store: in simulation mode and in signed mode, whether they return or
    throw, the mint and the register operation leave the stored
    objects, the badges, the custom badges and the registry references
    as they are. *)
Theorem ledger_clients_keep_the_stores (receiver testId metadataUri creator
    metadataCid : string) (signerKeypair : option string) :
  keeps_stores
    (BadgeNFTService.mintBadgeNFT receiver testId metadataUri signerKeypair)
  /\ keeps_stores
       (RegistryService.registerTestOnChain testId creator metadataCid
          signerKeypair).
Proof.
  split.
  - unfold BadgeNFTService.mintBadgeNFT.
    apply keeps_try_catch; [|intros e; repeat keeps_step].
    apply keeps_bind; [apply keeps_ask|]. intros env.
    destruct signerKeypair as [signer|]; [|repeat keeps_step].
    apply keeps_bind.
    { unfold BadgeNFTService.submit_mint, server_getAccount.
      apply keeps_bind; [apply keeps_ask|]. intros env'.
      apply keeps_bind; [apply keeps_sdk|]. intros _.
      apply keeps_bind; [apply keeps_rpc|]. intros account.
      apply keeps_bind; [apply keeps_build_call|]. intros tx.
      apply keeps_submit_and_confirm. }
    intros hash. unfold server_getTransaction.
    apply keeps_bind; [apply keeps_rpc|]. intros txResult.
    apply keeps_bind; [apply keeps_Date_now|]. intros now.
    apply keeps_bind; [apply keeps_extract_token_id|]. intros token.
    apply keeps_ret.
  - unfold RegistryService.registerTestOnChain.
    apply keeps_try_catch; [|intros e; repeat keeps_step].
    apply keeps_bind; [apply keeps_ask|]. intros env.
    destruct signerKeypair as [signer|]; [|repeat keeps_step].
    unfold server_getAccount.
    apply keeps_bind; [apply keeps_sdk|]. intros _.
    apply keeps_bind; [apply keeps_rpc|]. intros account.
    apply keeps_bind; [apply keeps_build_call|]. intros tx.
    apply keeps_bind; [apply keeps_submit_and_confirm|]. intros hash.
    repeat keeps_step.
Qed.

(** *** What the read-only queries send *)

Lemma nothing_ret {A} (a : A) : changes_nothing (ret a).
Proof. intros env s. reflexivity. Qed.

Lemma nothing_throw {A} (e : string) : changes_nothing (@throw A e).
Proof. intros env s. reflexivity. Qed.

Lemma nothing_bind {A B} (m : M A) (k : A -> M B) :
  changes_nothing m -> (forall a, changes_nothing (k a)) ->
  changes_nothing (bind m k).
Proof.
  intros Hm Hk env s. unfold bind. specialize (Hm env s).
  destruct (m env s) as [[a|e] s1]; cbn in *; subst s1; [apply Hk | reflexivity].
Qed.

Lemma nothing_scValToNative (v : ScVal) : changes_nothing (scValToNative v).
Proof. destruct v; [apply nothing_ret | apply nothing_throw]. Qed.

Lemma nothing_member (v : Native) (key : string) :
  changes_nothing (RegistryService.member v key).
Proof. destruct v; first [apply nothing_ret | apply nothing_throw]. Qed.

Lemma nothing_to_test (item : Native) :
  changes_nothing (RegistryService.to_test item).
Proof.
  unfold RegistryService.to_test.
  repeat (apply nothing_bind; [apply nothing_member | intros ?]).
  apply nothing_ret.
Qed.

Lemma nothing_map_tests (items : list Native) :
  changes_nothing (RegistryService.map_tests items).
Proof.
  induction items as [|item rest IH]; cbn; [apply nothing_ret|].
  apply nothing_bind; [apply nothing_to_test | intros t].
  apply nothing_bind; [exact IH | intros ts; apply nothing_ret].
Qed.

Lemma keeps_read_only_call (contractArgument : list string)
    (contract method : string) (arguments : list string) :
  keeps_stores (Ledger.read_only_call contractArgument contract method arguments).
Proof.
  unfold Ledger.read_only_call, Ledger.dummy_account, catch_with,
    server_getAccount, server_simulateTransaction.
  apply keeps_bind; [apply keeps_sdk | intros _].
  apply keeps_bind.
  { apply keeps_bind; [apply keeps_Keypair_random | intros k].
    apply keeps_try_catch; [apply keeps_rpc | intros e; apply keeps_ret]. }
  intros account.
  apply keeps_bind; [apply keeps_build_call | intros tx]. apply keeps_rpc.
Qed.

Lemma dummy_account_state (env : Env) (s : State) :
  match Ledger.dummy_account env s with
  | (Returned _, s') =>
      rpc_log s' = GetAccount (keygen env (keys s)) :: rpc_log s
      /\ slept s' = slept s
  | (Thrown _, s') => s' = s
  end.
Proof.
  unfold Ledger.dummy_account, Keypair_random, catch_with, try_catch,
    server_getAccount, rpc, bind, ret.
  rewrite sdk_run. destruct (sdk_fault env KeypairRandom []); [reflexivity|].
  cbn. destruct (rpc_getAccount env (length (rpc_log s))); split; reflexivity.
Qed.

Lemma read_only_call_log (contractArgument : list string)
    (contract method : string) (arguments : list string) (env : Env)
    (s : State) :
  let s' :=
    snd (Ledger.read_only_call contractArgument contract method arguments env s)
  in
  slept s' = slept s
  /\ exists calls,
       rpc_log s' = (calls ++ rpc_log s)%list /\ read_only_calls calls.
Proof.
  intros s'.
  assert (E : s' = snd (Ledger.read_only_call contractArgument contract method
                          arguments env s)) by reflexivity.
  clearbody s'. revert E.
  unfold Ledger.read_only_call, bind at 1. rewrite sdk_run.
  destruct (sdk_fault env NewContract contractArgument).
  { cbn. intros ->. split; [reflexivity|]. exists [].
    split; [reflexivity | now left]. }
  unfold bind at 1.
  pose proof (dummy_account_state env s) as D.
  destruct (Ledger.dummy_account env s) as [[account|e] s1].
  2:{ subst s1. cbn. intros ->. split; [reflexivity|]. exists [].
      split; [reflexivity | now left]. }
  destruct D as [D1 D2]. unfold bind.
  pose proof (build_call_state account contract method arguments env s1) as B.
  pose proof (build_call_source account contract method arguments env s1) as T.
  destruct (Ledger.build_call account contract method arguments env s1)
    as [[tx|e] s2]; cbn in B; subst s2; cbn in T |- *; intros ->; cbn.
  - split; [exact D2|]. rewrite D1.
    exists [SimulateTransaction tx; GetAccount (keygen env (keys s))].
    split; [reflexivity|]. right; right.
    exists (keygen env (keys s)), tx. split; [reflexivity|]. now rewrite T.
  - split; [exact D2|]. rewrite D1. exists [GetAccount (keygen env (keys s))].
    split; [reflexivity|]. right; left. now exists (keygen env (keys s)).
Qed.

Lemma reads_only_query {A} (body : M A) (note : string) (dflt : A)
    (contractArgument : Env -> list string) (contract : Env -> string)
    (method : string) (arguments : list string) :
  (forall env s,
     snd (body env s)
     = snd (Ledger.read_only_call (contractArgument env) (contract env) method
              arguments env s)) ->
  reads_only (try_catch body (fun _ => console_error note ;;; ret dflt)).
Proof.
  intros Hbody env s. rewrite try_catch_default.
  pose proof (Hbody env s) as E.
  pose proof (keeps_read_only_call (contractArgument env) (contract env) method
                arguments env s) as K.
  pose proof (read_only_call_log (contractArgument env) (contract env) method
                arguments env s) as L.
  cbv zeta in L. rewrite <- E in K, L.
  destruct (body env s) as [[v|e] s1]; cbn in *; auto.
Qed.

(** X5. The three read-only queries only read: whatever the server
    answers and wherever they fail, they keep both stores, never wait,
    and send at most two requests, the one for the throw-away account and
    the simulation of an unsigned transaction; nothing is ever submitted
    or polled. *)
Theorem queries_only_read (testId tokenId : string) :
  reads_only (RegistryService.getTestFromChain testId)
  /\ reads_only RegistryService.listTestsFromChain
  /\ reads_only (BadgeNFTService.getNFTMetadata tokenId).
Proof.
  repeat apply conj.
  - apply (reads_only_query _ _ _ (fun env => [TEST_REGISTRY_CONTRACT env])
             TEST_REGISTRY_CONTRACT "get_test" [testId]).
    intros env s. unfold RegistryService.getTestFromChain_try.
    unfold bind at 1, ask. unfold bind at 1.
    destruct (Ledger.read_only_call _ _ _ _ env s) as [[r|e] s1]; [|reflexivity].
    destruct (sim_error r); [reflexivity|].
    destruct (sim_retval r) as [retval|]; [|reflexivity].
    cbn [snd]. apply (nothing_bind (scValToNative retval));
      [apply nothing_scValToNative|].
    intros result. destruct (RegistryService.truthy result);
      [|apply nothing_ret].
    apply nothing_bind; [apply nothing_to_test | intros t; apply nothing_ret].
  - apply (reads_only_query _ _ _ (fun env => [TEST_REGISTRY_CONTRACT env])
             TEST_REGISTRY_CONTRACT "list_tests" []).
    intros env s. unfold RegistryService.listTestsFromChain_try.
    unfold bind at 1, ask. unfold bind at 1.
    destruct (Ledger.read_only_call _ _ _ _ env s) as [[r|e] s1]; [|reflexivity].
    destruct (sim_error r); [reflexivity|].
    destruct (sim_retval r) as [retval|]; [|reflexivity].
    cbn [snd]. apply (nothing_bind (scValToNative retval));
      [apply nothing_scValToNative|].
    intros result. destruct result; try apply nothing_ret.
    apply nothing_map_tests.
  - apply (reads_only_query _ _ _ BadgeNFTService.contract_argument
             BadgeNFTService.contract_id "get_token_uri" [tokenId]).
    intros env s. unfold BadgeNFTService.getNFTMetadata_try.
    unfold bind at 1, ask. unfold bind at 1.
    destruct (Ledger.read_only_call _ _ _ _ env s) as [[r|e] s1]; [|reflexivity].
    destruct (sim_error r); [reflexivity|].
    destruct (sim_retval r) as [retval|]; [|reflexivity].
    cbn [snd]. apply (nothing_bind (scValToNative retval));
      [apply nothing_scValToNative|].
    intros result. apply nothing_ret.
Qed.

(** *** What the read-only queries return *)

Lemma to_test_run (item : Native) (env : Env) (s : State) :
  RegistryService.to_test item env s
  = if nullish item
    then (Thrown "Cannot read properties of undefined (reading 'test_id')", s)
    else (Returned (test_of item), s).
Proof. destruct item; reflexivity. Qed.

Lemma map_tests_run (items : list Native) (env : Env) (s : State) :
  RegistryService.map_tests items env s
  = if existsb nullish items
    then (Thrown "Cannot read properties of undefined (reading 'test_id')", s)
    else (Returned (map test_of items), s).
Proof.
  induction items as [|item rest IH]; [reflexivity|].
  cbn [RegistryService.map_tests existsb map]. unfold bind at 1.
  rewrite to_test_run. destruct (nullish item); [reflexivity|].
  unfold bind at 1. rewrite IH. cbn [orb].
  destruct (existsb nullish rest); reflexivity.
Qed.

Lemma truthy_not_nullish (v : Native) :
  RegistryService.truthy v = true -> nullish v = false.
Proof. destruct v; cbn; congruence. Qed.

(** X6. [listTestsFromChain] is all or nothing: when the simulation
    returns an array, one [null] or [undefined] entry makes the query log
    an error and return the empty list, dropping every other test;
    without such an entry it returns one test per entry, in order, and
    logs nothing. *)
Theorem listing_is_all_or_nothing (env : Env) (s s1 : State)
    (simulated : SimulateResponse) (items : list Native) :
  Ledger.read_only_call [TEST_REGISTRY_CONTRACT env]
    (TEST_REGISTRY_CONTRACT env) "list_tests" [] env s
  = (Returned simulated, s1) ->
  sim_error simulated = None ->
  sim_retval simulated = Some (ScvDecodable (NArr items)) ->
  RegistryService.listTestsFromChain env s
  = if existsb nullish items
    then (Returned [], with_error "Error listing tests from chain:" s1)
    else (Returned (map test_of items), s1).
Proof.
  intros Hcall Herr Hval.
  unfold RegistryService.listTestsFromChain. rewrite try_catch_default.
  unfold RegistryService.listTestsFromChain_try.
  unfold bind at 1, ask. unfold bind at 1. rewrite Hcall, Herr, Hval.
  unfold bind, scValToNative, ret. rewrite map_tests_run.
  destruct (existsb nullish items); reflexivity.
Qed.

(** The statement above on a list of two tests with a [null] between
    them. *)
Lemma listing_is_all_or_nothing_witness :
  fst (RegistryService.listTestsFromChain
         (env_simulating
            (Returned (mkSimulateResponse None
                         (Some (ScvDecodable
                                  (NArr [chain_test; NNull; chain_test]))))))
         empty_state)
  = Returned [].
Proof.
  rewrite (listing_is_all_or_nothing _ empty_state
             (snd (Ledger.read_only_call ["CC6TAXNQ"] "CC6TAXNQ" "list_tests" []
                     (env_simulating
                        (Returned (mkSimulateResponse None
                           (Some (ScvDecodable
                                    (NArr [chain_test; NNull; chain_test]))))))
                     empty_state))
             (mkSimulateResponse None
                (Some (ScvDecodable (NArr [chain_test; NNull; chain_test]))))
             [chain_test; NNull; chain_test]);
    reflexivity.
Defined.

(** X7. [getTestFromChain] tests the decoded result for truthiness only:
    a result that is truthy is returned as a test, with [undefined] for
    every member it does not have (a number or a string has none of the
    four); a falsy result yields [null]. Neither case logs anything. *)
Theorem truthy_result_is_a_test (env : Env) (s s1 : State) (testId : string)
    (simulated : SimulateResponse) (result : Native) :
  Ledger.read_only_call [TEST_REGISTRY_CONTRACT env]
    (TEST_REGISTRY_CONTRACT env) "get_test" [testId] env s
  = (Returned simulated, s1) ->
  sim_error simulated = None ->
  sim_retval simulated = Some (ScvDecodable result) ->
  RegistryService.getTestFromChain testId env s
  = (Returned (if RegistryService.truthy result then Some (test_of result)
               else None), s1).
Proof.
  intros Hcall Herr Hval.
  unfold RegistryService.getTestFromChain. rewrite try_catch_default.
  unfold RegistryService.getTestFromChain_try.
  unfold bind at 1, ask. unfold bind at 1. rewrite Hcall, Herr, Hval.
  unfold bind at 1, scValToNative, ret.
  destruct (RegistryService.truthy result) eqn:T; [|reflexivity].
  unfold bind. rewrite to_test_run, (truthy_not_nullish _ T). reflexivity.
Qed.

(** The statement above on a contract that answers with the number 5. *)
Lemma truthy_result_is_a_test_witness :
  fst (RegistryService.getTestFromChain "T1"
         (env_simulating
            (Returned (mkSimulateResponse None
                         (Some (ScvDecodable (NNum 5%float))))))
         empty_state)
  = Returned (Some (RegistryService.mkChainTest NUndefined NUndefined
                      NUndefined NUndefined)).
Proof.
  rewrite (truthy_result_is_a_test
              (env_simulating
                 (Returned (mkSimulateResponse None
                              (Some (ScvDecodable (NNum 5%float))))))
              empty_state
              (snd (Ledger.read_only_call ["CC6TAXNQ"] "CC6TAXNQ" "get_test"
                      ["T1"]
                      (env_simulating
                         (Returned (mkSimulateResponse None
                                      (Some (ScvDecodable (NNum 5%float))))))
                      empty_state))
              "T1"
              (mkSimulateResponse None (Some (ScvDecodable (NNum 5%float))))
              (NNum 5%float) eq_refl eq_refl eq_refl).
  reflexivity.
Defined.

(** *** The two operations of the controller *)

(** X8. The register-test operation over the simulated registry service
    answers 500 to a request without a body and to no other: a request
    with a body is answered 200 or 400. No request changes a store or
    sends anything to the ledger, and only the request without a body
    leaves an error on the console. *)
Theorem register_test_fails_without_body
    (body : option BlockchainController.RegisterBody) (env : Env) (s : State) :
  exists resp s',
    register_test_operation body env s = (Returned resp, s')
    /\ (BlockchainController.status resp = 500 <-> body = None)
    /\ (BlockchainController.status resp = 200
        \/ BlockchainController.status resp = 400
        \/ BlockchainController.status resp = 500)
    /\ same_stores s s'
    /\ rpc_log s' = rpc_log s
    /\ (body <> None -> console s' = console s).
Proof.
  destruct body as [req|].
  2:{ unfold register_test_operation. rewrite registerTest_no_body.
      eexists _, _. split; [reflexivity|]. cbn.
      repeat apply conj; auto; try reflexivity. congruence. }
  destruct (registerTest_cases RegistryServiceSim.registerTestOnChain req env s)
    as (resp & s' & E & Hrej & Hacc).
  exists resp, s'. split; [exact E|].
  destruct (classic_rejected_register req) as [R|R].
  - destruct (Hrej R) as [-> ->]. cbn.
    repeat apply conj; auto; try reflexivity; discriminate.
  - specialize (Hacc R). rewrite registerTestOnChain_sim_run in Hacc.
    destruct Hacc as [-> ->]. cbn.
    repeat apply conj; auto; try reflexivity; discriminate.
Qed.

Lemma mintBadgeNFT_sim_thrown (receiver testId : string)
    (title : option string) (score totalScore : option Js.Number)
    (env : Env) (s s1 : State) (e : string) :
  NftService.mintBadgeNFT receiver testId title score totalScore env s
  = (Thrown e, s1) ->
  exists cause rest,
    e = "NFT minting failed: " +:+ cause
    /\ console s1 = (Error, "Error minting badge NFT:") :: rest.
Proof.
  unfold NftService.mintBadgeNFT, try_catch.
  match goal with
  | |- context [match ?block env s with _ => _ end] =>
      destruct (block env s) as [[data|cause] s0]
  end; [discriminate|].
  cbn. intros [= <- <-]. eexists _, _. split; reflexivity.
Qed.

(** X9. The mint-nft operation answers 500 in two cases and no other: the
    request has no body, or its body is accepted and the NFT service
    throws. In the second case the service has logged the failure and
    rethrown it behind ["NFT minting failed: "]; the controller logs it
    once more and passes the message on as [details]. *)
Theorem mint_fails_with_the_service
    (body : option BlockchainController.MintBody) (env : Env) (s : State) :
  exists resp s',
    mint_nft_operation body env s = (Returned resp, s')
    /\ (BlockchainController.status resp = 500 <->
        body = None
        \/ exists req e,
             body = Some req /\ ~ mint_rejected req
             /\ fst (NftService.mintBadgeNFT
                       (BlockchainController.the
                          (BlockchainController.mb_receiver req))
                       (BlockchainController.the
                          (BlockchainController.mb_testId req))
                       (BlockchainController.mb_testTitle req)
                       (BlockchainController.mb_score req)
                       (BlockchainController.mb_totalScore req) env s)
                = Thrown e)
    /\ (body <> None -> BlockchainController.status resp = 500 ->
        exists cause rest,
          BlockchainController.body resp
          = BlockchainController.ErrorBody "Failed to mint NFT badge"
              (Some ("NFT minting failed: " +:+ cause))
          /\ console s'
             = (Error, "NFT minting error:")
               :: (Error, "Error minting badge NFT:") :: rest).
Proof.
  destruct body as [req|].
  2:{ unfold mint_nft_operation. rewrite mintNFT_no_body.
      eexists _, _. split; [reflexivity|]. cbn.
      split; [split; auto | congruence]. }
  destruct (mintNFT_cases NftService.mintBadgeNFT req env s)
    as (resp & s' & E & Hrej & Hacc).
  exists resp, s'. split; [exact E|].
  destruct (classic_rejected_mint req) as [R|R].
  - destruct (Hrej R) as [-> ->]. cbn. split; [|discriminate].
    split; [discriminate|].
    intros [N|(req' & e & [= <-] & N & _)]; [discriminate | contradiction].
  - specialize (Hacc R).
    destruct (NftService.mintBadgeNFT _ _ _ _ _ env s) as [[data|e] s1] eqn:M;
      destruct Hacc as [-> ->]; cbn.
    + split; [|discriminate]. split; [discriminate|].
      intros [N|(req' & e & [= <-] & _ & N)]; [discriminate|].
      rewrite M in N. discriminate.
    + split.
      * split; [intros _|reflexivity]. right. exists req, e.
        rewrite M. auto.
      * intros _ _.
        destruct (mintBadgeNFT_sim_thrown _ _ _ _ _ _ _ _ _ M)
          as (cause & rest & -> & ->).
        exists cause, rest. split; reflexivity.
Qed.

(** X10. With no signer, the registry service that talks to the ledger
    is the simulated one: the controller over either answers every
    request alike and leaves the same world. *)
Theorem revisions_agree_without_signer
    (req : option BlockchainController.RegisterBody) (env : Env) (s : State) :
  BlockchainController.registerTest
    (fun testId creator metadataCid =>
       RegistryService.registerTestOnChain testId creator metadataCid None)
    req env s
  = register_test_operation req env s.
Proof.
  unfold register_test_operation, BlockchainController.registerTest, try_catch.
  destruct req as [req|]; [|reflexivity].
  destruct (_ || _); [reflexivity|].
  unfold bind. rewrite registerTestOnChain_no_signer_run,
    registerTestOnChain_sim_run. reflexivity.
Qed.

(** *** The key of a metadata document *)

Lemma append_assoc (a b c : string) : (a +:+ b) +:+ c = a +:+ (b +:+ c).
Proof.
  induction a as [|x a IH]; [reflexivity|].
  change (String x ((a +:+ b) +:+ c) = String x (a +:+ (b +:+ c))).
  f_equal. exact IH.
Qed.

Lemma append_length (a b : string) :
  String.length (a +:+ b) = String.length a + String.length b.
Proof.
  induction a as [|x a IH]; [reflexivity|].
  change (S (String.length (a +:+ b)) = S (String.length a + String.length b)).
  f_equal. exact IH.
Qed.

Lemma append_cons (c : ascii) (a b : string) :
  String c a +:+ b = String c (a +:+ b).
Proof. reflexivity. Qed.

Lemma append_nil (b : string) : "" +:+ b = b.
Proof. reflexivity. Qed.

Lemma append_inv_tail (a b c : string) : a +:+ c = b +:+ c -> a = b.
Proof.
  revert b. induction a as [|x a IH]; intros [|y b] H.
  - reflexivity.
  - apply (f_equal String.length) in H. rewrite !append_length in H.
    cbn in H. lia.
  - apply (f_equal String.length) in H. rewrite !append_length in H.
    cbn in H. lia.
  - rewrite !append_cons in H. inversion H as [[Hx Hab]]. f_equal.
    now apply IH.
Qed.

Lemma underscore_split (a b x y : string) :
  no_underscore a = true -> no_underscore b = true ->
  a +:+ "_" +:+ x = b +:+ "_" +:+ y -> a = b /\ x = y.
Proof.
  revert b. induction a as [|c a IH]; intros [|d b] Ha Hb H;
    rewrite ?append_cons, ?append_nil in H.
  - inversion H. auto.
  - inversion H as [[Hc Hx]]. subst d. cbn in Hb. discriminate.
  - inversion H as [[Hc Hx]]. subst c. cbn in Ha. discriminate.
  - inversion H as [[Hc Hx]]. subst d. cbn in Ha, Hb.
    apply andb_true_iff in Ha as [_ Ha]. apply andb_true_iff in Hb as [_ Hb].
    destruct (IH b Ha Hb Hx) as [-> ->]. auto.
Qed.

(** X11. Badges of test ids without an underscore never share a metadata
    document: the key [badge-metadata/{testId}_{wallet}.json] determines
    the test id and the wallet address. *)
Theorem metadata_key_determines_the_badge (testId wallet testId' wallet' : string) :
  no_underscore testId = true -> no_underscore testId' = true ->
  metadata_key testId wallet = metadata_key testId' wallet' ->
  testId = testId' /\ wallet = wallet'.
Proof.
  intros Ht Ht' H. unfold metadata_key, ObjectStore.object_key,
    SorobanSimple.fileName in H.
  apply (append_inv_head "stellar") in H. apply (append_inv_head "/") in H.
  apply (append_inv_head "badge-metadata/") in H.
  apply underscore_split in H as [-> H]; auto.
  split; [reflexivity|]. now apply append_inv_tail in H.
Qed.

(** The statement above on one badge. *)
Lemma metadata_key_determines_the_badge_witness :
  "T1" = "T1" /\ "GDDX" = "GDDX".
Proof.
  apply (metadata_key_determines_the_badge "T1" "GDDX" "T1" "GDDX");
    reflexivity.
Defined.

(** X12. An underscore in a test id breaks that: the badge of test
    [a_b] for wallet [c] and the badge of test [a] for wallet [b_c] have
    the same key, hence the same document and the same public URL. *)
Theorem underscore_keys_collide (env : Env) (a b c : string) :
  metadata_key (a +:+ "_" +:+ b) c = metadata_key a (b +:+ "_" +:+ c)
  /\ metadata_public_url env (a +:+ "_" +:+ b) c
     = metadata_public_url env a (b +:+ "_" +:+ c).
Proof.
  unfold metadata_key, metadata_public_url, ObjectStore.object_key,
    ObjectStore.publicUrl, SorobanSimple.fileName.
  rewrite !append_assoc. split; reflexivity.
Qed.

(** *** Retrying a mint from the badges tab *)

Lemma retryMintNFT_mint (walletAddress : string) (badge : Badge)
    (test_title : option string) (env : Env) (s : State) :
  walletAddress <> "" -> test_id badge <> "" ->
  BadgesTab.retryMintNFT walletAddress badge test_title env s
  = match NftService.mintBadgeNFT walletAddress (test_id badge)
            (Some (Js.or_default test_title "Achievement Badge"))
            (Some 0%float) (Some 0%float) env s with
    | (Returned data, s1) =>
        match db_fault env (db_ops s1) with
        | Some e =>
            (Returned tt,
             with_error "Retry mint failed:"
               (set_badges (badges s1) (S (db_ops s1)) s1))
        | None =>
            (Returned tt,
             set_badges
               (map (minted_row (id badge) (tokenId data) (txHash data)
                       (metadataUrl data)) (badges s1))
               (S (db_ops s1)) s1)
        end
    | (Thrown e, s1) =>
        (Returned tt,
         with_error "Retry mint failed:" (with_error "NFT minting error:" s1))
    end.
Proof.
  intros Hw Ht.
  unfold BadgesTab.retryMintNFT, BadgesTab.mintNFTViaBackend, try_catch.
  unfold bind at 1. unfold bind at 1.
  rewrite (mint_nft_operation_run env s walletAddress (test_id badge) _ _ _ []
             Hw Ht).
  destruct (NftService.mintBadgeNFT _ _ _ _ _ env s) as [[data|e] s1];
    [|reflexivity].
  cbn -[RecordStore.update_badge]. unfold bind, RecordStore.update_badge.
  destruct (db_fault env (db_ops s1)); reflexivity.
Qed.



(** X14. A retry that fails never touches the table and reports the
    failure on the console only. When it is the record store that fails,
    the mint before it has already gone through: the metadata document
    has been written, and the row still shows no token. *)
Theorem failed_retry_keeps_the_table (walletAddress : string) (badge : Badge)
    (test_title : option string) (env : Env) (s : State) :
  walletAddress <> "" -> test_id badge <> "" ->
  storage_fault env (storage_ops s) <> None
  \/ db_fault env (db_ops s) <> None ->
  let r := BadgesTab.retryMintNFT walletAddress badge test_title env s in
  fst r = Returned tt
  /\ badges (snd r) = badges s
  /\ hd_error (console (snd r)) = Some (Error, "Retry mint failed:")
  /\ (storage_fault env (storage_ops s) = None ->
      is_Some (storage (snd r) !! metadata_key (test_id badge) walletAddress)).
Proof.
  intros Hw Ht Hf r. subst r.
  rewrite (retryMintNFT_mint _ _ _ _ _ Hw Ht), mintBadgeNFT_sim_run.
  destruct (storage_fault env (storage_ops s)) as [f|].
  - repeat apply conj; try reflexivity. discriminate.
  - cbn [db_ops set_draws set_ticks set_storage].
    destruct (db_fault env (db_ops s)) as [e|]; [|destruct Hf; congruence].
    repeat apply conj; try reflexivity. intros _. cbn.
    rewrite lookup_insert_eq. eauto.
Qed.

(** The statement above with a record store that is down. *)
Lemma failed_retry_keeps_the_table_witness :
  badges (snd (BadgesTab.retryMintNFT "GDDX" pending_badge None db_down_env
                 one_badge_state))
  = [pending_badge].
Proof.
  destruct (failed_retry_keeps_the_table "GDDX" pending_badge None db_down_env
              one_badge_state) as (_ & E & _);
    [cbn; congruence | cbn; congruence | right; cbn; congruence |].
  exact E.
Defined.

(** *** What the badges tab shows *)

Section Grouping.

Import BadgesView.

Variable localeCompare : string -> string -> Z.

Lemma sum_fold {A B} (f : A -> list B) (l : list A) (n : nat) :
  fold_left (fun sum g => sum + length (f g)) l n = n + length (flat_map f l).
Proof.
  revert n. induction l as [|a l IH]; intros n; cbn; [lia|].
  rewrite IH, length_app. lia.
Qed.

Lemma fold_invariant {A B} (I : B -> Prop) (step : B -> A -> B) (l : list A)
    (b : B) :
  (forall b a, I b -> I (step b a)) -> I b -> I (fold_left step l b).
Proof.
  intros Hstep. revert b. induction l as [|a l IH]; intros b Hb; cbn; auto.
Qed.

Lemma add_badge_badges (b : BadgeWithTest) (gs : list GroupedBadges) :
  Permutation (flat_map group_badges (add_badge b gs))
    (b :: flat_map group_badges gs).
Proof.
  induction gs as [|g gs IH]; cbn; [reflexivity|].
  destruct (String.eqb (company g) (company_of (bwt_test b))); cbn.
  - rewrite <- app_assoc. cbn. symmetry. apply Permutation_middle.
  - rewrite IH. symmetry. apply Permutation_middle.
Qed.

Lemma add_badge_attempts (b : BadgeWithTest) (gs : list GroupedBadges) :
  flat_map practiceAttempts (add_badge b gs) = flat_map practiceAttempts gs.
Proof.
  induction gs as [|g gs IH]; cbn; [reflexivity|].
  destruct (String.eqb (company g) (company_of (bwt_test b))); cbn;
    [reflexivity | now rewrite IH].
Qed.

Lemma add_attempt_attempts (a : PracticeAttempt) (gs : list GroupedBadges) :
  Permutation (flat_map practiceAttempts (add_attempt a gs))
    (a :: flat_map practiceAttempts gs).
Proof.
  induction gs as [|g gs IH]; cbn; [reflexivity|].
  destruct (String.eqb (company g) (company_of (pa_test a))); cbn.
  - rewrite <- app_assoc. cbn. symmetry. apply Permutation_middle.
  - rewrite IH. symmetry. apply Permutation_middle.
Qed.

Lemma add_attempt_badges (a : PracticeAttempt) (gs : list GroupedBadges) :
  flat_map group_badges (add_attempt a gs) = flat_map group_badges gs.
Proof.
  induction gs as [|g gs IH]; cbn; [reflexivity|].
  destruct (String.eqb (company g) (company_of (pa_test a))); cbn;
    [reflexivity | now rewrite IH].
Qed.

Lemma add_badge_companies (b : BadgeWithTest) (gs : list GroupedBadges)
    (c : string) :
  In c (map company (add_badge b gs)) ->
  In c (map company gs) \/ c = company_of (bwt_test b).
Proof.
  induction gs as [|g gs IH]; cbn.
  - intros [<-|[]]. now right.
  - destruct (String.eqb (company g) (company_of (bwt_test b))); cbn.
    + intros [H|H]; auto.
    + intros [H|H]; auto. destruct (IH H); auto.
Qed.

Lemma add_attempt_companies (a : PracticeAttempt) (gs : list GroupedBadges)
    (c : string) :
  In c (map company (add_attempt a gs)) ->
  In c (map company gs) \/ c = company_of (pa_test a).
Proof.
  induction gs as [|g gs IH]; cbn.
  - intros [<-|[]]. now right.
  - destruct (String.eqb (company g) (company_of (pa_test a))); cbn.
    + intros [H|H]; auto.
    + intros [H|H]; auto. destruct (IH H); auto.
Qed.

Lemma add_badge_distinct (b : BadgeWithTest) (gs : list GroupedBadges) :
  List.NoDup (map company gs) -> List.NoDup (map company (add_badge b gs)).
Proof.
  induction gs as [|g gs IH]; cbn; intros H.
  - constructor; [intros [] | constructor].
  - destruct (String.eqb (company g) (company_of (bwt_test b))) eqn:E; cbn;
      [exact H|].
    inversion H as [|? ? Hnotin Hrest]; subst. constructor; [|auto].
    intros Hin. destruct (add_badge_companies _ _ _ Hin) as [Hin'|Heq]; auto.
    apply String.eqb_neq in E. contradiction.
Qed.

Lemma add_attempt_distinct (a : PracticeAttempt) (gs : list GroupedBadges) :
  List.NoDup (map company gs) -> List.NoDup (map company (add_attempt a gs)).
Proof.
  induction gs as [|g gs IH]; cbn; intros H.
  - constructor; [intros [] | constructor].
  - destruct (String.eqb (company g) (company_of (pa_test a))) eqn:E; cbn;
      [exact H|].
    inversion H as [|? ? Hnotin Hrest]; subst. constructor; [|auto].
    intros Hin. destruct (add_attempt_companies _ _ _ Hin) as [Hin'|Heq]; auto.
    apply String.eqb_neq in E. contradiction.
Qed.

Lemma add_badge_grouped (b : BadgeWithTest) (gs : list GroupedBadges) :
  Forall well_grouped gs -> Forall well_grouped (add_badge b gs).
Proof.
  induction gs as [|g gs IH]; cbn; intros H.
  - constructor; [|constructor]. split; [repeat constructor|].
    split; [constructor | left; intros [=]].
  - inversion H as [|? ? (Hb & Ha & Hne) Hrest]; subst.
    destruct (String.eqb (company g) (company_of (bwt_test b))) eqn:E.
    + apply String.eqb_eq in E. constructor; [|exact Hrest].
      repeat split; cbn; [|exact Ha|].
      * apply Forall_app. split; [exact Hb | repeat constructor; auto].
      * left. intros N. apply app_eq_nil in N as [_ N]. discriminate.
    + constructor; [repeat split; auto | auto].
Qed.

Lemma add_attempt_grouped (a : PracticeAttempt) (gs : list GroupedBadges) :
  Forall well_grouped gs -> Forall well_grouped (add_attempt a gs).
Proof.
  induction gs as [|g gs IH]; cbn; intros H.
  - constructor; [|constructor]. split; [constructor|].
    split; [repeat constructor | right; intros [=]].
  - inversion H as [|? ? (Hb & Ha & Hne) Hrest]; subst.
    destruct (String.eqb (company g) (company_of (pa_test a))) eqn:E.
    + apply String.eqb_eq in E. constructor; [|exact Hrest].
      repeat split; cbn; [exact Hb| |].
      * apply Forall_app. split; [exact Ha | repeat constructor; auto].
      * right. intros N. apply app_eq_nil in N as [_ N]. discriminate.
    + constructor; [repeat split; auto | auto].
Qed.

Lemma insert_sorted_perm (g : GroupedBadges) (sorted : list GroupedBadges) :
  Permutation (insert_sorted localeCompare g sorted) (g :: sorted).
Proof.
  induction sorted as [|h rest IH]; cbn; [reflexivity|].
  destruct (localeCompare (company g) (company h) <? 0)%Z; [reflexivity|].
  rewrite IH. apply perm_swap.
Qed.

Lemma sort_from_perm (groups acc : list GroupedBadges) :
  Permutation
    (fold_left (fun sorted g => insert_sorted localeCompare g sorted) groups acc)
    (groups ++ acc).
Proof.
  revert acc. induction groups as [|g groups IH]; intros acc; cbn;
    [reflexivity|].
  rewrite IH, insert_sorted_perm. now rewrite Permutation_middle.
Qed.

Lemma sort_perm (groups : list GroupedBadges) :
  Permutation (sort localeCompare groups) groups.
Proof. unfold sort. rewrite sort_from_perm. now rewrite app_nil_r. Qed.

Lemma fold_add_badge (bs : list BadgeWithTest) (gs : list GroupedBadges) :
  let gs' := fold_left (fun m b => add_badge b m) bs gs in
  Permutation (flat_map group_badges gs') (bs ++ flat_map group_badges gs)
  /\ flat_map practiceAttempts gs' = flat_map practiceAttempts gs.
Proof.
  revert gs. induction bs as [|b bs IH]; intros gs; cbn; [split; reflexivity|].
  destruct (IH (add_badge b gs)) as [P E]. split.
  - rewrite P, add_badge_badges. now rewrite Permutation_middle.
  - now rewrite E, add_badge_attempts.
Qed.

Lemma fold_add_attempt (atts : list PracticeAttempt) (gs : list GroupedBadges) :
  let gs' := fold_left (fun m a => add_attempt a m) atts gs in
  Permutation (flat_map practiceAttempts gs')
    (atts ++ flat_map practiceAttempts gs)
  /\ flat_map group_badges gs' = flat_map group_badges gs.
Proof.
  revert gs. induction atts as [|a atts IH]; intros gs; cbn;
    [split; reflexivity|].
  destruct (IH (add_attempt a gs)) as [P E]. split.
  - rewrite P, add_attempt_attempts. now rewrite Permutation_middle.
  - now rewrite E, add_attempt_badges.
Qed.

Lemma groupByCompany_unfold (badgesData : list Badge)
    (attemptsData : list Attempt) (testsData : list Test) :
  groupByCompany localeCompare badgesData attemptsData testsData
  = sort localeCompare
      (fold_left (fun m a => add_attempt a m)
         (map (fun a => mkPracticeAttempt a
                          (find_test testsData (att_test_id a))) attemptsData)
         (fold_left (fun m b => add_badge b m)
            (map (fun b => mkBadgeWithTest b (find_test testsData (test_id b)))
               badgesData) [])).
Proof. destruct badgesData, attemptsData; reflexivity. Qed.

(** X15. The grouping of the badges tab is a partition by company: every
    badge and every attempt fetched is shown exactly once, each in the
    group of its test's company ("Independent" when the test is not
    found or names none), no company has two groups and no group is
    empty. This holds for any comparison the sort is given. *)
Theorem grouping_is_a_partition (badgesData : list Badge)
    (attemptsData : list Attempt) (testsData : list Test) :
  let groups := groupByCompany localeCompare badgesData attemptsData testsData in
  Permutation (flat_map group_badges groups)
    (map (fun b => mkBadgeWithTest b (find_test testsData (test_id b)))
       badgesData)
  /\ Permutation (flat_map practiceAttempts groups)
       (map (fun a => mkPracticeAttempt a (find_test testsData (att_test_id a)))
          attemptsData)
  /\ List.NoDup (map company groups)
  /\ Forall well_grouped groups.
Proof.
  intros groups. subst groups. rewrite groupByCompany_unfold.
  set (bs := map _ badgesData). set (atts := map _ attemptsData).
  destruct (fold_add_badge bs []) as [Pb Eb].
  destruct (fold_add_attempt atts (fold_left (fun m b => add_badge b m) bs []))
    as [Pa Ea].
  cbn in Pb, Eb. rewrite app_nil_r in Pb.
  repeat apply conj.
  - rewrite sort_perm, Ea. exact Pb.
  - rewrite sort_perm, Pa, Eb. now rewrite app_nil_r.
  - rewrite sort_perm.
    apply (fold_invariant (fun gs => List.NoDup (map company gs)));
      [intros; now apply add_attempt_distinct|].
    apply (fold_invariant (fun gs => List.NoDup (map company gs)));
      [intros; now apply add_badge_distinct | constructor].
  - rewrite sort_perm.
    apply (fold_invariant (Forall well_grouped));
      [intros; now apply add_attempt_grouped|].
    apply (fold_invariant (Forall well_grouped));
      [intros; now apply add_badge_grouped | constructor].
Qed.

(** X16. The two figures of the summary card are the numbers of rows
    fetched: [totalBadges] is the number of badges and [totalPractice]
    the number of attempts, whatever tests and companies they belong
    to. *)
Theorem totals_count_the_rows (badgesData : list Badge)
    (attemptsData : list Attempt) (testsData : list Test) :
  let groups := groupByCompany localeCompare badgesData attemptsData testsData in
  totalBadges groups = length badgesData
  /\ totalPractice groups = length attemptsData.
Proof.
  intros groups. subst groups. rewrite groupByCompany_unfold.
  set (bs := map _ badgesData). set (atts := map _ attemptsData).
  destruct (fold_add_badge bs []) as [Pb Eb].
  destruct (fold_add_attempt atts (fold_left (fun m b => add_badge b m) bs []))
    as [Pa Ea].
  cbn in Pb, Eb. rewrite app_nil_r in Pb.
  unfold totalBadges, totalPractice. rewrite !sum_fold. cbn. split.
  - rewrite sort_perm, Ea, Pb. subst bs. apply length_map.
  - rewrite sort_perm, Pa, Eb, app_nil_r. subst atts. apply length_map.
Qed.

End Grouping.

(** *** Custom badges of the profile tab *)

(** [trim] on ASCII and on Unicode white space: the no-break space, the
    ideographic space and the byte order mark are stripped at both ends,
    white space inside the text stays, and a byte that only looks like
    the tail of a white space character does not count. *)
Example trim_known :
  ProfileTab.trim "  Python Expert " = "Python Expert"
  /\ ProfileTab.trim (nbsp +:+ "Rust" +:+ nbsp +:+ " ") = "Rust"
  /\ ProfileTab.trim (nbsp +:+ " " +:+ nbsp) = ""
  /\ ProfileTab.trim (ideographic_space +:+ "Go" +:+ byte_order_mark) = "Go"
  /\ ProfileTab.trim ("a" +:+ nbsp +:+ "b") = "a" +:+ nbsp +:+ "b"
  /\ ProfileTab.trim (String "160" "x") = String "160" "x".
Proof. repeat apply conj; vm_compute; reflexivity. Qed.

(** X17. An incomplete form changes nothing: a badge name that is empty
    once trimmed, or no file, makes [handleUploadBadge] show an error
    and leave the world as it is; the name is checked first. *)
Theorem incomplete_form_changes_nothing (userId badgeName : string)
    (svgFile : option string) (env : Env) (s : State) :
  ProfileTab.trim badgeName = "" \/ svgFile = None ->
  ProfileTab.handleUploadBadge userId badgeName svgFile env s
  = (Returned
       (ProfileTab.ShowError
          (if String.eqb (ProfileTab.trim badgeName) ""
           then "Please enter a badge name"
           else "Please select an SVG file")), s).
Proof.
  intros H. unfold ProfileTab.handleUploadBadge.
  destruct (String.eqb_spec (ProfileTab.trim badgeName) "") as [E|E];
    [reflexivity|].
  destruct H as [H| ->]; [contradiction | reflexivity].
Qed.

(** The statement above on a name of two no-break spaces, with no file
    selected. *)
Lemma incomplete_form_changes_nothing_witness :
  ProfileTab.handleUploadBadge "u-7" (nbsp +:+ nbsp) None sample_env empty_state
  = (Returned (ProfileTab.ShowError "Please enter a badge name"), empty_state).
Proof.
  apply (incomplete_form_changes_nothing "u-7" (nbsp +:+ nbsp) None).
  left. reflexivity.
Defined.



(** *** The file behind the URL of a custom badge *)

Lemma rev_app_append (a b s : string) :
  String.rev_app a b +:+ s = String.rev_app a (b +:+ s).
Proof.
  revert b. induction a as [|c a IH]; intros b; [reflexivity|].
  cbn [String.rev_app]. now rewrite IH.
Qed.

Lemma rev_cons_append (c : ascii) (current s : string) :
  String.rev (String c current) +:+ s = String.rev current +:+ String c s.
Proof. unfold String.rev. cbn [String.rev_app]. now rewrite !rev_app_append. Qed.

Lemma split_from_skip (t s separator current : string) :
  JsString.split_from (t +:+ s) separator (String.length t) current
  = JsString.split_from s separator 0 current.
Proof.
  induction t as [|c t IH]; [reflexivity|].
  rewrite append_cons. exact IH.
Qed.

Lemma split_from_no_match (s separator current : string) :
  Js.includes s separator = false ->
  JsString.split_from s separator 0 current = [String.rev current +:+ s].
Proof.
  revert current. induction s as [|c s IH]; intros current H.
  - cbn. f_equal. clear. induction (String.rev current) as [|x r IHr];
      [reflexivity|]. rewrite append_cons. now f_equal.
  - cbn [Js.includes] in H. apply orb_false_iff in H as [H1 H2].
    cbn [JsString.split_from]. rewrite H1, (IH _ H2).
    now rewrite rev_cons_append.
Qed.

Lemma early_match_needs_slash (x rest : string) :
  Js.startsWith (x +:+ "/") "/stellar/" = false ->
  Js.startsWith
    (x +:+ "/storage/v1/object/public" +:+ "/stellar/" +:+ rest) "/stellar/"
  = false.
Proof.
  destruct x as [|c1 [|c2 [|c3 [|c4 [|c5 [|c6 [|c7 [|c8 [|c9 x]]]]]]]]];
    cbn; auto; intros _;
    repeat (match goal with
            | |- context [Ascii.eqb ?a ?b] => destruct (Ascii.eqb a b) eqn:?
            end; cbn; try reflexivity; try discriminate).
Qed.

Lemma append_nil_r (s : string) : s +:+ "" = s.
Proof.
  induction s as [|c s IH]; [reflexivity|]. rewrite append_cons. now f_equal.
Qed.

Ltac push_append := repeat (rewrite append_cons || rewrite append_nil).

Lemma split_public_url (base path current : string) :
  Js.includes (base +:+ "/") "/stellar/" = false ->
  JsString.split_from
    (base +:+ "/storage/v1/object/public" +:+ "/stellar/" +:+ path)
    "/stellar/" 0 current
  = (String.rev current +:+ base +:+ "/storage/v1/object/public")
    :: JsString.split_from path "/stellar/" 0 "".
Proof.
  revert current. induction base as [|c base IH]; intros current H.
  - push_append. cbn -[String.rev]. f_equal.
    etransitivity; [symmetry; apply append_nil_r|].
    now rewrite !rev_cons_append.
  - cbn [Js.includes] in H. rewrite append_cons in H.
    apply orb_false_iff in H as [H1 H2]. rewrite <- append_cons in H1.
    rewrite append_cons. cbn [JsString.split_from].
    rewrite <- append_cons, (early_match_needs_slash _ _ H1), append_cons.
    rewrite (IH _ H2). now rewrite rev_cons_append.
Qed.

(** X19. The path [handleDeleteBadge] cuts out of a badge's URL is the
    path the file was uploaded under, provided the text [/stellar/] shows
    up neither in the project URL followed by a slash nor in the path
    itself: the split then has exactly the two parts around the bucket's
    name. *)
Theorem deleted_path_is_uploaded_path (base path : string) :
  Js.includes (base +:+ "/") "/stellar/" = false ->
  Js.includes path "/stellar/" = false ->
  ProfileFiles.file_path_of (ObjectStore.publicUrl base "stellar" path)
  = Some path.
Proof.
  intros Hbase Hpath. unfold ProfileFiles.file_path_of, JsString.split.
  change (ObjectStore.publicUrl base "stellar" path)
    with (base +:+ "/storage/v1/object/public" +:+ "/stellar/" +:+ path).
  rewrite (split_public_url _ _ _ Hbase), (split_from_no_match _ _ _ Hpath).
  reflexivity.
Qed.

(** The statement above on the URL of an uploaded badge. *)
Lemma deleted_path_is_uploaded_path_witness :
  ProfileFiles.file_path_of
    "https://p.supabase.co/storage/v1/object/public/stellar/badges/u-7_17.svg"
  = Some "badges/u-7_17.svg".
Proof.
  apply (deleted_path_is_uploaded_path "https://p.supabase.co"
           "badges/u-7_17.svg"); reflexivity.
Defined.

(** X20. Where that does not hold the wrong file is named: with the
    text [/stellar/] in the project URL, the path cut out of the URL of
    any upload is the rest of the project URL, not the file's. *)
Theorem deleted_path_in_a_stellar_project (project path : string) :
  Js.includes (project +:+ "/") "/stellar/" = false ->
  ProfileFiles.file_path_of
    (ObjectStore.publicUrl ("https://host/stellar/" +:+ project) "stellar" path)
  = Some (project +:+ "/storage/v1/object/public").
Proof.
  intros H. unfold ProfileFiles.file_path_of, JsString.split.
  unfold ObjectStore.publicUrl.
  change ("/storage/v1/object/public/" +:+ "stellar" +:+ "/" +:+ path)
    with ("/storage/v1/object/public" +:+ "/stellar/" +:+ path).
  rewrite append_assoc.
  set (tail := project +:+ "/storage/v1/object/public" +:+ "/stellar/" +:+ path).
  push_append. cbn -[String.rev]. subst tail.
  rewrite (split_public_url _ _ _ H). reflexivity.
Qed.

(** The statement above on one such URL. *)
Lemma deleted_path_in_a_stellar_project_witness :
  ProfileFiles.file_path_of
    "https://host/stellar/p/storage/v1/object/public/stellar/badges/u-7_17.svg"
  = Some "p/storage/v1/object/public".
Proof.
  apply (deleted_path_in_a_stellar_project "p" "badges/u-7_17.svg").
  reflexivity.
Defined.

(** *** The metadata helper of the frontend and the object store *)

(** X22. A store that fails on the upload makes the metadata helper
    throw the store's own message, with nothing written and the failure
    logged twice; the earlier revision of the helper, on the same
    failure, logs it once and returns a URL all the same, behind which
    nothing has been stored. *)
Theorem helper_on_a_failing_store (testId walletAddress : string)
    (title : option string) (score totalScore : option Js.Number)
    (env : Env) (s : State) (f : StorageFault) :
  storage_fault env (storage_ops s) = Some f ->
  let now := SorobanSimple.generateBadgeMetadataUri testId walletAddress title
               score totalScore env s in
  let before := SorobanSimple.generateBadgeMetadataUri_legacy testId
                  walletAddress title score totalScore env s in
  fst now = Thrown (ObjectStore.error_message (ObjectStore.fault_error f))
  /\ storage (snd now) = storage s
  /\ console (snd now)
     = (Error, "Error generating badge metadata:")
       :: (Error, "Error uploading badge metadata:") :: console s
  /\ fst before = Returned (legacy_url env testId walletAddress)
  /\ storage (snd before) = storage s
  /\ console (snd before)
     = (Error, "Error uploading badge metadata:") :: console s.
Proof.
  intros H.
  unfold SorobanSimple.generateBadgeMetadataUri,
    SorobanSimple.generateBadgeMetadataUri_legacy, try_catch, bind, ask,
    Date_now, ObjectStore.upload.
  cbn. rewrite H. destruct f; cbn; repeat apply conj; reflexivity.
Qed.

(** The statement above with an object store that is down. *)
Lemma helper_on_a_failing_store_witness :
  fst (SorobanSimple.generateBadgeMetadataUri "T1" "GDDX" None None None
         store_down_env empty_state)
  = Thrown "TransientStorageError".
Proof.
  destruct (helper_on_a_failing_store "T1" "GDDX" None None None store_down_env
              empty_state FaultTransient eq_refl) as [E _].
  exact E.
Defined.

(** X23. The earlier revision of the metadata helper never throws: it
    returns the same URL whatever the store does. That URL and the key
    it writes lie in a bucket of their own, so they differ from the URL
    and the key of the current revision for every badge. *)
Theorem legacy_helper_is_total (testId walletAddress : string)
    (title : option string) (score totalScore : option Js.Number)
    (env : Env) (s : State) :
  fst (SorobanSimple.generateBadgeMetadataUri_legacy testId walletAddress title
         score totalScore env s)
  = Returned (legacy_url env testId walletAddress)
  /\ (forall testId' walletAddress',
        legacy_url env testId walletAddress
        <> metadata_public_url env testId' walletAddress'
        /\ legacy_key testId walletAddress
           <> metadata_key testId' walletAddress').
Proof.
  split.
  - unfold SorobanSimple.generateBadgeMetadataUri_legacy, try_catch, bind, ask,
      Date_now, ObjectStore.upload.
    cbn. destruct (storage_fault env (storage_ops s)) as [[]|]; cbn;
      [reflexivity | reflexivity |].
    destruct (storage s !! _); reflexivity.
  - intros testId' walletAddress'. split; intros E.
    + unfold legacy_url, metadata_public_url, ObjectStore.publicUrl in E.
      apply append_inv_head in E. apply append_inv_head in E.
      rewrite !append_cons in E. discriminate.
    + unfold legacy_key, metadata_key, ObjectStore.object_key in E.
      rewrite !append_cons in E. discriminate.
Qed.

(** X24. The verification that follows the upload is advisory: when the
    upload goes through, the helper returns the public URL and leaves
    the document at its key whatever the listing replies; a reply that
    is [null] or an empty list only adds a warning to the console. *)
Theorem verification_is_advisory (testId walletAddress : string)
    (title : option string) (score totalScore : option Js.Number)
    (env : Env) (s : State) :
  storage_fault env (storage_ops s) = None ->
  let r := SorobanSimple.generateBadgeMetadataUri testId walletAddress title
             score totalScore env s in
  fst r = Returned (metadata_public_url env testId walletAddress)
  /\ storage (snd r) !! metadata_key testId walletAddress
     = Some (JsonBlob
               (SorobanSimple.badge_metadata (supabaseUrl env) testId
                  walletAddress title score totalScore (clock env (ticks s))))
  /\ console (snd r)
     = match storage_list env (S (storage_ops s)) with
       | Some (_ :: _) => console s
       | _ => (Warn, "Warning: Could not verify file existence") :: console s
       end.
Proof.
  intros H.
  unfold SorobanSimple.generateBadgeMetadataUri, try_catch, bind, ask, Date_now,
    ObjectStore.upload, ObjectStore.list_search.
  cbn. rewrite H.
  destruct (storage s !! _); cbn;
    destruct (storage_list env (S (storage_ops s))) as [[|name names]|]; cbn;
    repeat apply conj; try reflexivity; apply lookup_insert_eq.
Qed.

(** The statement above in a world whose store lists nothing. *)
Lemma verification_is_advisory_witness :
  let r := SorobanSimple.generateBadgeMetadataUri "T1" "GDDX" None None None
             empty_listing_env empty_state in
  fst r
  = Returned
      "https://p.supabase.co/storage/v1/object/public/stellar/badge-metadata/T1_GDDX.json"
  /\ console (snd r) = [(Warn, "Warning: Could not verify file existence")].
Proof.
  destruct (verification_is_advisory "T1" "GDDX" None None None
              empty_listing_env empty_state eq_refl) as (E & _ & C).
  split; [exact E | exact C].
Defined.

(** *** Display and simulation helpers of the frontend *)








(** X26. The simulated operations of the frontend never fail and read
    nothing but the clock and the random source: their results do not
    depend on what was asked for, the hash carries the mark of a
    simulation, and the token id, in upper case, is never one the
    backend generates. *)
Theorem frontend_simulation_ignores_its_arguments
    (testId creator metadataCid receiver metadataUri : string)
    (testId' creator' metadataCid' receiver' metadataUri' : string)
    (env : Env) (s : State) :
  let r := SorobanHelpers.registerTestOnChain testId creator metadataCid env s in
  let m := SorobanHelpers.mintBadgeNFT receiver testId metadataUri env s in
  r = SorobanHelpers.registerTestOnChain testId' creator' metadataCid' env s
  /\ m = SorobanHelpers.mintBadgeNFT receiver' testId' metadataUri' env s
  /\ (exists hash,
        fst r = Returned (SorobanHelpers.mkRegistered true hash)
        /\ Js.startsWith hash "sim_" = true)
  /\ (exists hash token,
        fst m = Returned (SorobanHelpers.mkMinted true hash token)
        /\ Js.startsWith hash "sim_" = true
        /\ Js.startsWith token "NFT_" = true
        /\ forall anyTest now, token <> generated_token anyTest now)
  /\ same_stores s (snd r) /\ same_stores s (snd m)
  /\ rpc_log (snd r) = rpc_log s /\ rpc_log (snd m) = rpc_log s.
Proof.
  repeat apply conj; try reflexivity.
  - eexists. split; reflexivity.
  - eexists _, _. repeat apply conj; try reflexivity.
    intros anyTest now E. unfold generated_token in E.
    rewrite !append_cons in E. discriminate.
Qed.

(** *** How the ledger clients end *)

Lemma bind_returned {A B} (m : M A) (k : A -> M B) (env : Env) (s s' : State)
    (b : B) :
  bind m k env s = (Returned b, s') ->
  exists a s1, m env s = (Returned a, s1) /\ k a env s1 = (Returned b, s').
Proof.
  unfold bind. destruct (m env s) as [[a|e] s1]; [eauto | discriminate].
Qed.

Lemma ret_returned {A} (a b : A) (env : Env) (s s' : State) :
  ret a env s = (Returned b, s') -> a = b.
Proof. now intros [= ->]. Qed.

(** X27. The two ledger clients end in one of two ways, with or without
    a signer. When they return, the result reports success and carries
    what was asked for: the metadata URI of the mint, or the test id,
    the creator and the metadata reference of the registration. When
    anything fails, the failure is logged once and rethrown behind the
    operation's own prefix; a result that reports no success is never
    returned. *)
Theorem ledger_failures_are_wrapped (receiver testId metadataUri creator
    metadataCid : string) (signerKeypair : option string) (env : Env)
    (s : State) :
  match BadgeNFTService.mintBadgeNFT receiver testId metadataUri signerKeypair
          env s with
  | (Returned minted, _) =>
      success minted = true /\ metadataUrl minted = metadataUri
  | (Thrown e, s') =>
      (exists cause, e = "NFT minting failed: " +:+ cause)
      /\ hd_error (console s') = Some (Error, "Error minting badge NFT:")
  end
  /\ match RegistryService.registerTestOnChain testId creator metadataCid
             signerKeypair env s with
     | (Returned registered, _) =>
         reg_success registered = true
         /\ exists created,
              testMetadata registered
              = mkTestMetadata testId creator metadataCid created
     | (Thrown e, s') =>
         (exists cause, e = "Blockchain registration failed: " +:+ cause)
         /\ hd_error (console s')
            = Some (Error, "Error registering test on-chain:")
     end.
Proof.
  split.
  - unfold BadgeNFTService.mintBadgeNFT, try_catch.
    match goal with
    | |- context [match ?body env s with _ => _ end] =>
        destruct (body env s) as [[minted|e] s1] eqn:B
    end; [|cbn; eauto].
    apply bind_returned in B as (env' & s2 & _ & B).
    destruct signerKeypair as [signer|].
    + apply bind_returned in B as (hash & s3 & _ & B).
      apply bind_returned in B as (txResult & s4 & _ & B).
      apply bind_returned in B as (now & s5 & _ & B).
      apply bind_returned in B as (token & s6 & _ & B).
      apply ret_returned in B as <-. auto.
    + apply bind_returned in B as (now & s3 & _ & B).
      apply bind_returned in B as (suffix & s4 & _ & B).
      apply bind_returned in B as (now' & s5 & _ & B).
      apply bind_returned in B as (suffix' & s6 & _ & B).
      apply ret_returned in B as <-. auto.
  - unfold RegistryService.registerTestOnChain, try_catch.
    match goal with
    | |- context [match ?body env s with _ => _ end] =>
        destruct (body env s) as [[registered|e] s1] eqn:B
    end; [|cbn; eauto].
    apply bind_returned in B as (env' & s2 & _ & B).
    destruct signerKeypair as [signer|].
    + apply bind_returned in B as (u & s3 & _ & B).
      apply bind_returned in B as (account & s4 & _ & B).
      apply bind_returned in B as (tx & s5 & _ & B).
      apply bind_returned in B as (hash & s6 & _ & B).
      apply bind_returned in B as (created & s7 & _ & B).
      apply ret_returned in B as <-. cbn. eauto.
    + apply bind_returned in B as (now & s3 & _ & B).
      apply bind_returned in B as (suffix & s4 & _ & B).
      apply bind_returned in B as (created & s5 & _ & B).
      apply ret_returned in B as <-. cbn. eauto.
Qed.
